(** * docto_alert_on_new_slot: a shallow embedding and its properties

    The script logs into the booking service, fetches a doctor's booking
    page, and polls the availabilities endpoint until a slot shows up.
    Every page it reads is a decoded JSON document, handled with Python's
    dynamic operations (subscripts, [in], [len], truthiness).  The
    embedding below keeps that shape: documents are values of [json], the
    Python operations are functions that return a value or raise, and the
    methods of the script are written in a state-and-exception monad over
    the browser object and its environment.

    Left out: the parsing of the command line, and the set-up of the
    loggers and of the HTTP session ([Session.send], the headers).
    [Doctolib.normalize], which the script does not call, is embedded
    for its own sake.  What the libraries do is part of the environment
    where the script cannot tell: the answers of the server, the cookies
    they leave, the sound player. *)

From Stdlib Require Import ZArith List String Ascii Bool Lia Arith.
From Stdlib Require Import DecimalString DecimalPos RelationClasses.
Import ListNotations.
Local Open Scope string_scope.
Local Open Scope Z_scope.
Set Warnings "-register-all".

(** ** Decoded JSON documents

    What [json.load] and [JsonPage] hand to the script.  Numbers are the
    integers; the script never reads a fractional number.  Characters are
    the 256 code points of [ascii]. *)

Inductive json : Type :=
| JNull
| JBool (b : bool)
| JInt (z : Z)
| JStr (s : string)
| JArr (xs : list json)
| JObj (kvs : list (string * json)).

(** Exceptions the script can meet. *)
Inductive exn : Type :=
| KeyError
| IndexError
| TypeError
| ValueError
| EOFError
| EnvironmentError (msg : string)
| ClientError (status : Z)                          (* woob: 4xx, not 404 *)
| HTTPNotFound                                      (* woob: 404, no ClientError *)
| ServerError (status : Z) (content_type : option string) (text : string)
| AttributeError
| ConnectionError                                   (* transport failure *)
| PlaysoundException
| ModuleNotFoundError
| FileNotFoundError
| KeyboardInterrupt.

Inductive result (A : Type) : Type :=
| Ok (a : A)
| Raise (e : exn).
Arguments Ok {A} a.
Arguments Raise {A} e.

Definition rbind {A B} (r : result A) (k : A -> result B) : result B :=
  match r with
  | Ok a => k a
  | Raise e => Raise e
  end.

Declare Scope res_scope.
Delimit Scope res_scope with res.
Notation "x <-? r ; k" := (rbind r (fun x => k))
  (at level 61, r at next level, right associativity) : res_scope.

(** ** Python's operations on decoded values *)

Module Py.

Fixpoint assoc (k : string) (kvs : list (string * json)) : option json :=
  match kvs with
  | [] => None
  | (k', v) :: rest => if String.eqb k k' then Some v else assoc k rest
  end.

(** [bool(x)] *)
Definition truthy (x : json) : bool :=
  match x with
  | JNull => false
  | JBool b => b
  | JInt z => negb (z =? 0)
  | JStr s => negb (String.eqb s "")
  | JArr xs => match xs with [] => false | _ => true end
  | JObj kvs => match kvs with [] => false | _ => true end
  end.

(** [x[key]] with a string key *)
Definition getitem (x : json) (key : string) : result json :=
  match x with
  | JObj kvs => match assoc key kvs with
                | Some v => Ok v
                | None => Raise KeyError
                end
  | _ => Raise TypeError
  end.

(** [x.get(key, default)] on a dict *)
Definition get (x : json) (key : string) (default : json) : result json :=
  match x with
  | JObj kvs => match assoc key kvs with
                | Some v => Ok v
                | None => Ok default
                end
  | _ => Raise AttributeError
  end.

(** [xs[i]] on a sequence: indices count from the end when negative. *)
Definition nth_index {A} (xs : list A) (i : Z) : option A :=
  let n := Z.of_nat (List.length xs) in
  if (0 <=? i) && (i <? n) then nth_error xs (Z.to_nat i)
  else if (- n <=? i) && (i <? 0) then nth_error xs (Z.to_nat (n + i))
  else None.

Definition index (x : json) (i : Z) : result json :=
  match x with
  | JArr xs => match nth_index xs i with
               | Some v => Ok v
               | None => Raise IndexError
               end
  | JStr s => match nth_index (list_ascii_of_string s) i with
              | Some c => Ok (JStr (String c EmptyString))
              | None => Raise IndexError
              end
  | JObj _ => Raise KeyError       (* keys of a decoded object are strings *)
  | _ => Raise TypeError
  end.

(** [len(x)] *)
Definition len (x : json) : result Z :=
  match x with
  | JArr xs => Ok (Z.of_nat (List.length xs))
  | JObj kvs => Ok (Z.of_nat (List.length kvs))
  | JStr s => Ok (Z.of_nat (String.length s))
  | _ => Raise TypeError
  end.

(** [x == y]: [True] and [False] are the integers 1 and 0, dicts compare
    as maps. *)
Fixpoint eqb (x y : json) {struct x} : bool :=
  match x, y with
  | JNull, JNull => true
  | JBool a, JBool b => Bool.eqb a b
  | JBool a, JInt z => (if a then 1 else 0) =? z
  | JInt z, JBool b => z =? (if b then 1 else 0)
  | JInt a, JInt b => a =? b
  | JStr a, JStr b => String.eqb a b
  | JArr xs, JArr ys =>
      (fix all2 (xs ys : list json) {struct xs} : bool :=
         match xs, ys with
         | [], [] => true
         | x' :: xs', y' :: ys' => eqb x' y' && all2 xs' ys'
         | _, _ => false
         end) xs ys
  | JObj kx, JObj ky =>
      Nat.eqb (List.length kx) (List.length ky) &&
      (fix sub (kx : list (string * json)) {struct kx} : bool :=
         match kx with
         | [] => true
         | (k, v) :: rest =>
             match assoc k ky with
             | Some v' => eqb v v'
             | None => false
             end && sub rest
         end) kx
  | _, _ => false
  end.

(** Is [needle] a substring of [hay]?  ([needle in hay] on two strings) *)
Fixpoint is_substring (needle hay : string) : bool :=
  String.prefix needle hay ||
  match hay with
  | EmptyString => false
  | String _ rest => is_substring needle rest
  end.

(** [x in c] *)
Definition contains (x c : json) : result bool :=
  match c with
  | JArr xs => Ok (existsb (eqb x) xs)
  | JObj kvs =>
      match x with
      | JStr k => Ok (match assoc k kvs with Some _ => true | None => false end)
      | JArr _ | JObj _ => Raise TypeError          (* unhashable *)
      | _ => Ok false
      end
  | JStr s =>
      match x with
      | JStr k => Ok (is_substring k s)
      | _ => Raise TypeError
      end
  | _ => Raise TypeError
  end.

End Py.

(** ** Python's text operations: [str], [repr], [int], [%] *)

Module PyText.

Definition of_Z (z : Z) : string := NilZero.string_of_int (Z.to_int z).

Definition code (c : ascii) : Z := Z.of_nat (nat_of_ascii c).

Definition dquote : ascii := ascii_of_nat 34.

Definition hex_digit (n : Z) : ascii :=
  if n <? 10 then ascii_of_nat (Z.to_nat (48 + n))
  else ascii_of_nat (Z.to_nat (87 + n)).

Definition hex2 (c : ascii) : string :=
  String (hex_digit (code c / 16)) (String (hex_digit (code c mod 16)) "").

Fixpoint has_char (c : ascii) (s : string) : bool :=
  match s with
  | EmptyString => false
  | String c' rest => Ascii.eqb c c' || has_char c rest
  end.

(** [repr] of a [str]: single quotes unless the text has a single quote
    and no double quote; control and non-printable characters escaped. *)
Definition repr_char (quote c : ascii) : string :=
  let n := code c in
  if Ascii.eqb c quote || Ascii.eqb c "\"%char then String "\"%char (String c "")
  else if n =? 9 then "\t"
  else if n =? 10 then "\n"
  else if n =? 13 then "\r"
  else if (n <? 32) || (n =? 127) || ((128 <=? n) && (n <=? 160)) || (n =? 173)
       then "\x" ++ hex2 c
  else String c "".

Fixpoint repr_chars (quote : ascii) (s : string) : string :=
  match s with
  | EmptyString => ""
  | String c rest => repr_char quote c ++ repr_chars quote rest
  end.

Definition repr_str (s : string) : string :=
  let quote := if has_char "'"%char s && negb (has_char dquote s)
               then dquote else "'"%char in
  String quote (repr_chars quote s ++ String quote "").

Fixpoint repr (x : json) : string :=
  match x with
  | JNull => "None"
  | JBool true => "True"
  | JBool false => "False"
  | JInt z => of_Z z
  | JStr s => repr_str s
  | JArr xs => "[" ++ String.concat ", " (map repr xs) ++ "]"
  | JObj kvs =>
      "{" ++ String.concat ", "
               (map (fun kv => repr_str (fst kv) ++ ": " ++ repr (snd kv)) kvs)
          ++ "}"
  end.

(** [str(x)] *)
Definition str (x : json) : string :=
  match x with
  | JStr s => s
  | _ => repr x
  end.

(** Whitespace as [str.strip] and [int] see it. *)
Definition is_space (c : ascii) : bool :=
  let n := code c in
  ((9 <=? n) && (n <=? 13)) || ((28 <=? n) && (n <=? 32)) || (n =? 133) || (n =? 160).

Fixpoint drop_spaces (cs : list ascii) : list ascii :=
  match cs with
  | c :: rest => if is_space c then drop_spaces rest else cs
  | [] => []
  end.

Definition strip (s : string) : string :=
  string_of_list_ascii
    (rev (drop_spaces (rev (drop_spaces (list_ascii_of_string s))))).

Definition is_digit (c : ascii) : bool := (48 <=? code c) && (code c <=? 57).
Definition digit (c : ascii) : Z := code c - 48.

(** Digits of an integer literal: single underscores may separate
    digits. *)
Fixpoint int_digits (cs : list ascii) (acc : Z) (after_digit : bool) : option Z :=
  match cs with
  | [] => if after_digit then Some acc else None
  | c :: rest =>
      if is_digit c then int_digits rest (acc * 10 + digit c) true
      else if Ascii.eqb c "_"%char && after_digit then int_digits rest acc false
      else None
  end.

(** The interpreter converts no literal of more digits than this
    ([sys.get_int_max_str_digits()], as it is set when it starts). *)
Definition int_max_str_digits : nat := 4300.

Definition count_digits (cs : list ascii) : nat :=
  List.length (filter is_digit cs).

(** The digits of a literal, within the limit on their number. *)
Definition int_literal (cs : list ascii) : option Z :=
  match int_digits cs 0 false with
  | Some n => if (count_digits cs <=? int_max_str_digits)%nat then Some n else None
  | None => None
  end.

(** [int(s)] in base 10; [ValueError] on anything else. *)
Definition int (s : string) : result Z :=
  match list_ascii_of_string (strip s) with
  | c :: rest =>
      if Ascii.eqb c "-"%char then
        match int_literal rest with
        | Some n => Ok (- n) | None => Raise ValueError end
      else if Ascii.eqb c "+"%char then
        match int_literal rest with
        | Some n => Ok n | None => Raise ValueError end
      else
        match int_literal (c :: rest) with
        | Some n => Ok n | None => Raise ValueError end
  | [] => Raise ValueError
  end.

(** *** The [%] operator on a format string

    [log] applies [text % tuple(args)] where every argument is a string
    ([colored] returns one).  Only the outcome matters to the script: the
    formatting succeeds or raises.  The scan follows the interpreter's
    parser of conversion specifications: flags, width, precision, length
    modifier, conversion character. *)

Inductive phase : Type :=
| PLit                      (* ordinary text *)
| PStart                    (* just after [%] *)
| PFlags                    (* after one or more flags *)
| PWidth (w : Z)            (* inside the width digits *)
| PDot                      (* just after the [.] of a precision *)
| PPrec (p : Z)             (* inside the precision digits *)
| PLen.                     (* after a length modifier *)

Definition ssize_max : Z := 2 ^ 63 - 1.
Definition int_max : Z := 2 ^ 31 - 1.

Definition is_flag (c : ascii) : bool :=
  has_char c "-+ #0".

(** The conversion character [c] with [n] arguments left: the phase and
    the number of arguments to go on with, or the exception.  Every
    conversion takes an argument first, a [%] that does not follow the
    opening [%] at once included. *)
Definition conversion (c : ascii) (n : nat) : result (phase * nat) :=
  match n with
  | O => Raise TypeError                        (* not enough arguments *)
  | S n' =>
      if has_char c "sra" then Ok (PLit, n')
      else if has_char c "diuoxXeEfFgGc" then Raise TypeError
      else Raise ValueError                     (* unsupported character *)
  end.

Definition length_or_conversion (c : ascii) (n : nat) : result (phase * nat) :=
  if has_char c "hlL" then Ok (PLen, n) else conversion c n.

Definition precision_or_later (c : ascii) (n : nat) : result (phase * nat) :=
  if Ascii.eqb c "."%char then Ok (PDot, n) else length_or_conversion c n.

Definition width_or_later (c : ascii) (n : nat) : result (phase * nat) :=
  if Ascii.eqb c "*"%char then Raise TypeError   (* no integer argument *)
  else if is_digit c then Ok (PWidth (digit c), n)
  else precision_or_later c n.

Definition percent_step (ph : phase) (c : ascii) (n : nat) : result (phase * nat) :=
  match ph with
  | PLit => if Ascii.eqb c "%"%char then Ok (PStart, n) else Ok (PLit, n)
  | PStart =>
      if Ascii.eqb c "%"%char then Ok (PLit, n)      (* [%%] is a percent sign *)
      else if Ascii.eqb c "("%char then Raise TypeError   (* format requires a mapping *)
      else if is_flag c then Ok (PFlags, n)
      else width_or_later c n
  | PFlags =>
      if is_flag c then Ok (PFlags, n) else width_or_later c n
  | PWidth w =>
      if is_digit c then
        if w >? (ssize_max - digit c) / 10 then Raise ValueError
        else Ok (PWidth (w * 10 + digit c), n)
      else precision_or_later c n
  | PDot =>
      if Ascii.eqb c "*"%char then Raise TypeError
      else if is_digit c then Ok (PPrec (digit c), n)
      else length_or_conversion c n
  | PPrec p =>
      if is_digit c then
        if p >? (int_max - digit c) / 10 then Raise ValueError
        else Ok (PPrec (p * 10 + digit c), n)
      else length_or_conversion c n
  | PLen => conversion c n
  end.

Fixpoint percent_scan (ph : phase) (s : string) (n : nat) : result unit :=
  match s with
  | EmptyString =>
      match ph, n with
      | PLit, O => Ok tt
      | PLit, S _ => Raise TypeError           (* not all arguments converted *)
      | _, _ => Raise ValueError               (* incomplete format *)
      end
  | String c rest =>
      match percent_step ph c n with
      | Ok (ph', n') => percent_scan ph' rest n'
      | Raise e => Raise e
      end
  end.

(** [text % args] for [nargs] string arguments: does it format? *)
Definition percent (text : json) (nargs : nat) : result unit :=
  match text with
  | JStr s => percent_scan PLit s nargs
  | _ => Raise TypeError                       (* unsupported operand *)
  end.

(** [%d] of one value *)
Definition format_d (x : json) : result string :=
  match x with
  | JInt z => Ok (of_Z z)
  | JBool b => Ok (if b then "1" else "0")
  | _ => Raise TypeError
  end.

End PyText.

(** ** The [json] module: [json.dump] and [json.load]

    The text that [json.dump] writes with its default settings
    ([ensure_ascii], separators [", "] and [": "]) and the value
    [json.load] reads back.  A number with a fraction or an exponent and a
    [\u] escape above code point 255 have no counterpart in [json]; the
    reader gives no value for them. *)

Module Json.

Import PyText.

Definition escape_char (c : ascii) : string :=
  let n := code c in
  if n =? 34 then "\" ++ String dquote ""
  else if n =? 92 then "\\"
  else if n =? 10 then "\n"
  else if n =? 13 then "\r"
  else if n =? 9 then "\t"
  else if n =? 8 then "\b"
  else if n =? 12 then "\f"
  else if (32 <=? n) && (n <=? 126) then String c ""
  else "\u00" ++ hex2 c.

Fixpoint escape (s : string) : string :=
  match s with
  | EmptyString => ""
  | String c rest => escape_char c ++ escape rest
  end.

Definition dumps_str (s : string) : string :=
  String dquote (escape s ++ String dquote "").

Fixpoint dumps (x : json) : string :=
  match x with
  | JNull => "null"
  | JBool true => "true"
  | JBool false => "false"
  | JInt z => of_Z z
  | JStr s => dumps_str s
  | JArr xs => "[" ++ String.concat ", " (map dumps xs) ++ "]"
  | JObj kvs =>
      "{" ++ String.concat ", "
               (map (fun kv => dumps_str (fst kv) ++ ": " ++ dumps (snd kv)) kvs)
          ++ "}"
  end.

(** *** Reading *)

Definition is_ws (c : ascii) : bool :=
  let n := code c in (n =? 32) || (n =? 9) || (n =? 10) || (n =? 13).

Fixpoint skip_ws (s : string) : string :=
  match s with
  | String c rest => if is_ws c then skip_ws rest else s
  | EmptyString => s
  end.

Definition hex_value (c : ascii) : option Z :=
  let n := code c in
  if (48 <=? n) && (n <=? 57) then Some (n - 48)
  else if (97 <=? n) && (n <=? 102) then Some (n - 87)
  else if (65 <=? n) && (n <=? 70) then Some (n - 55)
  else None.

Definition hex4 (a b c d : ascii) : option Z :=
  match hex_value a, hex_value b, hex_value c, hex_value d with
  | Some x, Some y, Some z, Some w => Some (((x * 16 + y) * 16 + z) * 16 + w)
  | _, _, _, _ => None
  end.

(** The characters of a string literal after its opening quote, up to
    the closing quote; the text after it. *)
Fixpoint loads_chars (s : string) : option (string * string) :=
  match s with
  | EmptyString => None
  | String c rest =>
      if Ascii.eqb c dquote then Some ("", rest)
      else if Ascii.eqb c "\"%char then
        match rest with
        | String e rest' =>
            let plain (ch : ascii) :=
              match loads_chars rest' with
              | Some (t, r) => Some (String ch t, r)
              | None => None
              end in
            if Ascii.eqb e dquote then plain dquote
            else if Ascii.eqb e "\"%char then plain "\"%char
            else if Ascii.eqb e "/"%char then plain "/"%char
            else if Ascii.eqb e "b"%char then plain (ascii_of_nat 8)
            else if Ascii.eqb e "f"%char then plain (ascii_of_nat 12)
            else if Ascii.eqb e "n"%char then plain (ascii_of_nat 10)
            else if Ascii.eqb e "r"%char then plain (ascii_of_nat 13)
            else if Ascii.eqb e "t"%char then plain (ascii_of_nat 9)
            else if Ascii.eqb e "u"%char then
              match rest' with
              | String h1 (String h2 (String h3 (String h4 rest''))) =>
                  match hex4 h1 h2 h3 h4 with
                  | Some n =>
                      if n <? 256 then
                        match loads_chars rest'' with
                        | Some (t, r) => Some (String (ascii_of_nat (Z.to_nat n)) t, r)
                        | None => None
                        end
                      else None
                  | None => None
                  end
              | _ => None
              end
            else None
        | EmptyString => None
        end
      else if code c <? 32 then None          (* control character *)
      else
        match loads_chars rest with
        | Some (t, r) => Some (String c t, r)
        | None => None
        end
  end.

(** The longest run of decimal digits at the head of the text. *)
Fixpoint loads_digits (s : string) : Decimal.uint * string :=
  match s with
  | String c rest =>
      let more (k : Decimal.uint -> Decimal.uint) :=
        let (d, r) := loads_digits rest in (k d, r) in
      if is_digit c then
        match digit c with
        | 0 => more Decimal.D0 | 1 => more Decimal.D1 | 2 => more Decimal.D2
        | 3 => more Decimal.D3 | 4 => more Decimal.D4 | 5 => more Decimal.D5
        | 6 => more Decimal.D6 | 7 => more Decimal.D7 | 8 => more Decimal.D8
        | _ => more Decimal.D9
        end
      else (Decimal.Nil, s)
  | EmptyString => (Decimal.Nil, s)
  end.

Definition uint_eqb (a b : Decimal.uint) : bool :=
  if Decimal.uint_eq_dec a b then true else false.

Definition starts_fraction (s : string) : bool :=
  match s with
  | String c _ => has_char c ".eE"
  | EmptyString => false
  end.

(** An integer literal: no leading zero, no fraction, no exponent. *)
Definition loads_nat (s : string) : option (Z * string) :=
  let (d, r) := loads_digits s in
  match d with
  | Decimal.Nil => None
  | _ => if uint_eqb (Decimal.unorm d) d && negb (starts_fraction r)
         then Some (Z.of_uint d, r) else None
  end.

(** A key read twice keeps its place and takes the later value. *)
Fixpoint obj_set (k : string) (v : json) (kvs : list (string * json))
  : list (string * json) :=
  match kvs with
  | [] => [(k, v)]
  | (k', v') :: rest =>
      if String.eqb k k' then (k, v) :: rest else (k', v') :: obj_set k v rest
  end.

Fixpoint drop_prefix (p s : string) : option string :=
  match p, s with
  | EmptyString, _ => Some s
  | String a p', String b s' => if Ascii.eqb a b then drop_prefix p' s' else None
  | String _ _, EmptyString => None
  end.

Fixpoint loads_value (fuel : nat) (s : string) {struct fuel}
  : option (json * string) :=
  match fuel with
  | O => None
  | S fuel' =>
      match skip_ws s with
      | EmptyString => None
      | String c rest =>
          if Ascii.eqb c dquote then
            match loads_chars rest with
            | Some (t, r) => Some (JStr t, r)
            | None => None
            end
          else if Ascii.eqb c "["%char then
            match skip_ws rest with
            | String c' r' =>
                if Ascii.eqb c' "]"%char then Some (JArr [], r')
                else loads_items fuel' [] rest
            | EmptyString => None
            end
          else if Ascii.eqb c "{"%char then
            match skip_ws rest with
            | String c' r' =>
                if Ascii.eqb c' "}"%char then Some (JObj [], r')
                else loads_members fuel' [] rest
            | EmptyString => None
            end
          else if Ascii.eqb c "-"%char then
            match loads_nat rest with
            | Some (n, r) => Some (JInt (- n), r)
            | None => None
            end
          else if is_digit c then
            match loads_nat (String c rest) with
            | Some (n, r) => Some (JInt n, r)
            | None => None
            end
          else
            match drop_prefix "null" (String c rest),
                  drop_prefix "true" (String c rest),
                  drop_prefix "false" (String c rest) with
            | Some r, _, _ => Some (JNull, r)
            | _, Some r, _ => Some (JBool true, r)
            | _, _, Some r => Some (JBool false, r)
            | _, _, _ => None
            end
      end
  end

with loads_items (fuel : nat) (acc : list json) (s : string) {struct fuel}
  : option (json * string) :=
  match fuel with
  | O => None
  | S fuel' =>
      match loads_value fuel' s with
      | Some (v, r) =>
          match skip_ws r with
          | String c r' =>
              if Ascii.eqb c ","%char then loads_items fuel' (v :: acc) r'
              else if Ascii.eqb c "]"%char then Some (JArr (rev (v :: acc)), r')
              else None
          | EmptyString => None
          end
      | None => None
      end
  end

with loads_members (fuel : nat) (acc : list (string * json)) (s : string)
  {struct fuel} : option (json * string) :=
  match fuel with
  | O => None
  | S fuel' =>
      match skip_ws s with
      | String q r0 =>
          if Ascii.eqb q dquote then
            match loads_chars r0 with
            | Some (k, r1) =>
                match skip_ws r1 with
                | String c r2 =>
                    if Ascii.eqb c ":"%char then
                      match loads_value fuel' r2 with
                      | Some (v, r3) =>
                          match skip_ws r3 with
                          | String c' r4 =>
                              if Ascii.eqb c' ","%char
                              then loads_members fuel' (obj_set k v acc) r4
                              else if Ascii.eqb c' "}"%char
                              then Some (JObj (obj_set k v acc), r4)
                              else None
                          | EmptyString => None
                          end
                      | None => None
                      end
                    else None
                | EmptyString => None
                end
            | None => None
            end
          else None
      | EmptyString => None
      end
  end.

(** [json.loads]: one value, nothing but white space after it. *)
Definition loads (s : string) : option json :=
  match loads_value (S (String.length s)) s with
  | Some (v, r) => match skip_ws r with
                   | EmptyString => Some v
                   | _ => None
                   end
  | None => None
  end.

End Json.

(** ** Addresses: the URL of a request with its parameters

    The query string that [requests] appends for the parameters of a
    request, with [urlencode] and [quote_plus]: a string or a number
    stands for one value, a list for its elements, a dict for its keys,
    and [None] for nothing.  The characters of a value are written in
    UTF-8. *)

Module Url.

Import PyText.

(** The characters that [quote_plus] leaves as they are. *)
Definition unreserved (c : ascii) : bool :=
  let n := code c in
  ((48 <=? n) && (n <=? 57)) || ((65 <=? n) && (n <=? 90))
  || ((97 <=? n) && (n <=? 122)) || has_char c "_.-~".

Definition upper_hex_digit (n : Z) : ascii :=
  if n <? 10 then ascii_of_nat (Z.to_nat (48 + n))
  else ascii_of_nat (Z.to_nat (55 + n)).

Definition percent_byte (n : Z) : string :=
  String "%" (String (upper_hex_digit (n / 16)) (String (upper_hex_digit (n mod 16)) "")).

Definition quote_char (c : ascii) : string :=
  let n := code c in
  if unreserved c then String c ""
  else if n =? 32 then "+"
  else if n <? 128 then percent_byte n
  else percent_byte (192 + n / 64) ++ percent_byte (128 + n mod 64).

Fixpoint quote_plus (s : string) : string :=
  match s with
  | EmptyString => ""
  | String c rest => quote_char c ++ quote_plus rest
  end.

(** The values of one parameter. *)
Definition values (v : json) : list json :=
  filter (fun x => match x with JNull => false | _ => true end)
         match v with
         | JArr xs => xs
         | JObj kvs => map (fun kv => JStr (fst kv)) kvs
         | _ => [v]
         end.

(** The texts that [urlencode] writes for one value: a value with a
    length is written element by element. *)
Definition texts (v : json) : list string :=
  match v with
  | JArr xs => map str xs
  | JObj kvs => map fst kvs
  | _ => [str v]
  end.

Definition query (params : list (string * json)) : string :=
  String.concat "&"
    (flat_map (fun kv =>
       flat_map (fun v => map (fun t => quote_plus (fst kv) ++ "=" ++ quote_plus t)
                              (texts v))
                (values (snd kv)))
       params).

(** The address with its query string, when there is one. *)
Definition with_query (url : string) (params : list (string * json)) : string :=
  match query params with
  | EmptyString => url
  | q => url ++ "?" ++ q
  end.

End Url.

(** ** The browser, its environment and the effects of the script *)

Record date : Type := mk_date { year : Z; month : Z; day : Z }.

(** One HTTP request as the script issues it: [URL.go] or [Browser.open]. *)
Record request : Type := mk_request {
  rq_method : string;
  rq_url : string;
  rq_params : list (string * json);
  rq_json : option json }.

(** What the browser makes of the answer: the cookie jar as the answer
    leaves it, when it changes it (in the encoding of [dump_state]); the
    address of the response, when the server redirects to another one
    than was asked for; and the decoded document of the page, or the
    exception that the browser raises. *)
Record reply : Type := mk_reply {
  rp_cookies : option string;
  rp_url : option string;
  rp_outcome : result json }.

Definition page_reply (doc : json) : reply := mk_reply None None (Ok doc).
Definition error_reply (e : exn) : reply := mk_reply None None (Raise e).

Inductive event : Type :=
| EvRequest (r : request)
| EvPrint (text : string)
| EvLog (text : string) (args : list json) (color : option string)
| EvDebug (values : list json)
| EvInput (prompt : string)
| EvSleep (seconds : Z)
| EvPlaysound (file : string)
| EvWrite (text : string).                  (* the state file, rewritten *)

(** The environment: what the server will answer, what the operator
    will type, whether a terminal is attached, which sleeps are
    interrupted, what each call of the sound player does (it plays, or it
    raises) and whether the [playsound] module is installed, the clock,
    what the library makes of the saved state (whether its expiry date,
    when it has one, is past, or what reading that date raises; the
    cookie jar once the saved cookies are put back, when that changes
    it), the data directory and the state file.  Then the objects of the
    script: [docto.page.doc] and the address of that page, the address
    of the last response, the cookie jar of the session (in the encoding
    of [dump_state]), [docto.patient], [args.motive_id].  Last, the
    events so far, latest first. *)
Record store : Type := mk_store {
  replies : list reply;
  stdin : list string;
  isatty : bool;
  sleeps : list bool;
  sounds : list (option exn);
  has_playsound : bool;
  today : date;
  expiry : result bool;
  restored : option string;
  data_dir : bool;
  state_file : option string;
  page : json;
  page_url : option string;
  response_url : string;
  cookies : string;
  patient : json;
  motive_id : json;
  trace : list event }.

Definition set_replies (x : list reply) (s : store) : store :=
  mk_store x (stdin s) (isatty s) (sleeps s) (sounds s) (has_playsound s)
           (today s) (expiry s) (restored s) (data_dir s) (state_file s)
           (page s) (page_url s) (response_url s) (cookies s) (patient s)
           (motive_id s) (trace s).
Definition set_stdin (x : list string) (s : store) : store :=
  mk_store (replies s) x (isatty s) (sleeps s) (sounds s) (has_playsound s)
           (today s) (expiry s) (restored s) (data_dir s) (state_file s)
           (page s) (page_url s) (response_url s) (cookies s) (patient s)
           (motive_id s) (trace s).
Definition set_sleeps (x : list bool) (s : store) : store :=
  mk_store (replies s) (stdin s) (isatty s) x (sounds s) (has_playsound s)
           (today s) (expiry s) (restored s) (data_dir s) (state_file s)
           (page s) (page_url s) (response_url s) (cookies s) (patient s)
           (motive_id s) (trace s).
Definition set_sounds (x : list (option exn)) (s : store) : store :=
  mk_store (replies s) (stdin s) (isatty s) (sleeps s) x (has_playsound s)
           (today s) (expiry s) (restored s) (data_dir s) (state_file s)
           (page s) (page_url s) (response_url s) (cookies s) (patient s)
           (motive_id s) (trace s).
Definition set_data_dir (x : bool) (s : store) : store :=
  mk_store (replies s) (stdin s) (isatty s) (sleeps s) (sounds s)
           (has_playsound s) (today s) (expiry s) (restored s) x
           (state_file s) (page s) (page_url s) (response_url s) (cookies s)
           (patient s) (motive_id s) (trace s).
Definition set_state_file (x : option string) (s : store) : store :=
  mk_store (replies s) (stdin s) (isatty s) (sleeps s) (sounds s)
           (has_playsound s) (today s) (expiry s) (restored s) (data_dir s) x
           (page s) (page_url s) (response_url s) (cookies s) (patient s)
           (motive_id s) (trace s).
Definition set_response_url (x : string) (s : store) : store :=
  mk_store (replies s) (stdin s) (isatty s) (sleeps s) (sounds s)
           (has_playsound s) (today s) (expiry s) (restored s) (data_dir s)
           (state_file s) (page s) (page_url s) x (cookies s) (patient s)
           (motive_id s) (trace s).
Definition set_cookies (x : string) (s : store) : store :=
  mk_store (replies s) (stdin s) (isatty s) (sleeps s) (sounds s)
           (has_playsound s) (today s) (expiry s) (restored s) (data_dir s)
           (state_file s) (page s) (page_url s) (response_url s) x
           (patient s) (motive_id s) (trace s).
Definition set_patient (x : json) (s : store) : store :=
  mk_store (replies s) (stdin s) (isatty s) (sleeps s) (sounds s)
           (has_playsound s) (today s) (expiry s) (restored s) (data_dir s)
           (state_file s) (page s) (page_url s) (response_url s) (cookies s)
           x (motive_id s) (trace s).
Definition set_motive_id (x : json) (s : store) : store :=
  mk_store (replies s) (stdin s) (isatty s) (sleeps s) (sounds s)
           (has_playsound s) (today s) (expiry s) (restored s) (data_dir s)
           (state_file s) (page s) (page_url s) (response_url s) (cookies s)
           (patient s) x (trace s).

(** [self.page] once a page is built from the last response: its
    document, and the address of that response. *)
Definition set_page (doc : json) (s : store) : store :=
  mk_store (replies s) (stdin s) (isatty s) (sleeps s) (sounds s)
           (has_playsound s) (today s) (expiry s) (restored s) (data_dir s)
           (state_file s) doc (Some (response_url s)) (response_url s)
           (cookies s) (patient s) (motive_id s) (trace s).

(** A browser that has built no page yet. *)
Definition no_page (s : store) : store :=
  mk_store (replies s) (stdin s) (isatty s) (sleeps s) (sounds s)
           (has_playsound s) (today s) (expiry s) (restored s) (data_dir s)
           (state_file s) JNull None (response_url s) (cookies s) (patient s)
           (motive_id s) (trace s).

Definition emit (e : event) (s : store) : store :=
  mk_store (replies s) (stdin s) (isatty s) (sleeps s) (sounds s)
           (has_playsound s) (today s) (expiry s) (restored s) (data_dir s)
           (state_file s) (page s) (page_url s) (response_url s) (cookies s)
           (patient s) (motive_id s) (e :: trace s).

(** How a piece of the script ends: it returns, it raises, or it is still
    running when the step budget of its loops is used up. *)
Inductive outcome (A : Type) : Type :=
| Ret (a : A)
| Exc (e : exn)
| Running.
Arguments Ret {A} a.
Arguments Exc {A} e.
Arguments Running {A}.

Definition M (A : Type) : Type := store -> outcome A * store.

Definition ret {A} (a : A) : M A := fun s => (Ret a, s).
Definition raise {A} (e : exn) : M A := fun s => (Exc e, s).
Definition running {A} : M A := fun s => (Running, s).

Definition bind {A B} (m : M A) (k : A -> M B) : M B :=
  fun s => match m s with
           | (Ret a, s') => k a s'
           | (Exc e, s') => (Exc e, s')
           | (Running, s') => (Running, s')
           end.

Declare Scope m_scope.
Delimit Scope m_scope with M.
Notation "x <- m ;; k" := (bind m (fun x => k))
  (at level 61, m at next level, right associativity) : m_scope.
Notation "m ;; k" := (bind m (fun _ => k))
  (at level 61, right associativity) : m_scope.
Local Open Scope m_scope.

Definition lift {A} (r : result A) : M A :=
  match r with
  | Ok a => ret a
  | Raise e => raise e
  end.

Definition gets {A} (f : store -> A) : M A := fun s => (Ret (f s), s).
Definition modify (f : store -> store) : M unit := fun s => (Ret tt, f s).

(** [try: m except <handled>: h] *)
Definition try_except {A} (m : M A) (handled : exn -> bool) (h : exn -> M A) : M A :=
  fun s => match m s with
           | (Exc e, s') => if handled e then h e s' else (Exc e, s')
           | r => r
           end.

(** [try: m finally: f] *)
Definition try_finally {A} (m : M A) (f : M unit) : M A :=
  fun s => match m s with
           | (Running, s') => (Running, s')
           | (r, s') =>
               match f s' with
               | (Ret _, s'') => (r, s'')
               | (Exc e, s'') => (Exc e, s'')
               | (Running, s'') => (Running, s'')
               end
           end.

(** *** Primitive effects *)

Definition print (text : string) : M unit := modify (emit (EvPrint text)).

(** [log(text, *args, color=...)]: [colored] turns the text into a string
    when a colour is given; then [text % tuple(args)] is printed.  The
    event keeps the format and its arguments. *)
Definition log (text : json) (args : list json) (color : option string) : M unit :=
  lift (PyText.percent match color with
                       | Some _ => JStr (PyText.str text)
                       | None => text
                       end
                       (List.length args)) ;;
  modify (emit (EvLog (PyText.str text) args color)).

(** [sys.stdin.readline()]: the next line, or the empty string at the end
    of the input. *)
Definition readline : M string :=
  lines <- gets stdin ;;
  match lines with
  | l :: rest => modify (set_stdin rest) ;; ret l
  | [] => ret ""
  end.

Definition chomp (l : string) : string :=
  match rev (list_ascii_of_string l) with
  | c :: r => if Ascii.eqb c (ascii_of_nat 10)
              then string_of_list_ascii (rev r) else l
  | [] => l
  end.

(** [input(prompt)] *)
Definition input (prompt : string) : M string :=
  modify (emit (EvInput prompt)) ;;
  lines <- gets stdin ;;
  match lines with
  | l :: rest => modify (set_stdin rest) ;; ret (chomp l)
  | [] => raise EOFError
  end.

(** [sleep(n)]: Ctrl-C reaches the script while it sleeps. *)
Definition sleep (seconds : Z) : M unit :=
  modify (emit (EvSleep seconds)) ;;
  naps <- gets sleeps ;;
  match naps with
  | interrupted :: rest =>
      modify (set_sleeps rest) ;;
      if interrupted : bool then raise KeyboardInterrupt else ret tt
  | [] => ret tt
  end.

Definition is_playsound_error (e : exn) : bool :=
  match e with PlaysoundException | ModuleNotFoundError => true | _ => false end.

(** [playsound(file)], lines 16-26.  With the [playsound] module, the
    script drops the two errors it names and lets any other pass; without
    it, the script starts VLC at a fixed path, and what [Popen] raises
    (the program is not there) leaves the script. *)
Definition playsound (file : string) : M unit :=
  modify (emit (EvPlaysound file)) ;;
  pending <- gets sounds ;;
  match pending with
  | [] => ret tt
  | played :: rest =>
      modify (set_sounds rest) ;;
      match played with
      | None => ret tt
      | Some e =>
          installed <- gets has_playsound ;;
          if (installed : bool) && is_playsound_error e then ret tt else raise e
      end
  end.

(** The address of the response to [r]: the one that was asked for,
    unless the reply names another. *)
Definition address (r : request) (rp : reply) : string :=
  match rp_url rp with
  | Some u => u
  | None => Url.with_query (rq_url r) (rq_params r)
  end.

(** One exchange with the server: the request goes out, the next reply
    comes in and leaves its cookies, and the browser returns the decoded
    document or raises. *)
Definition transfer (r : request) : M json :=
  modify (emit (EvRequest r)) ;;
  pending <- gets replies ;;
  match pending with
  | [] => raise ConnectionError
  | rp :: rest =>
      modify (set_replies rest) ;;
      modify (set_response_url (address r rp)) ;;
      match rp_cookies rp with
      | Some c => modify (set_cookies c)
      | None => ret tt
      end ;;
      lift (rp_outcome rp)
  end.

(** [Browser.open]: the current page stays. *)
Definition open (r : request) : M unit :=
  transfer r ;; ret tt.

(** [URL.go]: the page built from the response becomes [self.page].
    [build_doc] is the page class's: the decoded document for a
    [JsonPage], the empty string for the two pages that override it. *)
Definition go (r : request) (build_doc : json -> json) : M json :=
  doc <- transfer r ;;
  modify (set_page (build_doc doc)) ;;
  ret (build_doc doc).

Definition json_page (doc : json) : json := doc.
Definition empty_page (_ : json) : json := JStr "".

(** [for x in c]: the elements of a list, the keys of a dict, the
    characters of a string. *)
Definition py_iter (c : json) : result (list json) :=
  match c with
  | JArr xs => Ok xs
  | JObj kvs => Ok (map (fun kv => JStr (fst kv)) kvs)
  | JStr s => Ok (map (fun ch => JStr (String ch "")) (list_ascii_of_string s))
  | _ => Raise TypeError
  end.

Local Open Scope res_scope.

(** ** Pages *)

Module LoginPage.

Definition redirect (doc : json) : result json :=
  Py.getitem doc "redirection".

End LoginPage.

Module DoctorBookingPage.

Definition get_places (doc : json) : result json :=
  data <-? Py.getitem doc "data";
  Py.getitem data "places".

Definition get_practice (doc : json) : result json :=
  data <-? Py.getitem doc "data";
  places <-? Py.getitem data "places";
  place <-? Py.index places 0;
  practice_ids <-? Py.getitem place "practice_ids";
  Py.index practice_ids 0.

(** The condition of the loop of [get_agenda_ids], with the short
    circuits of [and] and [or]. *)
Definition agenda_matches (a motive_id practice_id : json) : result bool :=
  motives <-? Py.getitem a "visit_motive_ids";
  listed <-? Py.contains motive_id motives;
  if negb listed then Ok false else
  disabled <-? Py.getitem a "booking_disabled";
  if Py.truthy disabled then Ok false else
  if negb (Py.truthy practice_id) then Ok true else
  p <-? Py.getitem a "practice_id";
  Ok (Py.eqb p practice_id).

Fixpoint collect_agenda_ids (agendas : list json) (motive_id practice_id : json)
  : result (list string) :=
  match agendas with
  | [] => Ok []
  | a :: rest =>
      keep <-? agenda_matches a motive_id practice_id;
      if keep then
        id <-? Py.getitem a "id";
        ids <-? collect_agenda_ids rest motive_id practice_id;
        Ok (PyText.str id :: ids)
      else collect_agenda_ids rest motive_id practice_id
  end.

(** [practice_id] is [JNull] when the caller leaves it out. *)
Definition get_agenda_ids (doc : json) (motive_id practice_id : json)
  : result (list string) :=
  data <-? Py.getitem doc "data";
  agendas <-? Py.getitem data "agendas";
  items <-? py_iter agendas;
  collect_agenda_ids items motive_id practice_id.

Definition get_profile_id (doc : json) : result json :=
  data <-? Py.getitem doc "data";
  profile <-? Py.getitem data "profile";
  Py.getitem profile "id".

End DoctorBookingPage.

Module MasterPatientPage.

Definition get_patients (doc : json) : json := doc.

Definition get_name (doc : json) : result string :=
  patient <-? Py.index doc 0;
  first <-? Py.getitem patient "first_name";
  last <-? Py.getitem patient "last_name";
  Ok (PyText.str first ++ "-" ++ PyText.str last)%string.

End MasterPatientPage.

Local Close Scope res_scope.

(** ** [unicodedata] and [re] on the characters of a text

    A text holds the 256 code points of [ascii]; the compatibility
    decomposition of some of them leaves that range, so its result is a
    list of code points.  The tables are those of the Unicode database,
    for the code points below 256 and for the ones their decompositions
    hold. *)

Module Unicode.

(** The compatibility decompositions (NFKD) that are not the character
    itself. *)
Definition decompositions : list (Z * list Z) :=
  [(160, [32]); (168, [32; 776]); (170, [97]); (175, [32; 772]);
   (178, [50]); (179, [51]); (180, [32; 769]); (181, [956]);
   (184, [32; 807]); (185, [49]); (186, [111]);
   (188, [49; 8260; 52]); (189, [49; 8260; 50]); (190, [51; 8260; 52]);
   (192, [65; 768]); (193, [65; 769]); (194, [65; 770]); (195, [65; 771]);
   (196, [65; 776]); (197, [65; 778]); (199, [67; 807]);
   (200, [69; 768]); (201, [69; 769]); (202, [69; 770]); (203, [69; 776]);
   (204, [73; 768]); (205, [73; 769]); (206, [73; 770]); (207, [73; 776]);
   (209, [78; 771]);
   (210, [79; 768]); (211, [79; 769]); (212, [79; 770]); (213, [79; 771]);
   (214, [79; 776]);
   (217, [85; 768]); (218, [85; 769]); (219, [85; 770]); (220, [85; 776]);
   (221, [89; 769]);
   (224, [97; 768]); (225, [97; 769]); (226, [97; 770]); (227, [97; 771]);
   (228, [97; 776]); (229, [97; 778]); (231, [99; 807]);
   (232, [101; 768]); (233, [101; 769]); (234, [101; 770]); (235, [101; 776]);
   (236, [105; 768]); (237, [105; 769]); (238, [105; 770]); (239, [105; 776]);
   (241, [110; 771]);
   (242, [111; 768]); (243, [111; 769]); (244, [111; 770]); (245, [111; 771]);
   (246, [111; 776]);
   (249, [117; 768]); (250, [117; 769]); (251, [117; 770]); (252, [117; 776]);
   (253, [121; 769]); (255, [121; 776])].

Definition decompose (c : Z) : list Z :=
  match find (fun entry => fst entry =? c) decompositions with
  | Some entry => snd entry
  | None => [c]
  end.

(** [unicodedata.combining(c) != 0]: the combining diacritical marks. *)
Definition combining (c : Z) : bool :=
  (768 <=? c) && (c <=? 879) && negb (c =? 847).

Definition between (lo hi c : Z) : bool := (lo <=? c) && (c <=? hi).

(** What [\w] matches: letters, digits and the underscore. *)
Definition is_word (c : Z) : bool :=
  between 48 57 c || between 65 90 c || (c =? 95) || between 97 122 c
  || (c =? 170) || (c =? 178) || (c =? 179) || (c =? 181) || (c =? 185)
  || (c =? 186) || between 188 190 c || between 192 214 c
  || between 216 246 c || between 248 255 c || (c =? 956).

(** [str.lower] on one character *)
Definition lower (c : Z) : Z :=
  if between 65 90 c || between 192 214 c || between 216 222 c then c + 32 else c.

(** The code points of a text. *)
Definition codes (s : string) : list Z :=
  map PyText.code (list_ascii_of_string s).

End Unicode.

(** ** The browser: class [Doctolib], as [DoctolibFR] *)

Record args : Type := mk_args {
  debug : bool;
  start_date : option string;
  cli_motive_id : option Z;
  doctor_id : string;
  username : string;
  password : string }.

Module Doctolib.

Definition BASEURL : string := "https://www.doctolib.fr".

Definition post (path : string) (body : json) : request :=
  mk_request "POST" (BASEURL ++ path) [] (Some body).

Definition get (path : string) (params : list (string * json)) : request :=
  mk_request "GET" (BASEURL ++ path) params None.

Definition two_factor_path : string := "/sessions/two-factor".

Definition is_ServerError (e : exn) : bool :=
  match e with ServerError _ _ _ => true | _ => false end.

(** [HTTPNotFound] and [ClientError] both derive from [HTTPError], and
    neither from the other: [except ClientError] lets a 404 pass. *)
Definition is_ClientError (e : exn) : bool :=
  match e with ClientError _ => true | _ => false end.

Definition is_HTTPNotFound (e : exn) : bool :=
  match e with HTTPNotFound => true | _ => false end.

Definition login_request (a : args) : request :=
  post "/login.json"
       (JObj [("kind", JStr "patient");
              ("username", JStr (username a));
              ("password", JStr (password a));
              ("remember", JBool true);
              ("remember_username", JBool true)]).

Definition send_auth_code_request : request :=
  post "/api/accounts/send_auth_code"
       (JObj [("two_factor_auth_method", JStr "email")]).

Definition challenge_request (code : string) : request :=
  post "/login/challenge"
       (JObj [("auth_code", JStr code); ("two_factor_auth_method", JStr "email")]).

(** The handler of [ServerError] around the first request. *)
Definition report_server_error (e : exn) : M unit :=
  match e with
  | ServerError status content_type text =>
      (if status =? 503 then
         match content_type with
         | None => raise KeyError
         | Some ct =>
             if Py.is_substring "text/html" ct
                && (Py.is_substring "cloudflare" text
                    || Py.is_substring "Checking your browser before accessing" text)
             then log (JStr "Request blocked by CloudFlare") [] (Some "red")
             else ret tt
         end
       else ret tt) ;;
      (if status =? 520 then
         log (JStr "Cloudflare is unable to connect to Doctolib server. Please retry later.")
             [] (Some "red")
       else ret tt)
  | _ => ret tt
  end.

(** Lines 156-171: after the login request went through. *)
Definition second_factor : M bool :=
  doc <- gets page ;;
  target <- lift (LoginPage.redirect doc) ;;
  if Py.eqb target (JStr two_factor_path) then
    print "Requesting 2fa code..." ;;
    tty <- gets isatty ;;
    if negb tty then
      log (JStr "Auth Code input required, but no interactive terminal available. Please provide it via command line argument '--code'.")
          [] (Some "red") ;;
      ret false
    else
      go send_auth_code_request empty_page ;;
      code <- input "Enter auth code: " ;;
      try_except (go (challenge_request code) empty_page ;; ret true)
                 is_HTTPNotFound
                 (fun _ => print "Invalid auth code" ;; ret false)
  else ret true.

Definition do_login (a : args) : M bool :=
  try_except (open (get "/sessions/new" []))
             is_ServerError
             (fun e => report_server_error e ;; raise e) ;;
  logged <- try_except (go (login_request a) json_page ;; ret true)
                       is_ClientError
                       (fun _ => print "Wrong login/password" ;; ret false) ;;
  if negb logged then ret false else second_factor.

Definition get_patients : M json :=
  doc <- go (get "/account/master_patients.json" []) json_page ;;
  ret (MasterPatientPage.get_patients doc).

Definition pad (width : nat) (n : Z) : string :=
  let t := PyText.of_Z n in
  String.concat "" (repeat "0" (width - String.length t)) ++ t.

(** [start_date.strftime('%Y-%m-%d')], as the C library of Linux
    formats it: the month and the day on two digits, the year as it is,
    on fewer than four digits before the year 1000. *)
Definition strftime_ymd (d : date) : string :=
  PyText.of_Z (year d) ++ "-" ++ pad 2 (month d) ++ "-" ++ pad 2 (day d).

(** [str(start_date)]: the ISO form, the year on four digits. *)
Definition isoformat (d : date) : string :=
  pad 4 (year d) ++ "-" ++ pad 2 (month d) ++ "-" ++ pad 2 (day d).

(** The line printed for motive number [i]. *)
Definition motive_line (i : Z) (visit_motive : json) : result string :=
  rbind (Py.getitem visit_motive "name") (fun name =>
  rbind (Py.getitem visit_motive "id") (fun id =>
  rbind (PyText.format_d id) (fun id_text =>
  Ok ("* [" ++ PyText.of_Z i ++ "] " ++ PyText.str name
        ++ " (ID: " ++ id_text ++ ")")))).

Fixpoint print_motives (i : Z) (visit_motives : list json) : M unit :=
  match visit_motives with
  | [] => ret tt
  | vm :: rest =>
      line <- lift (motive_line i vm) ;;
      print line ;;
      print_motives (i + 1) rest
  end.

Definition is_Value_or_IndexError (e : exn) : bool :=
  match e with ValueError | IndexError => true | _ => false end.

(** The [while True] that asks for a motive: one round per unit of
    [fuel]. *)
Fixpoint ask_motive (fuel : nat) (visit_motives : json) : M unit :=
  match fuel with
  | O => running
  | S fuel' =>
      print "What is your consultation motive? " ;;
      line <- readline ;;
      chosen <- try_except
                  (i <- lift (PyText.int (PyText.strip line)) ;;
                   vm <- lift (Py.index visit_motives i) ;;
                   id <- lift (Py.getitem vm "id") ;;
                   modify (set_motive_id id) ;;
                   ret true)
                  is_Value_or_IndexError
                  (fun _ => ret false) ;;
      if chosen then ret tt else ask_motive fuel' visit_motives
  end.

(** Lines 189-206: settle [args.motive_id] when it is not set. *)
Definition resolve_motive (fuel : nat) (doc : json) : M unit :=
  current <- gets motive_id ;;
  if negb (Py.truthy current) then
    data <- lift (Py.getitem doc "data") ;;
    visit_motives <- lift (Py.getitem data "visit_motives") ;;
    n <- lift (Py.len visit_motives) ;;
    if n =? 0 then
      raise (EnvironmentError "Doctor does not offer any consultation ATM")
    else if n =? 1 then
      vm <- lift (Py.index visit_motives 0) ;;
      id <- lift (Py.getitem vm "id") ;;
      modify (set_motive_id id)
    else
      print "Available motives are:" ;;
      items <- lift (py_iter visit_motives) ;;
      print_motives 0 items ;;
      ask_motive fuel visit_motives
  else ret tt.

Definition availabilities_request (date motive : json) (agenda_ids : list string)
  (practice_id : json) : request :=
  get "/availabilities.json"
      [("start_date", date);
       ("visit_motive_ids", motive);
       ("agenda_ids", JStr (String.concat "-" agenda_ids));
       ("insurance_sector", JStr "public");
       ("practice_ids", practice_id);
       ("destroy_temporary", JStr "true");
       ("limit", JInt 3)].

(** Lines 211-223: the [while date is not None] loop. *)
Fixpoint follow_next_slot (fuel : nat) (date motive : json)
  (agenda_ids : list string) (practice_id : json) : M unit :=
  match date with
  | JNull => ret tt
  | _ =>
      match fuel with
      | O => running
      | S fuel' =>
          doc <- go (availabilities_request date motive agenda_ids practice_id)
                          json_page ;;
          has_next <- lift (Py.contains (JStr "next_slot") doc) ;;
          next <- (if has_next : bool then lift (Py.getitem doc "next_slot")
                   else ret JNull) ;;
          follow_next_slot fuel' next motive agenda_ids practice_id
      end
  end.

(** [any(a['slots'] for a in availabilities)] *)
Fixpoint any_slots (availabilities : list json) : result bool :=
  match availabilities with
  | [] => Ok false
  | a :: rest =>
      rbind (Py.getitem a "slots") (fun slots =>
      if Py.truthy slots then Ok true else any_slots rest)
  end.

(** Lines 225-231: the decision on the page the loop stopped at. *)
Definition decide (doc : json) : M bool :=
  message <- lift (Py.get doc "message" (JStr "")) ;;
  log message [] None ;;
  availabilities <- lift (Py.getitem doc "availabilities") ;;
  found <- (if negb (Py.truthy availabilities) then ret false
            else items <- lift (py_iter availabilities) ;;
                 lift (any_slots items)) ;;
  if negb found then
    log (JStr "no availabilities") [] (Some "red") ;;
    ret false
  else
    log (JStr "availabilities: %s") [availabilities] (Some "green") ;;
    ret true.

(** Lines 210-231: the poller. *)
Definition poll (fuel : nat) (date motive : json) (agenda_ids : list string)
  (practice_id : json) : M bool :=
  follow_next_slot fuel date motive agenda_ids practice_id ;;
  last <- gets page ;;
  decide last.

Definition booking_request (a : args) : request :=
  get ("/booking/" ++ doctor_id a ++ ".json") [].

(** Lines 189-231: the rest of [has_availability], once the booking page
    is read and the profile and practice ids are taken from it. *)
Definition poll_practice (fuel : nat) (a : args) (start : date)
  (doctor_page doc profile_id practice_id : json) : M bool :=
  resolve_motive fuel doc ;;
  motive <- gets motive_id ;;
  agenda_ids <- lift (DoctorBookingPage.get_agenda_ids doctor_page motive practice_id) ;;
  (if debug a
   then modify (emit (EvDebug [profile_id; practice_id;
                               JArr (map JStr agenda_ids)]))
   else ret tt) ;;
  poll fuel (JStr (strftime_ymd start)) motive agenda_ids practice_id.

Definition has_availability (fuel : nat) (a : args) (start : date) : M bool :=
  doctor_page <- go (booking_request a) json_page ;;
  doc <- gets page ;;
  profile_id <- lift (DoctorBookingPage.get_profile_id doc) ;;
  practice_id <- lift (DoctorBookingPage.get_practice doc) ;;
  poll_practice fuel a start doctor_page doc profile_id practice_id.

(** [load_state], the library's [StatesMixin.load_state]: a state past
    its expiry date is dropped; the saved cookies are put back into the
    jar; the class names no other attribute to restore ([__states__] is
    empty) and [locate_browser], lines 131-133, does nothing.  A state
    that is no dict has no [get]. *)
Definition load_state (state : json) : M unit :=
  expire <- lift (Py.get state "expire" JNull) ;;
  dropped <- (if Py.truthy expire then past <- gets expiry ;; lift past
              else ret false) ;;
  if dropped : bool then ret tt else
  saved <- lift (Py.contains (JStr "cookies") state) ;;
  if saved : bool then
    jar <- gets restored ;;
    match jar with
    | Some c => modify (set_cookies c)
    | None => ret tt
    end
  else ret tt.

(** [dump_state], the library's [StatesMixin.dump_state]: the address
    of the current page, when there is one, and the cookies. *)
Definition dump_state (s : store) : json :=
  JObj (match page_url s with
        | Some u => [("url", JStr u)]
        | None => []
        end ++ [("cookies", JStr (cookies s))]).

(** [normalize], lines 177-183: decompose, drop the combining
    characters, put a hyphen for what is no word character, lower the
    case.  The canonical ordering that NFKD applies only moves combining
    characters, which the second line drops. *)
Definition normalize (text : string) : list Z :=
  let nfkd := flat_map Unicode.decompose (Unicode.codes text) in
  let normalized := filter (fun c => negb (Unicode.combining c)) nfkd in
  let normalized := map (fun c => if Unicode.is_word c then c else 45) normalized in
  map Unicode.lower normalized.

End Doctolib.

(** ** The application *)

Module Application.

(** [json.load] of the state file; no file is no state.  (A file with a
    number that [json] does not hold, see [Json], is out of reach: the
    statements below leave such files out.) *)
Definition load_state : M json :=
  file <- gets state_file ;;
  match file with
  | None => ret (JObj [])                      (* IOError *)
  | Some text =>
      match Json.loads text with
      | Some state => ret state
      | None => raise ValueError
      end
  end.

(** The data directory is made when missing, the file is rewritten. *)
Definition save_state (state : json) : M unit :=
  there <- gets data_dir ;;
  (if negb there then modify (set_data_dir true) else ret tt) ;;
  modify (set_state_file (Some (Json.dumps state))) ;;
  modify (emit (EvWrite (Json.dumps state))).

(** [datetime.datetime.strptime(text, '%d/%m/%Y').date()]: the text is
    matched against the pattern of the format, from its start; what is
    left of the text after the match, a year 0 and a day that the month
    does not have are errors, each with its message. *)

(** The text before the first slash and the text after it. *)
Fixpoint cut_slash (s : string) : option (string * string) :=
  match s with
  | EmptyString => None
  | String c rest =>
      if Ascii.eqb c "/"%char then Some ("", rest)
      else match cut_slash rest with
           | Some (field, after) => Some (String c field, after)
           | None => None
           end
  end.

Definition digits_value (s : string) : Z :=
  fold_left (fun acc c => acc * 10 + PyText.digit c) (list_ascii_of_string s) 0.

Definition all_digits (s : string) : bool :=
  forallb PyText.is_digit (list_ascii_of_string s).

(** [%d]: 1 to 31, with an optional leading zero or space below 10. *)
Definition read_day (s : string) : option Z :=
  match s with
  | String a EmptyString =>
      if PyText.is_digit a && negb (PyText.digit a =? 0) then Some (PyText.digit a) else None
  | String a (String b EmptyString) =>
      if PyText.is_digit b then
        if (Ascii.eqb a " "%char || Ascii.eqb a "0"%char) then
          if PyText.digit b =? 0 then None else Some (PyText.digit b)
        else if PyText.is_digit a then
          let n := PyText.digit a * 10 + PyText.digit b in
          if n <=? 31 then Some n else None
        else None
      else None
  | _ => None
  end.

(** [%m]: 1 to 12, with an optional leading zero below 10. *)
Definition read_month (s : string) : option Z :=
  match s with
  | String a EmptyString =>
      if PyText.is_digit a && negb (PyText.digit a =? 0) then Some (PyText.digit a) else None
  | String a (String b EmptyString) =>
      if PyText.is_digit a && PyText.is_digit b then
        let n := PyText.digit a * 10 + PyText.digit b in
        if (1 <=? n) && (n <=? 12) then Some n else None
      else None
  | _ => None
  end.

(** [%Y]: four digits, and what follows them. *)
Definition read_year (s : string) : option (Z * string) :=
  match s with
  | String a (String b (String c (String d rest))) =>
      let y := String a (String b (String c (String d ""))) in
      if all_digits y then Some (digits_value y, rest) else None
  | _ => None
  end.

Definition is_leap (y : Z) : bool :=
  ((y mod 4 =? 0) && negb (y mod 100 =? 0)) || (y mod 400 =? 0).

Definition days_in_month (y m : Z) : Z :=
  if m =? 2 then (if is_leap y then 29 else 28)
  else if (m =? 4) || (m =? 6) || (m =? 9) || (m =? 11) then 30
  else 31.

(** The match of the pattern: the day, the month, the year, and the
    text that is left. *)
Definition match_dmy (text : string) : option (Z * Z * Z * string) :=
  match cut_slash text with
  | Some (d, after_day) =>
      match cut_slash after_day with
      | Some (m, after_month) =>
          match read_day d, read_month m, read_year after_month with
          | Some dd, Some mm, Some (yy, remains) => Some (dd, mm, yy, remains)
          | _, _, _ => None
          end
      | None => None
      end
  | None => None
  end.

(** The date, or the message of the [ValueError]. *)
Definition strptime (text : string) : string + date :=
  match match_dmy text with
  | None =>
      inl ("time data " ++ PyText.repr_str text ++ " does not match format '%d/%m/%Y'")
  | Some (dd, mm, yy, remains) =>
      if negb (String.eqb remains "") then inl ("unconverted data remains: " ++ remains)
      else if yy =? 0 then inl "year 0 is out of range"
      else if days_in_month yy mm <? dd then inl "day is out of range for month"
      else inr (mk_date yy mm dd)
  end.

Definition strptime_dmy (text : string) : option date :=
  match strptime text with
  | inr d => Some d
  | inl _ => None
  end.

Definition patient_line (i : Z) (p : json) : result string :=
  rbind (Py.getitem p "first_name") (fun first =>
  rbind (Py.getitem p "last_name") (fun last =>
  Ok ("* [" ++ PyText.of_Z i ++ "] " ++ PyText.str first ++ " " ++ PyText.str last))).

Fixpoint print_patients (i : Z) (patients : list json) : M unit :=
  match patients with
  | [] => ret tt
  | p :: rest =>
      line <- lift (patient_line i p) ;;
      print line ;;
      print_patients (i + 1) rest
  end.

Fixpoint ask_patient (fuel : nat) (patients : json) : M unit :=
  match fuel with
  | O => running
  | S fuel' =>
      print "For which patient do you want to book a slot? " ;;
      line <- readline ;;
      chosen <- try_except
                  (i <- lift (PyText.int (PyText.strip line)) ;;
                   p <- lift (Py.index patients i) ;;
                   modify (set_patient p) ;;
                   ret true)
                  Doctolib.is_Value_or_IndexError
                  (fun _ => ret false) ;;
      if chosen then ret tt else ask_patient fuel' patients
  end.

(** [while not docto.has_availability(args, start_date): sleep(5)] *)
Fixpoint wait_for_slot (rounds fuel : nat) (a : args) (start : date) : M unit :=
  match rounds with
  | O => running
  | S rounds' =>
      found <- Doctolib.has_availability fuel a start ;;
      if found : bool then ret tt
      else sleep 5 ;; wait_for_slot rounds' fuel a start
  end.

(** [while True: playsound('ding.mp3'); sleep(5)] *)
Fixpoint ring (rounds : nat) : M Z :=
  match rounds with
  | O => running
  | S rounds' => playsound "ding.mp3" ;; sleep 5 ;; ring rounds'
  end.

(** From the greeting on: the two loops. *)
Definition look_for_slots (fuel : nat) (a : args) (start : date) : M Z :=
  p <- gets patient ;;
  first <- lift (Py.getitem p "first_name") ;;
  last <- lift (Py.getitem p "last_name") ;;
  log (JStr "Starting to look for available slots for %s %s from %s...")
      [first; last; JStr (Doctolib.isoformat start)] None ;;
  wait_for_slot fuel fuel a start ;;
  ring fuel.

(** The body of the [try] of [main]. *)
Definition run (fuel : nat) (a : args) : M Z :=
  logged <- Doctolib.do_login a ;;
  if negb logged then ret 1 else
  patients <- Doctolib.get_patients ;;
  n <- lift (Py.len patients) ;;
  if n =? 0 then
    print "It seems that you don't have any Patient registered in your Doctolib account. Please fill your Patient data on Doctolib Website." ;;
    ret 1
  else
    (if n >? 1 then
       print "Available patients are:" ;;
       items <- lift (py_iter patients) ;;
       print_patients 0 items ;;
       ask_patient fuel patients
     else
       p <- lift (Py.index patients 0) ;;
       modify (set_patient p)) ;;
    match start_date a with
    | Some text =>
        if negb (String.eqb text "") then
          match strptime text with
          | inr d => look_for_slots fuel a d
          | inl message =>
              print ("Invalid value for --start-date: " ++ message) ;; ret 1
          end
        else d <- gets today ;; look_for_slots fuel a d
    | None => d <- gets today ;; look_for_slots fuel a d
    end.

(** [main], after the command line is parsed and the password known:
    the browser is made, the saved state is read and handed to the
    browser, both before the [try]; then the state of the browser is
    saved however the body ends.  The jar of the store is the one of the
    new session. *)
Definition main (fuel : nat) (a : args) : M Z :=
  modify no_page ;;
  modify (set_patient JNull) ;;
  modify (set_motive_id match cli_motive_id a with
                        | Some m => JInt m
                        | None => JNull
                        end) ;;
  state <- load_state ;;
  Doctolib.load_state state ;;
  try_finally (run fuel a)
              (state' <- gets Doctolib.dump_state ;; save_state state').

(** The last lines of the script: [Application().main()].  The value of
    [main] is dropped. *)
Definition script (fuel : nat) (a : args) : M unit :=
  main fuel a ;; ret tt.

(** The exit status of the interpreter: 0 when the script ends, another
    one when an exception leaves it. *)
Definition exits_with (o : outcome unit) (status : Z) : Prop :=
  match o with
  | Ret _ => status = 0
  | Exc _ => status <> 0
  | Running => False
  end.

(** The parts of [run], for the statements about them.

    Lines 306-321: the patient of the run, among [n > 0]. *)
Definition choose_patient (fuel : nat) (patients : json) (n : Z) : M unit :=
  if n >? 1 then
    print "Available patients are:" ;;
    items <- lift (py_iter patients) ;;
    print_patients 0 items ;;
    ask_patient fuel patients
  else
    p <- lift (Py.index patients 0) ;;
    modify (set_patient p).

(** Lines 323-339: the start date, then the two loops. *)
Definition from_start_date (fuel : nat) (a : args) : M Z :=
  match start_date a with
  | Some text =>
      if negb (String.eqb text "") then
        match strptime text with
        | inr d => look_for_slots fuel a d
        | inl message =>
            print ("Invalid value for --start-date: " ++ message) ;; ret 1
        end
      else d <- gets today ;; look_for_slots fuel a d
  | None => d <- gets today ;; look_for_slots fuel a d
  end.

(** Lines 302-339: what follows a login. *)
Definition once_logged_in (fuel : nat) (a : args) : M Z :=
  patients <- Doctolib.get_patients ;;
  n <- lift (Py.len patients) ;;
  if n =? 0 then
    print "It seems that you don't have any Patient registered in your Doctolib account. Please fill your Patient data on Doctolib Website." ;;
    ret 1
  else
    choose_patient fuel patients n ;;
    from_start_date fuel a.

End Application.

(** ** Documents as the server sends them

    The shapes of section 6 of the specification, and their encoding as
    decoded documents. *)

Record agenda : Type := mk_agenda {
  ag_id : Z;
  ag_motives : list Z;
  ag_disabled : bool;
  ag_practice : Z }.

Record motive : Type := mk_motive { mo_id : Z; mo_name : string }.

Record place : Type := mk_place { pl_practice_ids : list Z }.

Record booking : Type := mk_booking {
  bk_profile : Z;
  bk_places : list place;
  bk_motives : list motive;
  bk_agendas : list agenda }.

Definition agenda_json (a : agenda) : json :=
  JObj [("id", JInt (ag_id a));
        ("visit_motive_ids", JArr (map JInt (ag_motives a)));
        ("booking_disabled", JBool (ag_disabled a));
        ("practice_id", JInt (ag_practice a))].

Definition motive_json (m : motive) : json :=
  JObj [("id", JInt (mo_id m)); ("name", JStr (mo_name m))].

Definition place_json (p : place) : json :=
  JObj [("practice_ids", JArr (map JInt (pl_practice_ids p)))].

Definition booking_json (b : booking) : json :=
  JObj [("data",
         JObj [("places", JArr (map place_json (bk_places b)));
               ("agendas", JArr (map agenda_json (bk_agendas b)));
               ("profile", JObj [("id", JInt (bk_profile b))]);
               ("visit_motives", JArr (map motive_json (bk_motives b)))])].

(** An availabilities page: the slot lists of its entries, the next
    date to ask for, the message. *)
Definition availability_json (slots : list json) : json :=
  JObj [("slots", JArr slots)].

Definition availabilities_json (entries : list (list json))
  (next_slot message : option json) : json :=
  JObj ((match next_slot with Some d => [("next_slot", d)] | None => [] end)
        ++ (match message with Some m => [("message", m)] | None => [] end)
        ++ [("availabilities", JArr (map availability_json entries))]).

(** The jar of a new session, without a cookie, as [dump_state]
    encodes it. *)
Definition empty_jar : string := "eJyLjgUAARUAuQ==".

(** A first run on 2024-01-01: no state file, the [playsound] module
    installed, no sleep interrupted. *)
Definition initial_store (rs : list reply) (lines : list string) (tty : bool) : store :=
  mk_store rs lines tty [] [] true (mk_date 2024 1 1) (Ok false) None false None
           JNull None "" empty_jar JNull JNull [].

Definition requests_of (t : list event) : list request :=
  flat_map (fun e => match e with EvRequest r => [r] | _ => [] end) (rev t).

(** The optional argument [practice_id] of [get_agenda_ids]. *)
Definition practice_arg (p : option Z) : json :=
  match p with
  | Some q => JInt q
  | None => JNull
  end.

Definition lists_motive (m : Z) (a : agenda) : bool :=
  existsb (Z.eqb m) (ag_motives a).

(** What the specification asks of an agenda: it lists the motive, it
    is not disabled and, when a practice id is given, it has that
    practice id. *)
Definition qualifies_as_specified (m : Z) (p : option Z) (a : agenda) : bool :=
  lists_motive m a && negb (ag_disabled a) &&
  match p with
  | Some q => ag_practice a =? q
  | None => true
  end.

(** What the loop of [get_agenda_ids] asks: the condition
    [not practice_id] takes a practice id of 0 for a missing one. *)
Definition qualifies (m : Z) (p : option Z) (a : agenda) : bool :=
  lists_motive m a && negb (ag_disabled a) &&
  match p with
  | Some q => (q =? 0) || (ag_practice a =? q)
  | None => true
  end.

Definition agenda_id_text (a : agenda) : string := PyText.of_Z (ag_id a).

(** ** Relating the store before and after a piece of the script *)

(** [m] takes every store to one related to it by [R], however it ends. *)
Definition preserves (R : store -> store -> Prop) {A} (m : M A) : Prop :=
  forall s, R s (snd (m s)).

(** The trace has grown by events that all satisfy [P]. *)
Definition extends_by (P : event -> Prop) (s s' : store) : Prop :=
  exists evs, trace s' = (evs ++ trace s)%list /\ Forall P evs.

(** The component [f] of the store is what it was. *)
Definition keeps {A} (f : store -> A) (s s' : store) : Prop :=
  f s' = f s.

Definition is_output (e : event) : Prop :=
  match e with
  | EvPrint _ | EvLog _ _ _ | EvDebug _ | EvInput _ => True
  | _ => False
  end.

Definition not_write (e : event) : Prop :=
  match e with
  | EvWrite _ => False
  | _ => True
  end.

Definition any_event (e : event) : Prop := True.

(** The requests of one poll: every one asks the availabilities of the
    agendas that [get_agenda_ids] selects on [doc] for [practice], and of
    that practice. *)
Definition polls_with (doc practice : json) (e : event) : Prop :=
  match e with
  | EvRequest r =>
      exists date motive ags,
        DoctorBookingPage.get_agenda_ids doc motive practice = Ok ags /\
        r = Doctolib.availabilities_request date motive ags practice
  | _ => True
  end.

Definition first_practice (b : booking) : option Z :=
  match bk_places b with
  | pl :: _ => match pl_practice_ids pl with
               | q :: _ => Some q
               | [] => None
               end
  | [] => None
  end.

(** The store once the reply [rp] to the request [r] is in: the request
    is on the trace, the reply is off the queue, its cookies are kept. *)
Definition received (r : request) (rp : reply) (rest : list reply) (s : store) : store :=
  let s1 := set_response_url (address r rp) (set_replies rest (emit (EvRequest r) s)) in
  match rp_cookies rp with
  | Some c => set_cookies c s1
  | None => s1
  end.

(** ** The poller, seen from outside *)

(** What [decide] returns or raises on a page, without its log lines. *)
Definition decision (doc : json) : result bool :=
  rbind (Py.get doc "message" (JStr "")) (fun message =>
  rbind (PyText.percent message 0) (fun _ =>
  rbind (Py.getitem doc "availabilities") (fun availabilities =>
  if negb (Py.truthy availabilities) then Ok false
  else rbind (py_iter availabilities) Doctolib.any_slots))).

Definition outcome_of {A} (r : result A) : outcome A :=
  match r with
  | Ok a => Ret a
  | Raise e => Exc e
  end.

(** Some entry offers a slot. *)
Definition has_slots (entries : list (list json)) : bool :=
  existsb (fun slots => match slots with [] => false | _ => true end) entries.

(** The page of [rp] names the date [d] as its next slot. *)
Definition points_to (rp : reply) (d : string) : Prop :=
  exists doc, rp_outcome rp = Ok doc /\
              Py.contains (JStr "next_slot") doc = Ok true /\
              Py.getitem doc "next_slot" = Ok (JStr d).

(** The page [doc] has no [next_slot]. *)
Definition ends_chain (doc : json) : Prop :=
  Py.contains (JStr "next_slot") doc = Ok false.

(** The queries of a chain that starts at [d0] and follows [dates]. *)
Definition chain_requests (d0 : string) (dates : list string) (motive : json)
  (ags : list string) (practice : json) : list request :=
  map (fun d => Doctolib.availabilities_request (JStr d) motive ags practice)
      (d0 :: dates).

(** ** Choosing a motive, seen from outside *)

(** What one round of [ask_motive] makes of a line: the id it selects, or
    the exception of the conversion or of the subscripts. *)
Definition choice (visit_motives : json) (line : string) : result json :=
  rbind (PyText.int (PyText.strip line)) (fun i =>
  rbind (Py.index visit_motives i) (fun vm =>
  Py.getitem vm "id")).

(** Among [n] motives: the line is no integer, or an index of [n] or
    more, or one below [-n]. *)
Definition rejects (n : Z) (line : string) : bool :=
  match PyText.int (PyText.strip line) with
  | Ok i => (n <=? i) || (i <? - n)
  | Raise _ => true
  end.

(** What the specification rejects among [n] motives: a line that is no
    integer, or an index outside of 0..[n - 1]. *)
Definition rejected_as_specified (n : Z) (line : string) : bool :=
  match PyText.int (PyText.strip line) with
  | Ok i => negb ((0 <=? i) && (i <? n))
  | Raise _ => true
  end.

(** The line is an index from 0 to [n - 1]. *)
Definition picks (n : Z) (line : string) : option nat :=
  match PyText.int (PyText.strip line) with
  | Ok i => if (0 <=? i) && (i <? n) then Some (Z.to_nat i) else None
  | Raise _ => None
  end.

Definition motive_prompt : event := EvPrint "What is your consultation motive? ".

Fixpoint motive_lines (i : Z) (ms : list motive) : list event :=
  match ms with
  | [] => []
  | m :: rest =>
      EvPrint ("* [" ++ PyText.of_Z i ++ "] " ++ mo_name m
                 ++ " (ID: " ++ PyText.of_Z (mo_id m) ++ ")")
      :: motive_lines (i + 1) rest
  end.

(** The listing of the motives, in the order it is printed. *)
Definition motive_listing (ms : list motive) : list event :=
  EvPrint "Available motives are:" :: motive_lines 0 ms.

Definition no_motive : exn :=
  EnvironmentError "Doctor does not offer any consultation ATM".

(** The store after the events [evs], given in the order they happen. *)
Definition emit_all (evs : list event) (s : store) : store :=
  fold_left (fun s' e => emit e s') evs s.

(** ** Logging in, seen from outside *)

Definition no_terminal : event :=
  EvLog "Auth Code input required, but no interactive terminal available. Please provide it via command line argument '--code'."
        [] (Some "red").

Definition sessions_new : request := Doctolib.get "/sessions/new" [].

(** The reply carries a page. *)
Definition is_page (rp : reply) : Prop := exists doc, rp_outcome rp = Ok doc.

(** No integer of [x] has more digits than the interpreter converts. *)
Fixpoint ints_within_limit (x : json) : bool :=
  match x with
  | JInt z => (String.length (PyText.of_Z (Z.abs z)) <=? PyText.int_max_str_digits)%nat
  | JArr xs => forallb ints_within_limit xs
  | JObj kvs => forallb (fun kv => ints_within_limit (snd kv)) kvs
  | _ => true
  end.

(** How deep the lists and objects of [x] are nested. *)
Fixpoint depth (x : json) : nat :=
  match x with
  | JArr xs => S (fold_right Nat.max 0%nat (map depth xs))
  | JObj kvs => S (fold_right Nat.max 0%nat (map (fun kv => depth (snd kv)) kvs))
  | _ => 0%nat
  end.

(** A value that the interpreter reads and writes without reaching one
    of its limits: the number of digits of an integer, and the depth of
    the recursion (1000 frames, of which 500 are left here for the
    value). *)
Definition within_limits (x : json) : bool :=
  ints_within_limit x && (depth x <=? 500)%nat.

Definition is_object (x : json) : bool :=
  match x with
  | JObj _ => true
  | _ => false
  end.

(** The text is blank, or starts with a character that opens no JSON
    value: the file is empty, or holds something else than JSON. *)
Definition opens_no_value (text : string) : bool :=
  match Json.skip_ws text with
  | EmptyString => true
  | String c _ =>
      negb (Ascii.eqb c PyText.dquote || PyText.is_digit c
            || PyText.has_char c "[{-tfnNI")
  end.

(** Nothing was asked, printed or written between [s] and [s']. *)
Definition untouched (s s' : store) : Prop :=
  trace s' = trace s /\ replies s' = replies s /\
  state_file s' = state_file s /\ data_dir s' = data_dir s.

(** The expiry date of a saved state, when it names one. *)
Definition names_expiry (state : json) : bool :=
  match Py.get state "expire" JNull with
  | Ok expire => Py.truthy expire
  | Raise _ => false
  end.

(** The state file is missing, or it holds a JSON object that the
    browser takes back: it is within the limits of the interpreter, and
    its expiry date, when it names one, is read. *)
Definition state_loads (s : store) : Prop :=
  match state_file s with
  | None => True
  | Some text =>
      exists fields,
        Json.loads text = Some (JObj fields) /\
        within_limits (JObj fields) = true /\
        (names_expiry (JObj fields) = true -> exists past, expiry s = Ok past)
  end.

(** The store after the two requests of a login. *)
Definition after_login (a : args) (rp0 rp1 : reply) (rest : list reply) (s : store)
  : store :=
  received (Doctolib.login_request a) rp1 rest
           (received sessions_new rp0 (rp1 :: rest) s).

(** ** The run, seen from outside *)

(** What [load_state] returns on a store whose state file loads. *)
Definition loaded_state (s : store) : json :=
  match state_file s with
  | None => JObj []
  | Some text => match Json.loads text with
                 | Some state => state
                 | None => JObj []
                 end
  end.

(** The store when the body of [main] starts: the browser is new, and
    has taken the saved state back. *)
Definition started (a : args) (s : store) : store :=
  snd (Doctolib.load_state (loaded_state s)
         (set_motive_id match cli_motive_id a with
                        | Some m => JInt m
                        | None => JNull
                        end
            (set_patient JNull (no_page s)))).

(** The store after [save_state(docto.dump_state())]. *)
Definition saved (s : store) : store :=
  emit (EvWrite (Json.dumps (Doctolib.dump_state s)))
    (set_state_file (Some (Json.dumps (Doctolib.dump_state s)))
       (if data_dir s then s else set_data_dir true s)).

Definition save_on_exit : M unit :=
  state' <- gets Doctolib.dump_state ;; Application.save_state state'.

(** A motive id that is set stays what it is. *)
Definition motive_stays (s s' : store) : Prop :=
  Py.truthy (motive_id s) = true -> motive_id s' = motive_id s.

(** ** State blobs *)

Fixpoint unique_keys (ks : list string) : bool :=
  match ks with
  | [] => true
  | k :: rest => negb (existsb (String.eqb k) rest) && unique_keys rest
  end.

(** A value that a Python [dict] of strings, lists, integers, booleans
    and [None] can be: no key occurs twice in an object. *)
Fixpoint valid (x : json) : bool :=
  match x with
  | JArr xs => forallb valid xs
  | JObj kvs => unique_keys (map fst kvs) && forallb (fun kv => valid (snd kv)) kvs
  | _ => true
  end.

(** The number of values and of list and object entries in [x]. *)
Fixpoint size (x : json) : nat :=
  match x with
  | JArr xs => S (list_sum (map (fun y => S (size y)) xs))
  | JObj kvs => S (list_sum (map (fun kv => S (size (snd kv))) kvs))
  | _ => 1
  end.

(** A text that no number runs into: it is empty or starts with a
    character that is no digit, point or exponent mark. *)
Definition plain_after (rest : string) : Prop :=
  match rest with
  | EmptyString => True
  | String c _ => PyText.is_digit c = false /\ PyText.has_char c ".eE" = false
  end.

(** The text starts with a character that opens a value. *)
Definition starts_value (s : string) : bool :=
  match s with
  | String c _ =>
      negb (Json.is_ws c) && negb (Ascii.eqb c "]"%char) && negb (Ascii.eqb c "}"%char)
  | EmptyString => false
  end.

Definition items_text (xs : list json) : string :=
  String.concat ", " (map Json.dumps xs).

Definition member_text (kv : string * json) : string :=
  Json.dumps_str (fst kv) ++ ": " ++ Json.dumps (snd kv).

Definition members_text (kvs : list (string * json)) : string :=
  String.concat ", " (map member_text kvs).

(** What is to show of each value: its text, followed by any text that
    no number runs into, reads back as the value and leaves that text. *)
Definition reads_back (x : json) : Prop :=
  valid x = true ->
  forall fuel rest, (size x <= fuel)%nat -> plain_after rest ->
    Json.loads_value fuel (Json.dumps x ++ rest) = Some (x, rest).

(** ** A sample run

    One motive, two agendas of which one is disabled; the server points
    from 2024-01-01 to 2024-01-08 and offers a slot there. *)
Definition ex_args : args := mk_args false None None "dr-who" "me" "secret".

Definition ex_booking : booking :=
  mk_booking 7 [mk_place [42; 43]] [mk_motive 5 "Consultation"]
    [mk_agenda 100 [5] false 42; mk_agenda 101 [5] true 42].

Definition ex_start : date := mk_date 2024 1 1.

Definition ex_chain : list reply :=
  [page_reply (availabilities_json [] (Some (JStr "2024-01-08")) None);
   page_reply (availabilities_json [[JStr "X"]] None None)].

Definition ex_store : store :=
  initial_store (page_reply (booking_json ex_booking) :: ex_chain) [] true.

Definition ex_no_place : booking :=
  mk_booking 7 [] [mk_motive 5 "Consultation"] [mk_agenda 100 [5] false 42].

Definition ex_two_motives : booking :=
  mk_booking 7 [mk_place [42]] [mk_motive 5 "Consultation"; mk_motive 6 "Suivi"]
    [mk_agenda 100 [5; 6] false 42].

Definition ex_no_motive : booking := mk_booking 7 [mk_place [42]] [] [].

Definition ex_typing : store := initial_store [] ["abc"; "7"; " 1 "; "0"] true.

Definition ex_two_factor_page : json := JObj [("redirection", JStr "/sessions/two-factor")].

Definition ex_no_terminal : store :=
  initial_store [page_reply JNull; page_reply ex_two_factor_page;
                 page_reply (JStr "")] [] false.

Definition ex_wrong_code : store :=
  initial_store [page_reply JNull; page_reply ex_two_factor_page;
                 page_reply (JStr ""); error_reply HTTPNotFound;
                 page_reply (JStr "")]
                ["123456"; "654321"] true.

Definition ex_wrong_password : store :=
  initial_store [page_reply JNull; error_reply (ClientError 401);
                 page_reply (JArr [])] [] true.

(** Two polls in a row: between them the page of the doctor changes its
    agenda, the motive and the practice stay. *)
Definition ex_booking_later : booking :=
  mk_booking 7 [mk_place [42; 43]] [mk_motive 5 "Consultation"]
    [mk_agenda 200 [5] false 42].

Definition ex_two_polls : store :=
  initial_store [page_reply (booking_json ex_booking);
                 page_reply (availabilities_json [] None None);
                 page_reply (booking_json ex_booking_later);
                 page_reply (availabilities_json [[JStr "X"]] None None)] [] true.

(** A state as an earlier run saved it. *)
Definition ex_state : json :=
  JObj [("url", JStr "https://www.doctolib.fr/account/master_patients.json");
        ("cookies", JStr "eJyLjgUAARUAuQ==")].

(** A second run: the state file of the first one is there; the login
    leaves a cookie; Ctrl-C comes during the first sleep. *)
Definition ex_interrupted : store :=
  mk_store [page_reply JNull;
            mk_reply (Some "eJyLrlbKS8xNVbJSUEpUqo0FACZLBJU=") None
                     (Ok (JObj [("redirection", JStr "/account")]));
            page_reply (JArr [JObj [("first_name", JStr "A"); ("last_name", JStr "B")]]);
            page_reply (booking_json ex_booking);
            page_reply (availabilities_json [] None None)]
           [] true [true] [] true ex_start (Ok false) None true
           (Some (Json.dumps ex_state)) JNull None "" empty_jar JNull JNull [].

(** ** Messages, seen from outside *)

(** Every percent sign of the text stands in a pair [%%]. *)
Fixpoint percents_doubled (text : string) : bool :=
  match text with
  | EmptyString => true
  | String c rest =>
      if Ascii.eqb c "%"%char then
        match rest with
        | String c' rest' => Ascii.eqb c' "%"%char && percents_doubled rest'
        | EmptyString => false
        end
      else percents_doubled rest
  end.

(** The scan is inside a conversion specification, past its first
    character. *)
Definition inside_conversion (ph : PyText.phase) : Prop :=
  match ph with
  | PyText.PLit | PyText.PStart => False
  | _ => True
  end.

Definition format_error (r : result unit) : Prop :=
  r = Raise ValueError \/ r = Raise TypeError.

(** ** The first request of a login, seen from outside *)

(** The answer of the bot protection: status 503, an HTML body, and one
    of its two markers in the body. *)
Definition blocked_by_cloudflare (status : Z) (content_type : option string)
  (text : string) : bool :=
  match content_type with
  | Some ct =>
      (status =? 503) && Py.is_substring "text/html" ct
      && (Py.is_substring "cloudflare" text
          || Py.is_substring "Checking your browser before accessing" text)
  | None => false
  end.

Definition cloudflare_blocked : event :=
  EvLog "Request blocked by CloudFlare" [] (Some "red").

Definition cloudflare_unreachable : event :=
  EvLog "Cloudflare is unable to connect to Doctolib server. Please retry later."
        [] (Some "red").

(** What is logged for a server error on the first request. *)
Definition server_error_messages (status : Z) (content_type : option string)
  (text : string) : list event :=
  if blocked_by_cloudflare status content_type text then [cloudflare_blocked]
  else if status =? 520 then [cloudflare_unreachable]
  else [].

(** ** The second factor, seen from outside *)

(** The store when the code is asked for: the request for a code is
    out, its reply [rp] is in. *)
Definition code_requested (rp : reply) (rest : list reply) (s : store) : store :=
  set_page (JStr "")
    (received Doctolib.send_auth_code_request rp rest
       (emit (EvPrint "Requesting 2fa code...") s)).

(** The store once a line is read at the prompt. *)
Definition code_typed (lines : list string) (s : store) : store :=
  set_stdin lines (emit (EvInput "Enter auth code: ") s).

(** The requests of a login, in their order; the last one carries the
    code. *)
Definition login_plan (a : args) (code : string) : list request :=
  [sessions_new; Doctolib.login_request a;
   Doctolib.send_auth_code_request; Doctolib.challenge_request code].

(** The code that the next line of the input holds. *)
Definition typed_code (s : store) : string :=
  match stdin s with
  | line :: _ => chomp line
  | [] => ""
  end.

(** ** Slugs *)

(** The characters that [normalize] leaves: digits, the letters a to z,
    the hyphen, the underscore, and the letters without a decomposition
    (sharp s, ae, eth, o with stroke, thorn, and the Greek mu that the
    micro sign decomposes to). *)
Definition slug (c : Z) : bool :=
  Unicode.between 48 57 c || Unicode.between 97 122 c || (c =? 45) || (c =? 95)
  || (c =? 223) || (c =? 230) || (c =? 240) || (c =? 248) || (c =? 254)
  || (c =? 956).

(** What becomes of a character below 128: a capital letter is lowered,
    a digit, a small letter and the underscore stay, anything else is a
    hyphen. *)
Definition ascii_slug (c : Z) : Z :=
  if Unicode.between 65 90 c then c + 32
  else if Unicode.between 48 57 c || Unicode.between 97 122 c || (c =? 95) then c
  else 45.

(** What [normalize] makes of one character. *)
Definition normalize_code (c : Z) : list Z :=
  map Unicode.lower
    (map (fun c => if Unicode.is_word c then c else 45)
       (filter (fun c => negb (Unicode.combining c)) (Unicode.decompose c))).

(** The numbers from [lo] on, [n] of them. *)
Definition range (lo : Z) (n : nat) : list Z :=
  map (fun k => lo + Z.of_nat k) (seq 0 n).

Definition same_codes (a b : list Z) : bool :=
  if list_eq_dec Z.eq_dec a b then true else false.

(** ** One poll, seen from outside *)

(** A booking page whose [data] has no [profile]. *)
Definition lacks_profile (doc : json) : Prop :=
  exists fields, Py.getitem doc "data" = Ok (JObj fields) /\
                 Py.assoc "profile" fields = None.

(** The queries that start at [d0] and follow [dates], the first [n] of
    them. *)
Definition first_queries (n : nat) (d0 : string) (dates : list string)
  (motive : json) (ags : list string) (practice : json) : list request :=
  firstn n (chain_requests d0 dates motive ags practice).

(** An availabilities request, whatever it asks. *)
Definition asks_availabilities (r : request) : Prop :=
  exists date motive ags practice,
    r = Doctolib.availabilities_request date motive ags practice.

(** What happens inside a poll once the booking page is asked for:
    availabilities requests, prompts and messages. *)
Definition in_poll (e : event) : Prop :=
  match e with
  | EvRequest r => asks_availabilities r
  | EvSleep _ | EvPlaysound _ | EvWrite _ => False
  | _ => True
  end.

(** ** Patients, seen from outside *)

(** A patient of the account: the two names and whatever else the
    server tells. *)
Record person : Type := mk_person {
  pe_first : string;
  pe_last : string;
  pe_other : list (string * json) }.

Definition person_json (p : person) : json :=
  JObj (("first_name", JStr (pe_first p)) :: ("last_name", JStr (pe_last p))
          :: pe_other p).

Definition master_patients : request :=
  Doctolib.get "/account/master_patients.json" [].

Definition no_patient : event :=
  EvPrint "It seems that you don't have any Patient registered in your Doctolib account. Please fill your Patient data on Doctolib Website.".

Definition patient_prompt : event :=
  EvPrint "For which patient do you want to book a slot? ".

Fixpoint patient_lines (i : Z) (ps : list person) : list event :=
  match ps with
  | [] => []
  | p :: rest =>
      EvPrint ("* [" ++ PyText.of_Z i ++ "] " ++ pe_first p ++ " " ++ pe_last p)
      :: patient_lines (i + 1) rest
  end.

(** The listing of the patients, in the order it is printed. *)
Definition patient_listing (ps : list person) : list event :=
  EvPrint "Available patients are:" :: patient_lines 0 ps.

(** The entry that the line selects among [n]: an index from 0 to
    [n - 1], or one from [-n] to -1, which counts from the end. *)
Definition selects (n : Z) (line : string) : option nat :=
  match PyText.int (PyText.strip line) with
  | Ok i => if (0 <=? i) && (i <? n) then Some (Z.to_nat i)
            else if (- n <=? i) && (i <? 0) then Some (Z.to_nat (n + i))
            else None
  | Raise _ => None
  end.

(** ** The two loops, seen from outside *)

(** What the script does once it is logged in: it reads the patients,
    the booking page of the doctor and the availabilities, it prompts,
    sleeps five seconds and rings. *)
Definition reads (a : args) (e : event) : Prop :=
  match e with
  | EvRequest r =>
      r = master_patients \/ r = Doctolib.booking_request a \/ asks_availabilities r
  | EvSleep n => n = 5
  | EvPlaysound f => f = "ding.mp3"
  | EvWrite _ => False
  | _ => True
  end.

(** The bell of the second loop. *)
Definition rings (e : event) : Prop :=
  e = EvPlaysound "ding.mp3" \/ e = EvSleep 5.

(** The exception that ends the bell comes from a sleep that is
    interrupted, or from the player, and then it is none that the script
    drops. *)
Definition ends_bell (s : store) (e : exn) : Prop :=
  (e = KeyboardInterrupt /\ In true (sleeps s))
  \/ (In (Some e) (sounds s) /\ has_playsound s && is_playsound_error e = false).

(** The events of the first loop, in the order they happen: each poll
    starts with the request for the booking page, and a sleep of five
    seconds follows each poll but the last. *)
Inductive paced (a : args) : list event -> Prop :=
| paced_none : paced a []
| paced_last evs :
    Forall in_poll evs ->
    paced a (EvRequest (Doctolib.booking_request a) :: evs)
| paced_sleep evs later :
    Forall in_poll evs -> paced a later ->
    paced a (EvRequest (Doctolib.booking_request a) :: evs ++ EvSleep 5 :: later).

(** [m] returns nothing but 1. *)
Definition reports_failure (m : M Z) : Prop :=
  forall s v, fst (m s) = Ret v -> v = 1.

(** ** Further sample runs *)

Definition ex_blocked : store :=
  initial_store
    [error_reply (ServerError 503 (Some "text/html; charset=UTF-8")
                              "<title>Attention Required! | cloudflare</title>");
     page_reply (JObj [("redirection", JStr "/account")])] [] true.

Definition ex_no_content_type : store :=
  initial_store [error_reply (ServerError 503 None "Service Unavailable");
                 page_reply (JObj [("redirection", JStr "/account")])] [] true.

Definition ex_logged_in : store :=
  initial_store [page_reply JNull;
                 page_reply (JObj [("redirection", JStr "/account")]);
                 page_reply (JArr [])] ["0"] true.

(** The login request is answered with a 404. *)
Definition ex_login_not_found : store :=
  initial_store [page_reply JNull; error_reply HTTPNotFound;
                 page_reply (JArr [])] [] true.

Definition ex_login_no_redirection : store :=
  initial_store [page_reply JNull; page_reply (JObj [("id", JInt 1)])] [] true.

(** The line typed at the prompt for the code ends with a newline. *)
Definition ex_code_line : string :=
  String "1" (String "2" (String (ascii_of_nat 10) "")).

Definition ex_code_accepted : store :=
  initial_store [page_reply JNull; page_reply ex_two_factor_page;
                 page_reply (JStr ""); page_reply (JStr "");
                 page_reply (JArr [])]
                [ex_code_line; "0"] true.

Definition ex_code_unsent : store :=
  initial_store [page_reply JNull; page_reply ex_two_factor_page;
                 error_reply (ServerError 500 None "")] ["123456"] true.

Definition ex_no_profile : json :=
  JObj [("data", JObj [("places", JArr []); ("agendas", JArr []);
                      ("visit_motives", JArr [])])].

Definition ex_same_date : reply :=
  page_reply (availabilities_json [] (Some (JStr "2024-01-01")) None).

Definition ex_no_patient : store :=
  initial_store [page_reply JNull;
                 page_reply (JObj [("redirection", JStr "/account")]);
                 page_reply (JArr []);
                 page_reply (booking_json ex_booking)] ["0"] true.

Definition ex_two_patients : list person :=
  [mk_person "Ada" "Lovelace" [("id", JInt 11)]; mk_person "Alan" "Turing" []].

Definition ex_sole_patient : json :=
  JObj [("first_name", JStr "Ada"); ("last_name", JStr "Lovelace")].

Definition ex_bad_date : args :=
  mk_args false (Some "2024-01-01") None "dr-who" "me" "secret".

Definition ex_bad_date_store : store :=
  initial_store [page_reply JNull;
                 page_reply (JObj [("redirection", JStr "/account")]);
                 page_reply (JArr [ex_sole_patient]);
                 page_reply (booking_json ex_booking)] [] true.

(** A name with a capital E with acute accent. *)
Definition ex_name : string :=
  String "Z" (String "o" (String (ascii_of_nat 201) " D.")).

(** * Properties *)

(** ** Agenda selection *)

Lemma contains_ints (m : Z) (ms : list Z) :
  Py.contains (JInt m) (JArr (map JInt ms)) = Ok (existsb (Z.eqb m) ms).
Proof.
  simpl. f_equal. induction ms as [|x ms IH]; simpl; [reflexivity|].
  now rewrite IH.
Qed.

Lemma agenda_matches_typed (a : agenda) (m : Z) (p : option Z) :
  DoctorBookingPage.agenda_matches (agenda_json a) (JInt m) (practice_arg p)
  = Ok (qualifies m p a).
Proof.
  unfold DoctorBookingPage.agenda_matches, qualifies, lists_motive, agenda_json.
  cbn [Py.getitem Py.assoc String.eqb Ascii.eqb Bool.eqb rbind].
  rewrite contains_ints. cbn [rbind].
  destruct (existsb (Z.eqb m) (ag_motives a)); cbn; [|reflexivity].
  destruct (ag_disabled a); cbn; [reflexivity|].
  destruct p as [q|]; cbn; [|reflexivity].
  destruct (q =? 0); reflexivity.
Qed.

Lemma collect_agenda_ids_typed (ags : list agenda) (m : Z) (p : option Z) :
  DoctorBookingPage.collect_agenda_ids (map agenda_json ags) (JInt m) (practice_arg p)
  = Ok (map agenda_id_text (filter (qualifies m p) ags)).
Proof.
  induction ags as [|a ags IH]; [reflexivity|].
  cbn [map DoctorBookingPage.collect_agenda_ids filter].
  rewrite agenda_matches_typed. cbn [rbind].
  destruct (qualifies m p a).
  - rewrite IH. reflexivity.
  - exact IH.
Qed.

Lemma get_agenda_ids_typed (b : booking) (m : Z) (p : option Z) :
  DoctorBookingPage.get_agenda_ids (booking_json b) (JInt m) (practice_arg p)
  = Ok (map agenda_id_text (filter (qualifies m p) (bk_agendas b))).
Proof.
  unfold DoctorBookingPage.get_agenda_ids. cbn.
  apply collect_agenda_ids_typed.
Qed.

(** C3, as the code has it: [get_agenda_ids] returns, in the order of the
    page, the ids of exactly the agendas that list the motive, are not
    disabled and, when a practice id other than 0 is given, have that
    practice id; no disabled agenda is among them, whatever its motives
    and practice. *)
Theorem C3_get_agenda_ids_selects (b : booking) (m : Z) (p : option Z) :
  DoctorBookingPage.get_agenda_ids (booking_json b) (JInt m) (practice_arg p)
  = Ok (map agenda_id_text (filter (qualifies m p) (bk_agendas b)))
  /\ (forall a, In a (bk_agendas b) ->
        (In a (filter (qualifies m p) (bk_agendas b)) <->
         lists_motive m a = true /\ ag_disabled a = false /\
         match p with
         | Some q => q = 0 \/ ag_practice a = q
         | None => True
         end))
  /\ (forall a, In a (filter (qualifies m p) (bk_agendas b)) -> ag_disabled a = false)
  /\ (p <> Some 0 -> forall a, qualifies m p a = qualifies_as_specified m p a).
Proof.
  split; [apply get_agenda_ids_typed|].
  split; [|split].
  - intros a Ha. rewrite filter_In. unfold qualifies.
    rewrite !andb_true_iff, negb_true_iff.
    destruct p as [q|].
    + rewrite orb_true_iff, !Z.eqb_eq. tauto.
    + tauto.
  - intros a Ha. apply filter_In in Ha. destruct Ha as [_ Ha].
    unfold qualifies in Ha. rewrite !andb_true_iff, negb_true_iff in Ha. tauto.
  - intros Hp a. unfold qualifies, qualifies_as_specified.
    destruct p as [q|]; [|reflexivity].
    destruct (Z.eqb_spec q 0) as [->|_]; [congruence|reflexivity].
Qed.

(** C3 as stated fails for the practice id 0: an agenda of practice 5 is
    returned although the practice asked for is 0. *)
Lemma C3_practice_zero_not_filtered :
  let b := mk_booking 7 [mk_place [0]] [mk_motive 1 "Consultation"]
                      [mk_agenda 10 [1] false 5] in
  DoctorBookingPage.get_agenda_ids (booking_json b) (JInt 1) (practice_arg (Some 0))
    = Ok ["10"]
  /\ map agenda_id_text (filter (qualifies_as_specified 1 (Some 0)) (bk_agendas b)) = []
  /\ DoctorBookingPage.get_agenda_ids (booking_json b) (JInt 1) (practice_arg (Some 0))
     <> Ok (map agenda_id_text
               (filter (qualifies_as_specified 1 (Some 0)) (bk_agendas b))).
Proof.
  repeat split; try reflexivity. discriminate.
Qed.

(** ** Reasoning about the store across a computation *)

Section Preserves.

Context (R : store -> store -> Prop) {R_pre : PreOrder R}.

Lemma preserves_ret {A} (a : A) : preserves R (ret a).
Proof. intros s. simpl. reflexivity. Qed.

Lemma preserves_raise {A} (e : exn) : preserves R (@raise A e).
Proof. intros s. simpl. reflexivity. Qed.

Lemma preserves_running {A} : preserves R (@running A).
Proof. intros s. simpl. reflexivity. Qed.

Lemma preserves_lift {A} (r : result A) : preserves R (lift r).
Proof. destruct r; [apply preserves_ret | apply preserves_raise]. Qed.

Lemma preserves_gets {A} (f : store -> A) : preserves R (gets f).
Proof. intros s. simpl. reflexivity. Qed.

Lemma preserves_modify (f : store -> store) :
  (forall s, R s (f s)) -> preserves R (modify f).
Proof. intros H s. simpl. apply H. Qed.

Lemma preserves_bind {A B} (m : M A) (k : A -> M B) :
  preserves R m -> (forall a, preserves R (k a)) -> preserves R (bind m k).
Proof.
  intros Hm Hk s. unfold bind. specialize (Hm s).
  destruct (m s) as [[a|e|] s1]; simpl in *; [|assumption..].
  transitivity s1; [assumption | apply Hk].
Qed.

(** The continuation after [lift r] and after [gets f] only runs on what
    they return. *)
Lemma preserves_bind_lift {A B} (r : result A) (k : A -> M B) :
  (forall a, r = Ok a -> preserves R (k a)) -> preserves R (bind (lift r) k).
Proof.
  intros Hk s. destruct r as [a|e]; simpl.
  - apply Hk. reflexivity.
  - reflexivity.
Qed.

Lemma preserves_try_except {A} (m : M A) (handled : exn -> bool) (h : exn -> M A) :
  preserves R m -> (forall e, preserves R (h e)) ->
  preserves R (try_except m handled h).
Proof.
  intros Hm Hh s. unfold try_except. specialize (Hm s).
  destruct (m s) as [[a|e|] s1]; simpl in *; try assumption.
  destruct (handled e); simpl; [|assumption].
  transitivity s1; [assumption | apply Hh].
Qed.

Lemma preserves_try_finally {A} (m : M A) (f : M unit) :
  preserves R m -> preserves R f -> preserves R (try_finally m f).
Proof.
  intros Hm Hf s. unfold try_finally. specialize (Hm s).
  destruct (m s) as [[a|e|] s1]; simpl in *; try assumption.
  - specialize (Hf s1). destruct (f s1) as [[[]|e'|] s2]; simpl in *;
      (transitivity s1; assumption).
  - specialize (Hf s1). destruct (f s1) as [[[]|e'|] s2]; simpl in *;
      (transitivity s1; assumption).
Qed.

End Preserves.

#[export] Instance extends_by_preorder (P : event -> Prop) : PreOrder (extends_by P).
Proof.
  split.
  - intros s. exists []. split; [reflexivity | constructor].
  - intros s1 s2 s3 [e1 [H1 F1]] [e2 [H2 F2]]. exists (e2 ++ e1)%list. split.
    + rewrite H2, H1. apply app_assoc.
    + apply Forall_app. split; assumption.
Qed.

#[export] Instance keeps_preorder {A} (f : store -> A) : PreOrder (keeps f).
Proof.
  split.
  - intros s. reflexivity.
  - intros s1 s2 s3 H1 H2. unfold keeps in *. congruence.
Qed.

Lemma extends_by_weaken (P Q : event -> Prop) (s s' : store) :
  (forall e, P e -> Q e) -> extends_by P s s' -> extends_by Q s s'.
Proof.
  intros HPQ [evs [H F]]. exists evs. split; [assumption|].
  eapply Forall_impl; eauto.
Qed.

Lemma extends_by_same (P : event -> Prop) (s s' : store) :
  trace s' = trace s -> extends_by P s s'.
Proof. intros H. exists []. split; [assumption | constructor]. Qed.

Lemma extends_by_emit (P : event -> Prop) (e : event) (s : store) :
  P e -> extends_by P s (emit e s).
Proof. intros H. exists [e]. split; [reflexivity | repeat constructor; assumption]. Qed.

(** One step of a proof that a computation preserves a relation: follow
    the structure of the computation. *)
Ltac pres_leaf :=
  first [ reflexivity
        | apply extends_by_same; reflexivity
        | apply extends_by_emit; simpl; solve [auto | tauto | eauto 6]
        | match goal with
          | H : forall e s, _ -> _ |- _ => apply H; exact I
          end
        | solve [auto] ].

Ltac pres_step :=
  match goal with
  | |- preserves ?R (bind (lift _) _) => apply (preserves_bind_lift R); intros ? ?
  | |- preserves ?R (bind _ _) => apply (preserves_bind R); [| intros ?]
  | |- preserves ?R (ret _) => apply (preserves_ret R)
  | |- preserves ?R (raise _) => apply (preserves_raise R)
  | |- preserves ?R running => apply (preserves_running R)
  | |- preserves ?R (lift _) => apply (preserves_lift R)
  | |- preserves ?R (gets _) => apply (preserves_gets R)
  | |- preserves ?R (modify _) => apply (preserves_modify R); intros ?; pres_leaf
  | |- preserves ?R (try_except _ _ _) => apply (preserves_try_except R); [| intros ?]
  | |- preserves ?R (try_finally _ _) => apply (preserves_try_finally R)
  | |- preserves _ (if ?b then _ else _) => destruct b
  | |- preserves _ (match ?x with _ => _ end) => destruct x
  | H : preserves ?R ?m |- preserves ?R ?m => exact H
  | H : forall x, preserves ?R (?m x) |- preserves ?R (?m _) => apply H
  end.

Ltac pres := repeat pres_step.

Ltac pres_prim :=
  unfold print, log, readline, input, sleep, playsound, open, go, transfer; pres.

(** ** Prompts and messages only write to the terminal

    Whatever relation survives an output event, a line read from the
    input and a change of [args.motive_id] survives the prompts and the
    decision. *)

Section Outputs.

Context (R : store -> store -> Prop) {R_pre : PreOrder R}.
Hypothesis R_emit : forall e s, is_output e -> R s (emit e s).

Lemma print_preserves t : preserves R (print t).
Proof. pres_prim. Qed.

Lemma log_preserves t a c : preserves R (log t a c).
Proof. pres_prim. Qed.

Lemma decide_preserves doc : preserves R (Doctolib.decide doc).
Proof.
  unfold Doctolib.decide. pres; auto using log_preserves.
Qed.

Lemma print_motives_preserves i vms :
  preserves R (Doctolib.print_motives i vms).
Proof.
  revert i. induction vms as [|vm vms IH]; intros i;
    cbn [Doctolib.print_motives]; pres; auto using print_preserves.
Qed.

Hypothesis R_stdin : forall x s, R s (set_stdin x s).

Lemma readline_preserves : preserves R readline.
Proof. pres_prim. Qed.

Lemma input_preserves t : preserves R (input t).
Proof. pres_prim. Qed.

Hypothesis R_motive : forall x s, R s (set_motive_id x s).

Lemma ask_motive_preserves fuel vms :
  preserves R (Doctolib.ask_motive fuel vms).
Proof.
  induction fuel as [|fuel IH]; cbn [Doctolib.ask_motive]; pres;
    auto using print_preserves, readline_preserves.
Qed.

Lemma resolve_motive_preserves fuel doc :
  preserves R (Doctolib.resolve_motive fuel doc).
Proof.
  unfold Doctolib.resolve_motive. pres;
    auto using print_preserves, print_motives_preserves, ask_motive_preserves.
Qed.

End Outputs.

Lemma extends_by_output (P : event -> Prop) :
  (forall e, is_output e -> P e) ->
  forall e s, is_output e -> extends_by P s (emit e s).
Proof. intros HP e s He. apply extends_by_emit. auto. Qed.

Lemma polls_with_output doc practice e : is_output e -> polls_with doc practice e.
Proof. destruct e; simpl; tauto. Qed.

Lemma not_write_output e : is_output e -> not_write e.
Proof. destruct e; simpl; tauto. Qed.

(** ** Exchanges *)

Lemma transfer_reply (r : request) (rp : reply) (rest : list reply) (s : store) :
  replies s = rp :: rest ->
  transfer r s = (match rp_outcome rp with Ok doc => Ret doc | Raise e => Exc e end,
                  received r rp rest s).
Proof.
  intros H. unfold transfer, received, bind, modify, gets. cbn.
  rewrite H. destruct rp as [[c|] u [doc|e]]; reflexivity.
Qed.

Lemma transfer_no_reply (r : request) (s : store) :
  replies s = [] ->
  transfer r s = (Exc ConnectionError, emit (EvRequest r) s).
Proof.
  intros H. unfold transfer, bind, modify, gets. cbn. rewrite H. reflexivity.
Qed.

Lemma go_page (r : request) (build : json -> json) (rp : reply) (rest : list reply)
  (doc : json) (s : store) :
  replies s = rp :: rest -> rp_outcome rp = Ok doc ->
  go r build s = (Ret (build doc), set_page (build doc) (received r rp rest s)).
Proof.
  intros H Hdoc. unfold go. unfold bind at 1. rewrite (transfer_reply _ _ _ _ H), Hdoc.
  reflexivity.
Qed.

Lemma go_raises (r : request) (build : json -> json) (rp : reply) (rest : list reply)
  (e : exn) (s : store) :
  replies s = rp :: rest -> rp_outcome rp = Raise e ->
  go r build s = (Exc e, received r rp rest s).
Proof.
  intros H He. unfold go. unfold bind at 1. rewrite (transfer_reply _ _ _ _ H), He.
  reflexivity.
Qed.

Lemma received_trace r rp rest s :
  trace (received r rp rest s) = EvRequest r :: trace s.
Proof. unfold received. destruct (rp_cookies rp); reflexivity. Qed.

Lemma received_replies r rp rest s : replies (received r rp rest s) = rest.
Proof. unfold received. destruct (rp_cookies rp); reflexivity. Qed.

(** ** The practice of a poll *)

Lemma has_availability_fetched fuel a start s rp rest doc pid q :
  replies s = rp :: rest -> rp_outcome rp = Ok doc ->
  DoctorBookingPage.get_profile_id doc = Ok pid ->
  DoctorBookingPage.get_practice doc = Ok q ->
  Doctolib.has_availability fuel a start s
  = Doctolib.poll_practice fuel a start doc doc pid q
      (set_page doc (received (Doctolib.booking_request a) rp rest s)).
Proof.
  intros H Hdoc Hpid Hq. unfold Doctolib.has_availability.
  unfold bind at 1. rewrite (go_page _ _ _ _ _ _ H Hdoc).
  unfold json_page. unfold bind at 1. cbn [gets page set_page].
  rewrite Hpid. unfold bind at 1. cbn [lift ret].
  rewrite Hq. unfold bind at 1. cbn [lift ret]. reflexivity.
Qed.

Lemma has_availability_no_practice fuel a start s rp rest doc pid e :
  replies s = rp :: rest -> rp_outcome rp = Ok doc ->
  DoctorBookingPage.get_profile_id doc = Ok pid ->
  DoctorBookingPage.get_practice doc = Raise e ->
  Doctolib.has_availability fuel a start s
  = (Exc e, set_page doc (received (Doctolib.booking_request a) rp rest s)).
Proof.
  intros H Hdoc Hpid Hq. unfold Doctolib.has_availability.
  unfold bind at 1. rewrite (go_page _ _ _ _ _ _ H Hdoc).
  unfold json_page. unfold bind at 1. cbn [gets page set_page].
  rewrite Hpid. unfold bind at 1. cbn [lift ret].
  rewrite Hq. reflexivity.
Qed.

Lemma follow_next_slot_polls_with doc fuel date motive ags practice :
  DoctorBookingPage.get_agenda_ids doc motive practice = Ok ags ->
  preserves (extends_by (polls_with doc practice))
            (Doctolib.follow_next_slot fuel date motive ags practice).
Proof.
  intros Hags. revert date.
  induction fuel as [|fuel IH]; intros date.
  - destruct date; cbn [Doctolib.follow_next_slot]; pres.
  - assert (Hstep : preserves (extends_by (polls_with doc practice))
              (next <- go (Doctolib.availabilities_request date motive ags practice)
                          json_page ;;
               has_next <- lift (Py.contains (JStr "next_slot") next) ;;
               next' <- (if has_next : bool then lift (Py.getitem next "next_slot")
                         else ret JNull) ;;
               Doctolib.follow_next_slot fuel next' motive ags practice)).
    { unfold go, transfer. pres; apply IH. }
    destruct date; cbn [Doctolib.follow_next_slot]; try exact Hstep. pres.
Qed.

Lemma poll_practice_polls_with fuel a start doc pid practice :
  preserves (extends_by (polls_with doc practice))
            (Doctolib.poll_practice fuel a start doc doc pid practice).
Proof.
  unfold Doctolib.poll_practice, Doctolib.poll.
  pose proof (extends_by_output _ (polls_with_output doc practice)) as Hout.
  pres.
  - apply (resolve_motive_preserves _ Hout); intros; apply extends_by_same; reflexivity.
  - now apply follow_next_slot_polls_with.
  - apply (decide_preserves _ Hout).
Qed.

Lemma get_practice_typed (b : booking) :
  DoctorBookingPage.get_practice (booking_json b)
  = match first_practice b with
    | Some q => Ok (JInt q)
    | None => Raise IndexError
    end.
Proof.
  unfold first_practice, DoctorBookingPage.get_practice, booking_json.
  destruct (bk_places b) as [|[[|q qs]] pls]; reflexivity.
Qed.

Lemma has_availability_polls_with fuel a start s b rp rest q :
  replies s = rp :: rest -> rp_outcome rp = Ok (booking_json b) ->
  first_practice b = Some q ->
  exists evs,
    trace (snd (Doctolib.has_availability fuel a start s))
    = (evs ++ EvRequest (Doctolib.booking_request a) :: trace s)%list /\
    Forall (polls_with (booking_json b) (JInt q)) evs.
Proof.
  intros H Hdoc Hfirst. pose proof (get_practice_typed b) as Hq.
  rewrite Hfirst in Hq.
  assert (Hpid : DoctorBookingPage.get_profile_id (booking_json b)
                 = Ok (JInt (bk_profile b))) by reflexivity.
  rewrite (has_availability_fetched _ _ _ _ _ _ _ _ _ H Hdoc Hpid Hq).
  destruct (poll_practice_polls_with fuel a start (booking_json b)
              (JInt (bk_profile b)) (JInt q)
              (set_page (booking_json b)
                 (received (Doctolib.booking_request a) rp rest s)))
    as [evs [Ht HF]].
  exists evs. split; [|assumption].
  rewrite Ht. cbn [trace set_page]. rewrite received_trace. reflexivity.
Qed.

(** C10: the practice id of a poll is the first practice id of the first
    place of the booking page: every availabilities request of the poll
    carries it, and asks the agendas that [get_agenda_ids] selects with
    it.  When the page has no place, or its first place no practice id,
    the poll raises [IndexError] right after the booking request, before
    any availabilities request. *)
Theorem C10_practice_of_first_place (fuel : nat) (a : args) (start : date)
  (s : store) (b : booking) (rp : reply) (rest : list reply) :
  replies s = rp :: rest -> rp_outcome rp = Ok (booking_json b) ->
  match first_practice b with
  | Some q =>
      DoctorBookingPage.get_practice (booking_json b) = Ok (JInt q) /\
      exists evs,
        trace (snd (Doctolib.has_availability fuel a start s))
        = (evs ++ EvRequest (Doctolib.booking_request a) :: trace s)%list /\
        Forall (polls_with (booking_json b) (JInt q)) evs
  | None =>
      DoctorBookingPage.get_practice (booking_json b) = Raise IndexError /\
      fst (Doctolib.has_availability fuel a start s) = Exc IndexError /\
      trace (snd (Doctolib.has_availability fuel a start s))
      = EvRequest (Doctolib.booking_request a) :: trace s
  end.
Proof.
  intros H Hdoc. pose proof (get_practice_typed b) as Hq.
  assert (Hpid : DoctorBookingPage.get_profile_id (booking_json b)
                 = Ok (JInt (bk_profile b))) by reflexivity.
  destruct (first_practice b) as [q|] eqn:Hfirst.
  - split; [assumption|].
    apply (has_availability_polls_with fuel a start s b rp rest q H Hdoc Hfirst).
  - split; [assumption|].
    rewrite (has_availability_no_practice _ _ _ _ _ _ _ _ _ H Hdoc Hpid Hq).
    cbn [fst snd trace set_page]. rewrite received_trace. split; reflexivity.
Qed.

Lemma C10_witness_first_place :
  replies ex_store = page_reply (booking_json ex_booking) :: ex_chain /\
  DoctorBookingPage.get_practice (booking_json ex_booking) = Ok (JInt 42) /\
  exists evs,
    trace (snd (Doctolib.has_availability 5 ex_args ex_start ex_store))
    = (evs ++ EvRequest (Doctolib.booking_request ex_args) :: trace ex_store)%list /\
    Forall (polls_with (booking_json ex_booking) (JInt 42)) evs.
Proof.
  split; [reflexivity|].
  exact (C10_practice_of_first_place 5 ex_args ex_start ex_store ex_booking
           (page_reply (booking_json ex_booking)) ex_chain eq_refl eq_refl).
Defined.

(** ** The decision on the last page *)

Lemma decide_decision (doc : json) (s : store) :
  fst (Doctolib.decide doc s) = outcome_of (decision doc).
Proof.
  unfold Doctolib.decide, decision, log, bind, modify.
  destruct (Py.get doc "message" (JStr "")) as [m|e]; cbn; [|reflexivity].
  destruct (PyText.percent m 0) as [[]|e]; cbn; [|reflexivity].
  destruct (Py.getitem doc "availabilities") as [av|e]; cbn; [|reflexivity].
  destruct (Py.truthy av); cbn; [|reflexivity].
  destruct (py_iter av) as [items|e]; cbn; [|reflexivity].
  destruct (Doctolib.any_slots items) as [[|]|e]; reflexivity.
Qed.

Lemma any_slots_typed (entries : list (list json)) :
  Doctolib.any_slots (map availability_json entries) = Ok (has_slots entries).
Proof.
  induction entries as [|slots entries IH]; [reflexivity|].
  cbn [map Doctolib.any_slots]. unfold availability_json at 1. cbn.
  destruct slots; [exact IH | reflexivity].
Qed.

Lemma decision_typed (entries : list (list json)) (next message : option json) :
  decision (availabilities_json entries next message)
  = match message with
    | None => Ok (has_slots entries)
    | Some m => rbind (PyText.percent m 0) (fun _ => Ok (has_slots entries))
    end.
Proof.
  assert (Hav : forall m,
    rbind (PyText.percent m 0) (fun _ =>
      rbind (Ok (JArr (map availability_json entries))) (fun availabilities =>
        if negb (Py.truthy availabilities) then Ok false
        else rbind (py_iter availabilities) Doctolib.any_slots))
    = rbind (PyText.percent m 0) (fun _ => Ok (has_slots entries))).
  { intros m. destruct (PyText.percent m 0); [|reflexivity]. cbn [rbind].
    destruct entries as [|e es]; [reflexivity|].
    cbn [Py.truthy map negb py_iter rbind]. apply (any_slots_typed (e :: es)). }
  unfold decision, availabilities_json.
  destruct next as [d|], message as [m|]; cbn -[PyText.percent]; try apply Hav.
  all: destruct entries as [|e es]; [reflexivity|];
    cbn [Py.truthy map negb py_iter rbind]; apply (any_slots_typed (e :: es)).
Qed.

(** C2: on a last page without a message, or whose message is a text
    that the [%] operator leaves alone, the poller answers true exactly
    when some entry of [availabilities] has a slot.  A message that [%]
    rejects makes [log] raise before [availabilities] is read: the
    message then decides the outcome. *)
Theorem C2_decision_on_last_page :
  (forall entries next s,
      fst (Doctolib.decide (availabilities_json entries next None) s)
      = Ret (has_slots entries))
  /\ (forall entries next m s,
        PyText.percent m 0 = Ok tt ->
        fst (Doctolib.decide (availabilities_json entries next (Some m)) s)
        = Ret (has_slots entries))
  /\ (forall s, fst (Doctolib.decide (availabilities_json [] None None) s) = Ret false)
  /\ (forall s, fst (Doctolib.decide (availabilities_json [[]] None None) s) = Ret false)
  /\ (forall s x, fst (Doctolib.decide (availabilities_json [[]; [x]] None None) s)
                  = Ret true)
  /\ (forall s, fst (Doctolib.decide
                       (availabilities_json [[JStr "X"]] None (Some (JStr "100%"))) s)
                = Exc ValueError).
Proof.
  repeat split; intros; rewrite decide_decision, decision_typed;
    try reflexivity.
  rewrite H. reflexivity.
Qed.

(** ** Following the dates the server names *)

Lemma follow_next_slot_step fuel d motive ags practice s rp rest doc :
  replies s = rp :: rest -> rp_outcome rp = Ok doc ->
  Doctolib.follow_next_slot (S fuel) (JStr d) motive ags practice s
  = match Py.contains (JStr "next_slot") doc with
    | Ok true =>
        match Py.getitem doc "next_slot" with
        | Ok next =>
            Doctolib.follow_next_slot fuel next motive ags practice
              (set_page doc
                 (received (Doctolib.availabilities_request (JStr d) motive ags practice)
                           rp rest s))
        | Raise e =>
            (Exc e,
             set_page doc
               (received (Doctolib.availabilities_request (JStr d) motive ags practice)
                         rp rest s))
        end
    | Ok false =>
        Doctolib.follow_next_slot fuel JNull motive ags practice
          (set_page doc
             (received (Doctolib.availabilities_request (JStr d) motive ags practice)
                       rp rest s))
    | Raise e =>
        (Exc e,
         set_page doc
           (received (Doctolib.availabilities_request (JStr d) motive ags practice)
                     rp rest s))
    end.
Proof.
  intros H Hdoc. cbn [Doctolib.follow_next_slot].
  unfold bind at 1. rewrite (go_page _ _ _ _ _ _ H Hdoc). unfold json_page.
  unfold bind at 1.
  destruct (Py.contains (JStr "next_slot") doc) as [[|]|e]; cbn [lift ret raise];
    [| reflexivity | reflexivity].
  unfold bind at 1.
  destruct (Py.getitem doc "next_slot") as [next|e]; reflexivity.
Qed.

Lemma follow_next_slot_done fuel motive ags practice s :
  Doctolib.follow_next_slot fuel JNull motive ags practice s = (Ret tt, s).
Proof. destruct fuel; reflexivity. Qed.

Lemma follow_next_slot_chain (links : list (reply * string)) :
  forall (fuel : nat) (d0 : string) (motive : json) (ags : list string)
         (practice : json) (s : store) (last_rp : reply) (last : json)
         (rest : list reply),
    Forall (fun l => points_to (fst l) (snd l)) links ->
    rp_outcome last_rp = Ok last -> ends_chain last ->
    replies s = (map fst links ++ last_rp :: rest)%list ->
    (List.length links < fuel)%nat ->
    let r := Doctolib.follow_next_slot fuel (JStr d0) motive ags practice s in
    fst r = Ret tt /\ page (snd r) = last /\ replies (snd r) = rest /\
    trace (snd r)
    = (rev (map EvRequest (chain_requests d0 (map snd links) motive ags practice))
       ++ trace s)%list.
Proof.
  induction links as [|[rp d] links IH];
    intros fuel d0 motive ags practice s last_rp last rest Hlinks Hlast Hend Hs Hfuel r;
    subst r; (destruct fuel as [|fuel]; [inversion Hfuel|]).
  - cbn [map app] in Hs.
    rewrite (follow_next_slot_step _ _ _ _ _ _ _ _ _ Hs Hlast).
    unfold ends_chain in Hend. rewrite Hend, follow_next_slot_done.
    cbn [fst snd page replies trace set_page].
    rewrite received_replies, received_trace. repeat split.
  - cbn [map app fst] in Hs. inversion Hlinks as [|? ? [doc [Hdoc [Hin Hget]]] Hrest]; subst.
    cbn [fst snd] in *.
    rewrite (follow_next_slot_step _ _ _ _ _ _ _ _ _ Hs Hdoc), Hin, Hget.
    match goal with
    | |- context [Doctolib.follow_next_slot fuel (JStr d) motive ags practice ?s1] =>
        destruct (IH fuel d motive ags practice s1 last_rp last rest Hrest Hlast Hend)
          as [H1 [H2 [H3 H4]]];
          [ cbn [replies set_page]; apply received_replies
          | cbn [List.length] in Hfuel; lia | ]
    end.
    repeat split; try assumption.
    rewrite H4. cbn [trace set_page]. rewrite received_trace.
    unfold chain_requests. cbn [map rev]. rewrite <- !app_assoc.
    reflexivity.
Qed.

Lemma requests_of_app (t1 t2 : list event) :
  requests_of (t1 ++ t2) = (requests_of t2 ++ requests_of t1)%list.
Proof. unfold requests_of. rewrite rev_app_distr. apply flat_map_app. Qed.

Lemma requests_of_outputs (evs : list event) :
  Forall is_output evs -> requests_of evs = [].
Proof.
  intros H. unfold requests_of. apply Forall_rev in H.
  induction H as [|e t He _ IH]; [reflexivity|].
  cbn [flat_map]. rewrite IH. destruct e; try contradiction; reflexivity.
Qed.

Lemma requests_of_requests (rs : list request) :
  requests_of (rev (map EvRequest rs)) = rs.
Proof.
  unfold requests_of. rewrite rev_involutive.
  induction rs as [|r rs IH]; [reflexivity|]. cbn. now rewrite IH.
Qed.

Lemma poll_after_chain fuel date motive ags practice s :
  fst (Doctolib.follow_next_slot fuel date motive ags practice s) = Ret tt ->
  fst (Doctolib.poll fuel date motive ags practice s)
  = outcome_of (decision (page (snd (Doctolib.follow_next_slot fuel date motive ags practice s)))).
Proof.
  intros H. unfold Doctolib.poll. unfold bind at 1.
  destruct (Doctolib.follow_next_slot fuel date motive ags practice s) as [[[]| |] s1];
    try discriminate.
  unfold bind at 1. cbn [gets fst snd]. apply decide_decision.
Qed.

(** C1: from the start date on, each query carries the current date; a
    page that names a next slot makes that date the next query's start
    date, the first page without [next_slot] ends the loop after its
    query, and the decision is the one of that last page alone. *)
Theorem C1_poller_follows_next_slot
  (links : list (reply * string)) (last_rp : reply) (last : json)
  (rest : list reply) (fuel : nat) (d0 : string) (motive : json)
  (ags : list string) (practice : json) (s : store) :
  Forall (fun l => points_to (fst l) (snd l)) links ->
  rp_outcome last_rp = Ok last -> ends_chain last ->
  replies s = (map fst links ++ last_rp :: rest)%list ->
  (List.length links < fuel)%nat ->
  let r := Doctolib.poll fuel (JStr d0) motive ags practice s in
  requests_of (trace (snd r))
  = (requests_of (trace s)
     ++ chain_requests d0 (map snd links) motive ags practice)%list
  /\ replies (snd r) = rest
  /\ page (snd r) = last
  /\ fst r = outcome_of (decision last).
Proof.
  intros Hlinks Hlast Hend Hs Hfuel r.
  destruct (follow_next_slot_chain links fuel d0 motive ags practice s
              last_rp last rest Hlinks Hlast Hend Hs Hfuel) as [H1 [H2 [H3 H4]]].
  subst r.
  pose proof (poll_after_chain fuel (JStr d0) motive ags practice s H1) as Hp.
  rewrite H2 in Hp.
  split; [|split; [|split]]; try assumption.
  all: unfold Doctolib.poll in *; unfold bind at 1.
  all: destruct (Doctolib.follow_next_slot fuel (JStr d0) motive ags practice s)
      as [[[]| |] s1]; try discriminate.
  all: cbn [fst snd] in *; unfold bind at 1; cbn [gets].
  - destruct (decide_preserves (extends_by is_output)
                  (extends_by_output _ (fun e H => H)) (page s1) s1)
      as [evs [Ht HF]].
    rewrite Ht, requests_of_app, (requests_of_outputs _ HF), H4, requests_of_app,
      requests_of_requests, app_nil_r. reflexivity.
  - rewrite <- H3.
    apply (decide_preserves (keeps replies) (fun _ _ _ => eq_refl) (page s1) s1).
  - rewrite <- H2.
    apply (decide_preserves (keeps page) (fun _ _ _ => eq_refl) (page s1) s1).
Qed.


Lemma C1_witness_two_queries :
  let rp1 := page_reply (availabilities_json [] (Some (JStr "2024-01-08")) None) in
  let rp2 := page_reply (availabilities_json [[JStr "X"]] None None) in
  let s := initial_store [rp1; rp2] [] true in
  let r := Doctolib.poll 5 (JStr "2024-01-01") (JInt 5) ["100"] (JInt 42) s in
  points_to rp1 "2024-01-08" /\
  ends_chain (availabilities_json [[JStr "X"]] None None) /\
  requests_of (trace (snd r))
  = [Doctolib.availabilities_request (JStr "2024-01-01") (JInt 5) ["100"] (JInt 42);
     Doctolib.availabilities_request (JStr "2024-01-08") (JInt 5) ["100"] (JInt 42)] /\
  replies (snd r) = [] /\
  fst r = Ret true.
Proof.
  intros rp1 rp2 s r.
  assert (H1 : points_to rp1 "2024-01-08").
  { exists (availabilities_json [] (Some (JStr "2024-01-08")) None).
    repeat split. }
  assert (H2 : ends_chain (availabilities_json [[JStr "X"]] None None))
    by reflexivity.
  assert (HF : Forall (fun l : reply * string => points_to (fst l) (snd l))
                      [(rp1, "2024-01-08")])
    by (constructor; [exact H1 | constructor]).
  split; [exact H1|]. split; [exact H2|].
  destruct (C1_poller_follows_next_slot [(rp1, "2024-01-08")] rp2
              (availabilities_json [[JStr "X"]] None None) [] 5 "2024-01-01"
              (JInt 5) ["100"] (JInt 42) s
              HF eq_refl H2 eq_refl
              (le_S _ _ (le_S _ _ (le_S _ _ (le_n 2)))))
    as [Hreq [Hrep [_ Hres]]].
  split; [exact Hreq|]. split; [exact Hrep | exact Hres].
Defined.

(** The same chain behind [has_availability]: the booking page, then two
    availabilities queries, the second one from 2024-01-08; the answer is
    true and only the agenda that is not disabled is asked for. *)
Lemma has_availability_sample_run :
  let r := Doctolib.has_availability 5 ex_args ex_start ex_store in
  fst r = Ret true /\
  requests_of (trace (snd r))
  = [Doctolib.booking_request ex_args;
     Doctolib.availabilities_request (JStr "2024-01-01") (JInt 5) ["100"] (JInt 42);
     Doctolib.availabilities_request (JStr "2024-01-08") (JInt 5) ["100"] (JInt 42)].
Proof. split; reflexivity. Qed.

(** A next slot of [null] ends the chain as a missing one does. *)
Lemma null_next_slot_ends_chain :
  let rp := page_reply (availabilities_json [] (Some JNull) None) in
  let r := Doctolib.poll 5 (JStr "2024-01-01") (JInt 5) ["100"] (JInt 42)
             (initial_store [rp; rp] [] true) in
  fst r = Ret false /\ List.length (replies (snd r)) = 1%nat.
Proof. split; reflexivity. Qed.

(** ** Choosing a motive *)

Lemma bind_Ret {A B} (m : M A) (k : A -> M B) s a s' :
  m s = (Ret a, s') -> bind m k s = k a s'.
Proof. intros H. unfold bind. rewrite H. reflexivity. Qed.

Lemma bind_Exc {A B} (m : M A) (k : A -> M B) s e s' :
  m s = (Exc e, s') -> bind m k s = (Exc e, s').
Proof. intros H. unfold bind. rewrite H. reflexivity. Qed.

Lemma bind_Running {A B} (m : M A) (k : A -> M B) s s' :
  m s = (Running, s') -> bind m k s = (Running, s').
Proof. intros H. unfold bind. rewrite H. reflexivity. Qed.

Lemma readline_line s l rest :
  stdin s = l :: rest -> readline s = (Ret l, set_stdin rest s).
Proof. intros H. unfold readline, bind, gets, modify. cbn. rewrite H. reflexivity. Qed.

Lemma readline_eof s : stdin s = [] -> readline s = (Ret "", s).
Proof. intros H. unfold readline, bind, gets. cbn. rewrite H. reflexivity. Qed.

(** One round of the prompt. *)
Lemma ask_motive_round fuel vms s line rest :
  stdin s = line :: rest ->
  Doctolib.ask_motive (S fuel) vms s
  = match choice vms line with
    | Ok id => (Ret tt, set_motive_id id (set_stdin rest (emit motive_prompt s)))
    | Raise e =>
        if Doctolib.is_Value_or_IndexError e
        then Doctolib.ask_motive fuel vms (set_stdin rest (emit motive_prompt s))
        else (Exc e, set_stdin rest (emit motive_prompt s))
    end.
Proof.
  intros H. cbn [Doctolib.ask_motive].
  rewrite (bind_Ret _ _ _ tt (emit motive_prompt s)) by reflexivity.
  rewrite (bind_Ret _ _ _ line (set_stdin rest (emit motive_prompt s)))
    by (apply readline_line; exact H).
  unfold choice, try_except, bind, lift, modify, ret, raise.
  destruct (PyText.int (PyText.strip line)) as [i|e]; cbn [rbind].
  - destruct (Py.index vms i) as [vm|e]; cbn [rbind].
    + destruct (Py.getitem vm "id") as [id|e]; [reflexivity|].
      destruct (Doctolib.is_Value_or_IndexError e); reflexivity.
    + destruct (Doctolib.is_Value_or_IndexError e); reflexivity.
  - destruct (Doctolib.is_Value_or_IndexError e); reflexivity.
Qed.

Lemma ask_motive_round_eof fuel vms s :
  stdin s = [] ->
  Doctolib.ask_motive (S fuel) vms s
  = Doctolib.ask_motive fuel vms (emit motive_prompt s).
Proof.
  intros H. cbn [Doctolib.ask_motive].
  rewrite (bind_Ret _ _ _ tt (emit motive_prompt s)) by reflexivity.
  rewrite (bind_Ret _ _ _ "" (emit motive_prompt s))
    by (apply readline_eof; exact H).
  reflexivity.
Qed.

Lemma int_raises_ValueError (t : string) (e : exn) :
  PyText.int t = Raise e -> e = ValueError.
Proof.
  unfold PyText.int.
  destruct (list_ascii_of_string (PyText.strip t)) as [|c cs]; [congruence|].
  repeat match goal with
         | |- context [if ?b then _ else _] => destruct b
         | |- context [match ?o with Some _ => _ | None => _ end] => destruct o
         end; congruence.
Qed.

Lemma nth_index_in_range {A} (xs : list A) (i : Z) :
  0 <= i < Z.of_nat (List.length xs) ->
  Py.nth_index xs i = nth_error xs (Z.to_nat i).
Proof.
  intros H. unfold Py.nth_index.
  destruct (Z.leb_spec 0 i), (Z.ltb_spec i (Z.of_nat (List.length xs)));
    try lia. reflexivity.
Qed.

Lemma nth_index_out_of_range {A} (xs : list A) (i : Z) :
  Z.of_nat (List.length xs) <= i \/ i < - Z.of_nat (List.length xs) ->
  Py.nth_index xs i = None.
Proof.
  intros H. unfold Py.nth_index.
  destruct (Z.leb_spec 0 i), (Z.ltb_spec i (Z.of_nat (List.length xs))),
    (Z.leb_spec (- Z.of_nat (List.length xs)) i), (Z.ltb_spec i 0);
    cbn [andb]; try lia; reflexivity.
Qed.

Lemma choice_rejected (ms : list motive) (line : string) :
  rejects (Z.of_nat (List.length ms)) line = true ->
  exists e, choice (JArr (map motive_json ms)) line = Raise e /\
            Doctolib.is_Value_or_IndexError e = true.
Proof.
  unfold rejects, choice. intros H.
  destruct (PyText.int (PyText.strip line)) as [i|e] eqn:Hint; cbn [rbind].
  - exists IndexError. split; [|reflexivity]. cbn [Py.index].
    rewrite nth_index_out_of_range; [reflexivity|].
    rewrite length_map. apply orb_true_iff in H. destruct H as [H|H].
    + left. apply Z.leb_le. exact H.
    + right. apply Z.ltb_lt. exact H.
  - exists e. split; [reflexivity|].
    rewrite (int_raises_ValueError _ _ Hint). reflexivity.
Qed.

Lemma choice_picked (ms : list motive) (line : string) (k : nat) (m : motive) :
  picks (Z.of_nat (List.length ms)) line = Some k -> nth_error ms k = Some m ->
  choice (JArr (map motive_json ms)) line = Ok (JInt (mo_id m)).
Proof.
  unfold picks, choice. intros H Hm.
  destruct (PyText.int (PyText.strip line)) as [i|e]; [|discriminate].
  destruct ((0 <=? i) && (i <? Z.of_nat (List.length ms))) eqn:Hi; [|discriminate].
  injection H as <-. apply andb_true_iff in Hi. destruct Hi as [H0 H1].
  apply Z.leb_le in H0. apply Z.ltb_lt in H1.
  cbn [rbind Py.index]. rewrite nth_index_in_range by (rewrite length_map; lia).
  rewrite nth_error_map, Hm. reflexivity.
Qed.

Lemma ask_motive_selects (ms : list motive) (bad : list string) :
  forall (fuel : nat) (s : store) (line : string) (rest : list string)
         (k : nat) (m : motive),
    stdin s = (bad ++ line :: rest)%list ->
    forallb (rejects (Z.of_nat (List.length ms))) bad = true ->
    picks (Z.of_nat (List.length ms)) line = Some k -> nth_error ms k = Some m ->
    (List.length bad < fuel)%nat ->
    let r := Doctolib.ask_motive fuel (JArr (map motive_json ms)) s in
    fst r = Ret tt /\ motive_id (snd r) = JInt (mo_id m) /\ stdin (snd r) = rest /\
    trace (snd r) = (repeat motive_prompt (S (List.length bad)) ++ trace s)%list.
Proof.
  induction bad as [|b bad IH]; intros fuel s line rest k m Hs Hbad Hk Hm Hfuel r;
    subst r; (destruct fuel as [|fuel]; [inversion Hfuel|]).
  - rewrite (ask_motive_round _ _ _ _ _ Hs), (choice_picked _ _ _ _ Hk Hm).
    repeat split.
  - cbn [forallb] in Hbad. apply andb_true_iff in Hbad. destruct Hbad as [Hb Hbad].
    rewrite (ask_motive_round _ _ _ _ _ Hs).
    destruct (choice_rejected _ _ Hb) as [e [-> ->]].
    match goal with
    | |- context [Doctolib.ask_motive fuel _ ?s1] =>
        destruct (IH fuel s1 line rest k m eq_refl Hbad Hk Hm
                    ltac:(cbn [List.length] in Hfuel; lia))
          as [H1 [H2 [H3 H4]]]
    end.
    repeat split; try assumption.
    rewrite H4. cbn [trace set_stdin emit List.length].
    change (motive_prompt :: trace s) with ([motive_prompt] ++ trace s)%list.
    rewrite app_assoc, <- repeat_cons. reflexivity.
Qed.

Lemma ask_motive_never_selects (ms : list motive) (bad : list string) :
  forall (fuel : nat) (s : store),
    stdin s = bad ->
    forallb (rejects (Z.of_nat (List.length ms))) bad = true ->
    let r := Doctolib.ask_motive fuel (JArr (map motive_json ms)) s in
    fst r = Running /\ motive_id (snd r) = motive_id s.
Proof.
  induction bad as [|b bad IH]; intros fuel s Hs Hbad r; subst r.
  - revert s Hs. induction fuel as [|fuel IHf]; intros s Hs; [split; reflexivity|].
    rewrite (ask_motive_round_eof _ _ _ Hs). apply (IHf (emit motive_prompt s) Hs).
  - destruct fuel as [|fuel]; [split; reflexivity|].
    cbn [forallb] in Hbad. apply andb_true_iff in Hbad. destruct Hbad as [Hb Hbad].
    rewrite (ask_motive_round _ _ _ _ _ Hs).
    destruct (choice_rejected _ _ Hb) as [e [-> ->]].
    apply (IH fuel (set_stdin bad (emit motive_prompt s)) eq_refl Hbad).
Qed.

Lemma emit_all_trace evs s : trace (emit_all evs s) = (rev evs ++ trace s)%list.
Proof.
  revert s. induction evs as [|e evs IH]; intros s; [reflexivity|].
  cbn [emit_all fold_left rev]. fold (emit_all evs (emit e s)).
  rewrite IH, <- app_assoc. reflexivity.
Qed.

Lemma emit_all_stdin evs s : stdin (emit_all evs s) = stdin s.
Proof.
  revert s. induction evs as [|e evs IH]; intros s; [reflexivity|].
  cbn [emit_all fold_left]. fold (emit_all evs (emit e s)). now rewrite IH.
Qed.

Lemma emit_all_motive_id evs s : motive_id (emit_all evs s) = motive_id s.
Proof.
  revert s. induction evs as [|e evs IH]; intros s; [reflexivity|].
  cbn [emit_all fold_left]. fold (emit_all evs (emit e s)). now rewrite IH.
Qed.

Lemma print_motives_typed (ms : list motive) :
  forall i s,
    Doctolib.print_motives i (map motive_json ms) s
    = (Ret tt, emit_all (motive_lines i ms) s).
Proof.
  induction ms as [|m ms IH]; intros i s; [reflexivity|].
  cbn [map Doctolib.print_motives motive_lines emit_all fold_left].
  erewrite bind_Ret by reflexivity.
  erewrite bind_Ret by reflexivity.
  apply IH.
Qed.

Ltac step := erewrite bind_Ret by reflexivity.

Lemma resolve_motive_typed (fuel : nat) (b : booking) (s : store) :
  Py.truthy (motive_id s) = false ->
  Doctolib.resolve_motive fuel (booking_json b) s
  = match bk_motives b with
    | [] => (Exc no_motive, s)
    | [m] => (Ret tt, set_motive_id (JInt (mo_id m)) s)
    | ms => Doctolib.ask_motive fuel (JArr (map motive_json ms))
              (emit_all (motive_listing ms) s)
    end.
Proof.
  intros H. unfold Doctolib.resolve_motive.
  step. rewrite H. cbn [negb]. step. step. step.
  destruct (bk_motives b) as [|m [|m2 ms]].
  - reflexivity.
  - cbn [map List.length Z.of_nat Pos.of_succ_nat Z.eqb Pos.eqb]. step. step. reflexivity.
  - match goal with
    | |- context [Z.of_nat ?n =? 0] =>
        replace (Z.of_nat n =? 0) with false
          by (symmetry; apply Z.eqb_neq; cbn [map List.length]; lia);
        replace (Z.of_nat n =? 1) with false
          by (symmetry; apply Z.eqb_neq; cbn [map List.length]; lia)
    end.
    step. step. rewrite (bind_Ret _ _ _ _ _ (print_motives_typed _ _ _)).
    reflexivity.
Qed.

(** C4, as the code has it.  When no motive id is set ([args.motive_id]
    is missing or 0): a page without motives ends the call with the
    error "Doctor does not offer any consultation ATM"; a page with one
    motive selects it without asking; a page with [n >= 2] motives lists
    them and asks, and every line that is no integer (as [int] reads
    them: a numeral of more than 4300 digits is none), or an index of
    [n] or more, or one below [-n], is answered by the prompt again,
    without failing and without selecting, until a line with an index
    from 0 to [n - 1] selects that motive. *)
Theorem C4_motive_selection (fuel : nat) (b : booking) (s : store) :
  Py.truthy (motive_id s) = false ->
  let n := Z.of_nat (List.length (bk_motives b)) in
  let r := Doctolib.resolve_motive fuel (booking_json b) s in
  match bk_motives b with
  | [] => r = (Exc no_motive, s)
  | [m] => r = (Ret tt, set_motive_id (JInt (mo_id m)) s)
  | _ =>
      (forall bad line rest k m,
          stdin s = (bad ++ line :: rest)%list ->
          forallb (rejects n) bad = true ->
          picks n line = Some k -> nth_error (bk_motives b) k = Some m ->
          (List.length bad < fuel)%nat ->
          fst r = Ret tt /\ motive_id (snd r) = JInt (mo_id m) /\
          stdin (snd r) = rest /\
          trace (snd r)
          = (repeat motive_prompt (S (List.length bad))
             ++ rev (motive_listing (bk_motives b)) ++ trace s)%list)
      /\ (forallb (rejects n) (stdin s) = true ->
          fst r = Running /\ motive_id (snd r) = motive_id s)
  end.
Proof.
  intros H n r. subst n r. rewrite (resolve_motive_typed _ _ _ H).
  destruct (bk_motives b) as [|m1 [|m2 ms]] eqn:Hms; try reflexivity.
  cbv beta iota zeta. split.
  - intros bad line rest k m Hs Hbad Hk Hm Hfuel.
    destruct (ask_motive_selects (m1 :: m2 :: ms) bad fuel
                (emit_all (motive_listing (m1 :: m2 :: ms)) s) line rest k m)
      as [H1 [H2 [H3 H4]]]; try assumption.
    { rewrite emit_all_stdin. exact Hs. }
    repeat split; try assumption.
    rewrite H4, emit_all_trace. reflexivity.
  - intros Hbad.
    destruct (ask_motive_never_selects (m1 :: m2 :: ms) (stdin s) fuel
                (emit_all (motive_listing (m1 :: m2 :: ms)) s))
      as [H1 H2]; try assumption.
    { apply emit_all_stdin. }
    split; [assumption|]. rewrite H2. apply emit_all_motive_id.
Qed.

Lemma C4_witness_reprompt :
  let r := Doctolib.resolve_motive 5 (booking_json ex_two_motives) ex_typing in
  Py.truthy (motive_id ex_typing) = false /\
  forallb (rejects 2) ["abc"; "7"] = true /\ picks 2 " 1 " = Some 1%nat /\
  fst r = Ret tt /\ motive_id (snd r) = JInt 6 /\ stdin (snd r) = ["0"] /\
  trace (snd r)
  = (repeat motive_prompt 3 ++ rev (motive_listing (bk_motives ex_two_motives)))%list.
Proof.
  intros r. split; [reflexivity|]. split; [reflexivity|]. split; [reflexivity|].
  destruct (C4_motive_selection 5 ex_two_motives ex_typing eq_refl) as [Hsel _].
  exact (Hsel ["abc"; "7"] " 1 " ["0"] 1%nat (mk_motive 6 "Suivi")
           eq_refl eq_refl eq_refl eq_refl
           (le_S _ _ (le_S _ _ (le_n 3)))).
Defined.

(** With a motive id set, the motives of the page are not looked at. *)
Lemma resolve_motive_explicit (fuel : nat) (doc : json) (s : store) :
  Py.truthy (motive_id s) = true ->
  Doctolib.resolve_motive fuel doc s = (Ret tt, s).
Proof.
  intros H. unfold Doctolib.resolve_motive. step. rewrite H. reflexivity.
Qed.

(** C4 as stated fails twice: with the motive id 7 given on the command
    line, a doctor without motives is no error; and with two motives on
    offer, the index -1, outside of 0..1, is not asked again but selects
    the last motive after a single prompt. *)
Lemma C4_explicit_id_and_negative_index :
  (let s := set_motive_id (JInt 7) (initial_store [] [] true) in
   bk_motives ex_no_motive = [] /\
   Doctolib.resolve_motive 5 (booking_json ex_no_motive) s = (Ret tt, s) /\
   Doctolib.resolve_motive 5 (booking_json ex_no_motive) s <> (Exc no_motive, s))
  /\
  (let r := Doctolib.resolve_motive 5 (booking_json ex_two_motives)
              (initial_store [] ["-1"] true) in
   rejected_as_specified 2 "-1" = true /\
   fst r = Ret tt /\ motive_id (snd r) = JInt 6 /\
   trace (snd r)
   = (motive_prompt :: rev (motive_listing (bk_motives ex_two_motives)))%list).
Proof. repeat split. discriminate. Qed.

(** A numeral of more digits than the interpreter converts is no
    integer: [int] raises, and the line is answered by the prompt
    again, whatever its digits are. *)
Lemma long_numeral_rejected (n : Z) (line : string) :
  match list_ascii_of_string (PyText.strip (PyText.strip line)) with
  | c :: rest =>
      (PyText.int_max_str_digits < PyText.count_digits rest)%nat
  | [] => True
  end ->
  PyText.int (PyText.strip line) = Raise ValueError /\
  rejects n line = true /\ picks n line = None.
Proof.
  intros H.
  assert (Hint : PyText.int (PyText.strip line) = Raise ValueError).
  { unfold PyText.int.
    destruct (list_ascii_of_string (PyText.strip (PyText.strip line))) as [|c rest];
      [reflexivity|].
    assert (Hrest : PyText.int_literal rest = None).
    { unfold PyText.int_literal. destruct (PyText.int_digits rest 0 false); [|reflexivity].
      apply Nat.leb_gt in H. rewrite H. reflexivity. }
    assert (Hall : PyText.int_literal (c :: rest) = None).
    { unfold PyText.int_literal.
      destruct (PyText.int_digits (c :: rest) 0 false); [|reflexivity].
      replace (PyText.count_digits (c :: rest) <=? PyText.int_max_str_digits)%nat
        with false; [reflexivity|].
      symmetry. apply Nat.leb_gt. unfold PyText.count_digits in *. cbn [filter].
      destruct (PyText.is_digit c); cbn [List.length]; lia. }
    rewrite Hrest, Hall. destruct (Ascii.eqb c "-"); [reflexivity|].
    destruct (Ascii.eqb c "+"); reflexivity. }
  unfold rejects, picks. rewrite Hint. repeat split.
Qed.

(** ** Logging in *)

Lemma try_except_Ret {A} (m : M A) hd h s a s' :
  m s = (Ret a, s') -> try_except m hd h s = (Ret a, s').
Proof. intros H. unfold try_except. rewrite H. reflexivity. Qed.

Lemma try_except_handled {A} (m : M A) hd h s e s' :
  m s = (Exc e, s') -> hd e = true -> try_except m hd h s = h e s'.
Proof. intros H He. unfold try_except. rewrite H, He. reflexivity. Qed.

Lemma open_page (r : request) (rp : reply) (rest : list reply) (s : store) :
  replies s = rp :: rest -> is_page rp ->
  open r s = (Ret tt, received r rp rest s).
Proof.
  intros H [doc Hdoc]. unfold open.
  rewrite (bind_Ret _ _ _ doc (received r rp rest s)); [reflexivity|].
  rewrite (transfer_reply _ _ _ _ H), Hdoc. reflexivity.
Qed.

Lemma do_login_logged_in a s rp0 rp1 rest doc :
  replies s = rp0 :: rp1 :: rest -> is_page rp0 -> rp_outcome rp1 = Ok doc ->
  Doctolib.do_login a s
  = Doctolib.second_factor (set_page doc (after_login a rp0 rp1 rest s)).
Proof.
  intros H H0 H1. unfold Doctolib.do_login.
  rewrite (bind_Ret _ _ _ tt (received sessions_new rp0 (rp1 :: rest) s)).
  2:{ apply try_except_Ret. apply open_page; assumption. }
  rewrite (bind_Ret _ _ _ true (set_page doc (after_login a rp0 rp1 rest s))).
  2:{ apply try_except_Ret.
      rewrite (bind_Ret _ _ _ doc (set_page doc (after_login a rp0 rp1 rest s)));
        [reflexivity|].
      apply (go_page _ json_page); [apply received_replies | assumption]. }
  reflexivity.
Qed.

Lemma do_login_rejected a s rp0 rp1 rest e :
  replies s = rp0 :: rp1 :: rest -> is_page rp0 -> rp_outcome rp1 = Raise e ->
  Doctolib.is_ClientError e = true ->
  Doctolib.do_login a s
  = (Ret false, emit (EvPrint "Wrong login/password") (after_login a rp0 rp1 rest s)).
Proof.
  intros H H0 H1 He. unfold Doctolib.do_login.
  rewrite (bind_Ret _ _ _ tt (received sessions_new rp0 (rp1 :: rest) s)).
  2:{ apply try_except_Ret. apply open_page; assumption. }
  rewrite (bind_Ret _ _ _ false
             (emit (EvPrint "Wrong login/password") (after_login a rp0 rp1 rest s))).
  2:{ rewrite (try_except_handled _ _ _ _ e (after_login a rp0 rp1 rest s));
        [reflexivity | | assumption].
      apply bind_Exc. apply go_raises; [apply received_replies | assumption]. }
  reflexivity.
Qed.

Lemma after_login_trace a rp0 rp1 rest s :
  trace (after_login a rp0 rp1 rest s)
  = EvRequest (Doctolib.login_request a) :: EvRequest sessions_new :: trace s.
Proof. unfold after_login. rewrite !received_trace. reflexivity. Qed.

Lemma received_stdin r rp rest s : stdin (received r rp rest s) = stdin s.
Proof. unfold received. destruct (rp_cookies rp); reflexivity. Qed.

Lemma received_isatty r rp rest s : isatty (received r rp rest s) = isatty s.
Proof. unfold received. destruct (rp_cookies rp); reflexivity. Qed.

Lemma second_factor_no_terminal s :
  LoginPage.redirect (page s) = Ok (JStr Doctolib.two_factor_path) ->
  isatty s = false ->
  Doctolib.second_factor s
  = (Ret false, emit no_terminal (emit (EvPrint "Requesting 2fa code...") s)).
Proof.
  intros Hr Htty. unfold Doctolib.second_factor.
  step. rewrite Hr. step. cbn [Py.eqb]. rewrite String.eqb_refl.
  step. step. cbn [isatty emit]. rewrite Htty. cbn [negb].
  step. reflexivity.
Qed.

Lemma second_factor_invalid_code s rp2 rp3 rest line lines :
  LoginPage.redirect (page s) = Ok (JStr Doctolib.two_factor_path) ->
  isatty s = true ->
  replies s = rp2 :: rp3 :: rest -> is_page rp2 ->
  rp_outcome rp3 = Raise HTTPNotFound ->
  stdin s = line :: lines ->
  Doctolib.second_factor s
  = (Ret false,
     emit (EvPrint "Invalid auth code")
       (received (Doctolib.challenge_request (chomp line)) rp3 rest
          (set_stdin lines
             (emit (EvInput "Enter auth code: ")
                (set_page (JStr "")
                   (received Doctolib.send_auth_code_request rp2 (rp3 :: rest)
                      (emit (EvPrint "Requesting 2fa code...") s))))))).
Proof.
  intros Hr Htty Hrep [d2 H2] H3 Hin. unfold Doctolib.second_factor.
  step. rewrite Hr. step. cbn [Py.eqb]. rewrite String.eqb_refl.
  step. step. change (isatty (emit ?e s)) with (isatty s). rewrite Htty. cbn [negb].
  set (s1 := emit (EvPrint "Requesting 2fa code...") s).
  rewrite (bind_Ret _ _ _ _ _
             (go_page Doctolib.send_auth_code_request empty_page rp2 (rp3 :: rest)
                      d2 s1 Hrep H2)).
  unfold empty_page.
  set (s2 := set_page (JStr "")
               (received Doctolib.send_auth_code_request rp2 (rp3 :: rest) s1)).
  rewrite (bind_Ret _ _ s2 (chomp line)
             (set_stdin lines (emit (EvInput "Enter auth code: ") s2))).
  2:{ unfold input. step. step.
      change (stdin (emit ?e s2)) with (stdin s2). subst s2. cbn [stdin set_page].
      rewrite received_stdin. subst s1. cbn [stdin emit]. rewrite Hin. reflexivity. }
  rewrite (try_except_handled _ _ _ _ HTTPNotFound
             (received (Doctolib.challenge_request (chomp line)) rp3 rest
                (set_stdin lines (emit (EvInput "Enter auth code: ") s2))));
    [reflexivity | | reflexivity].
  apply bind_Exc. apply go_raises; [|assumption].
  cbn [replies set_stdin emit]. subst s2. cbn [replies set_page].
  apply received_replies.
Qed.

Lemma run_login_failed fuel a s s' :
  Doctolib.do_login a s = (Ret false, s') ->
  Application.run fuel a s = (Ret 1, s').
Proof.
  intros H. unfold Application.run. rewrite (bind_Ret _ _ _ _ _ H). reflexivity.
Qed.

(** C5: the login page redirects to the two-factor path.  Without a
    terminal, [do_login] logs the diagnostic and returns false after the
    two requests of the login: no request for an auth code is sent, the
    next reply of the server is still pending, and the run ends with 1.
    With a terminal, it asks for a code by e-mail, reads one line, sends
    it, and on [HTTPNotFound] prints "Invalid auth code" and returns
    false: one line read, one challenge sent. *)
Theorem C5_two_factor (fuel : nat) (a : args) (s : store) (rp0 rp1 : reply)
  (rest : list reply) (doc : json) :
  replies s = rp0 :: rp1 :: rest -> is_page rp0 -> rp_outcome rp1 = Ok doc ->
  LoginPage.redirect doc = Ok (JStr Doctolib.two_factor_path) ->
  let r := Doctolib.do_login a s in
  (isatty s = false ->
   fst r = Ret false /\
   trace (snd r)
   = no_terminal :: EvPrint "Requesting 2fa code..."
       :: EvRequest (Doctolib.login_request a) :: EvRequest sessions_new :: trace s /\
   replies (snd r) = rest /\
   fst (Application.run fuel a s) = Ret 1)
  /\
  (isatty s = true ->
   forall rp2 rp3 rest' line lines,
     rest = rp2 :: rp3 :: rest' -> is_page rp2 ->
     rp_outcome rp3 = Raise HTTPNotFound -> stdin s = line :: lines ->
     fst r = Ret false /\
     trace (snd r)
     = EvPrint "Invalid auth code"
         :: EvRequest (Doctolib.challenge_request (chomp line))
         :: EvInput "Enter auth code: "
         :: EvRequest Doctolib.send_auth_code_request
         :: EvPrint "Requesting 2fa code..."
         :: EvRequest (Doctolib.login_request a) :: EvRequest sessions_new :: trace s /\
     rq_json Doctolib.send_auth_code_request
     = Some (JObj [("two_factor_auth_method", JStr "email")]) /\
     stdin (snd r) = lines /\ replies (snd r) = rest').
Proof.
  intros H H0 H1 Hr r. subst r.
  pose proof (do_login_logged_in a s rp0 rp1 rest doc H H0 H1) as Hlogin.
  set (s1 := set_page doc (after_login a rp0 rp1 rest s)) in *.
  assert (Ht1 : trace s1 = EvRequest (Doctolib.login_request a)
                           :: EvRequest sessions_new :: trace s)
    by apply after_login_trace.
  assert (Hrep1 : replies s1 = rest)
    by (unfold s1, after_login; cbn [replies set_page]; apply received_replies).
  assert (Htty1 : isatty s1 = isatty s)
    by (unfold s1, after_login; cbn [isatty set_page]; now rewrite !received_isatty).
  assert (Hin1 : stdin s1 = stdin s)
    by (unfold s1, after_login; cbn [stdin set_page]; now rewrite !received_stdin).
  split.
  - intros Htty. rewrite <- Htty1 in Htty.
    pose proof (second_factor_no_terminal s1 Hr Htty) as H2.
    rewrite <- Hlogin in H2. rewrite (run_login_failed _ _ _ _ H2), H2.
    cbn [fst snd trace replies emit]. rewrite Ht1, Hrep1. repeat split.
  - intros Htty rp2 rp3 rest' line lines -> Hp2 H3 Hin.
    rewrite <- Htty1 in Htty. rewrite <- Hin1 in Hin.
    pose proof (second_factor_invalid_code s1 rp2 rp3 rest' line lines
                  Hr Htty Hrep1 Hp2 H3 Hin) as H2.
    rewrite <- Hlogin in H2. rewrite H2.
    cbn [fst snd trace replies stdin emit]. rewrite received_trace, received_replies,
      received_stdin.
    cbn [trace stdin set_stdin emit set_page]. rewrite received_trace.
    cbn [trace emit]. rewrite Ht1. repeat split.
Qed.

Lemma C5_witness_no_terminal :
  let r := Doctolib.do_login ex_args ex_no_terminal in
  LoginPage.redirect ex_two_factor_page = Ok (JStr Doctolib.two_factor_path) /\
  isatty ex_no_terminal = false /\
  fst r = Ret false /\
  trace (snd r)
  = [no_terminal; EvPrint "Requesting 2fa code...";
     EvRequest (Doctolib.login_request ex_args); EvRequest sessions_new] /\
  replies (snd r) = [page_reply (JStr "")] /\
  fst (Application.run 5 ex_args ex_no_terminal) = Ret 1.
Proof.
  intros r. split; [reflexivity|]. split; [reflexivity|].
  exact (proj1 (C5_two_factor 5 ex_args ex_no_terminal (page_reply JNull)
                  (page_reply ex_two_factor_page) [page_reply (JStr "")]
                  ex_two_factor_page eq_refl (ex_intro _ JNull eq_refl)
                  eq_refl eq_refl) eq_refl).
Defined.

(** The same redirection with a terminal and a code the server does not
    know: one code is read, the second line stays unread. *)
Lemma two_factor_wrong_code_run :
  let r := Doctolib.do_login ex_args ex_wrong_code in
  fst r = Ret false /\ stdin (snd r) = ["654321"] /\
  requests_of (trace (snd r))
  = [sessions_new; Doctolib.login_request ex_args;
     Doctolib.send_auth_code_request; Doctolib.challenge_request "123456"] /\
  replies (snd r) = [page_reply (JStr "")].
Proof. repeat split. Qed.

(** ** What the whole run preserves

    A relation that survives every event but a write of the state file,
    every step of the environment and of the browser, and the choice of
    the motive, survives the login, each poll and the body of [main]. *)

Section Run.

Context (R : store -> store -> Prop) {R_pre : PreOrder R}.
Hypothesis R_emit : forall e s, not_write e -> R s (emit e s).
Hypothesis R_replies : forall x s, R s (set_replies x s).
Hypothesis R_stdin : forall x s, R s (set_stdin x s).
Hypothesis R_sleeps : forall x s, R s (set_sleeps x s).
Hypothesis R_sounds : forall x s, R s (set_sounds x s).
Hypothesis R_page : forall x s, R s (set_page x s).
Hypothesis R_response : forall x s, R s (set_response_url x s).
Hypothesis R_cookies : forall x s, R s (set_cookies x s).
Hypothesis R_patient : forall x s, R s (set_patient x s).
Hypothesis R_resolve : forall fuel doc, preserves R (Doctolib.resolve_motive fuel doc).

Let R_output : forall e s, is_output e -> R s (emit e s).
Proof. intros e s H. apply R_emit. apply not_write_output. exact H. Qed.

Lemma transfer_preserves r : preserves R (transfer r).
Proof. unfold transfer. pres. Qed.

Lemma open_preserves r : preserves R (open r).
Proof. unfold open. pres. apply transfer_preserves. Qed.

Lemma go_preserves r build : preserves R (go r build).
Proof. unfold go. pres. apply transfer_preserves. Qed.

Lemma sleep_preserves n : preserves R (sleep n).
Proof. unfold sleep. pres. Qed.

Lemma playsound_preserves f : preserves R (playsound f).
Proof. unfold playsound. pres. Qed.

Lemma second_factor_preserves : preserves R Doctolib.second_factor.
Proof.
  unfold Doctolib.second_factor.
  pres; auto using go_preserves, print_preserves, log_preserves, input_preserves.
Qed.

Lemma do_login_preserves a : preserves R (Doctolib.do_login a).
Proof.
  unfold Doctolib.do_login, Doctolib.report_server_error.
  pres; auto using go_preserves, open_preserves, print_preserves, log_preserves,
    second_factor_preserves.
Qed.

Lemma get_patients_preserves : preserves R Doctolib.get_patients.
Proof. unfold Doctolib.get_patients. pres. apply go_preserves. Qed.

Lemma follow_next_slot_preserves fuel date motive ags practice :
  preserves R (Doctolib.follow_next_slot fuel date motive ags practice).
Proof.
  revert date. induction fuel as [|fuel IH]; intros date;
    destruct date; cbn [Doctolib.follow_next_slot]; pres;
    auto using go_preserves.
Qed.

Lemma poll_preserves fuel date motive ags practice :
  preserves R (Doctolib.poll fuel date motive ags practice).
Proof.
  unfold Doctolib.poll. pres;
    auto using follow_next_slot_preserves, decide_preserves.
Qed.

Lemma poll_practice_preserves fuel a start page doc pid practice :
  preserves R (Doctolib.poll_practice fuel a start page doc pid practice).
Proof.
  unfold Doctolib.poll_practice. pres; auto using poll_preserves.
Qed.

Lemma has_availability_preserves fuel a start :
  preserves R (Doctolib.has_availability fuel a start).
Proof.
  unfold Doctolib.has_availability. pres;
    auto using go_preserves, poll_practice_preserves.
Qed.

Lemma wait_for_slot_preserves rounds fuel a start :
  preserves R (Application.wait_for_slot rounds fuel a start).
Proof.
  induction rounds as [|rounds IH]; cbn [Application.wait_for_slot]; pres;
    auto using has_availability_preserves, sleep_preserves.
Qed.

Lemma ring_preserves rounds : preserves R (Application.ring rounds).
Proof.
  induction rounds as [|rounds IH]; cbn [Application.ring]; pres;
    auto using playsound_preserves, sleep_preserves.
Qed.

Lemma print_patients_preserves i ps : preserves R (Application.print_patients i ps).
Proof.
  revert i. induction ps as [|p ps IH]; intros i;
    cbn [Application.print_patients]; pres; auto using print_preserves.
Qed.

Lemma ask_patient_preserves fuel ps : preserves R (Application.ask_patient fuel ps).
Proof.
  induction fuel as [|fuel IH]; cbn [Application.ask_patient]; pres;
    auto using print_preserves, readline_preserves.
Qed.

Lemma look_for_slots_preserves fuel a start :
  preserves R (Application.look_for_slots fuel a start).
Proof.
  unfold Application.look_for_slots. pres;
    auto using log_preserves, wait_for_slot_preserves, ring_preserves.
Qed.

Lemma run_preserves fuel a : preserves R (Application.run fuel a).
Proof.
  unfold Application.run. pres;
    auto using do_login_preserves, get_patients_preserves, print_preserves,
      print_patients_preserves, ask_patient_preserves, look_for_slots_preserves.
Qed.

End Run.

#[export] Instance motive_stays_preorder : PreOrder motive_stays.
Proof.
  split.
  - intros s _. reflexivity.
  - intros s1 s2 s3 H12 H23 H. unfold motive_stays in *.
    rewrite <- (H12 H). apply H23. rewrite (H12 H). exact H.
Qed.

Lemma run_extends (P : event -> Prop) (fuel : nat) (a : args) :
  (forall e, not_write e -> P e) ->
  preserves (extends_by P) (Application.run fuel a).
Proof.
  intros HP. apply run_preserves; try typeclasses eauto;
    try (intros; apply extends_by_same; reflexivity).
  - intros e s He. apply extends_by_emit. auto.
  - intros f doc. apply resolve_motive_preserves; try typeclasses eauto;
      try (intros; apply extends_by_same; reflexivity).
    intros e s He. apply extends_by_emit. auto using not_write_output.
Qed.

Lemma has_availability_motive_stays fuel a start :
  preserves motive_stays (Doctolib.has_availability fuel a start).
Proof.
  apply has_availability_preserves; try typeclasses eauto;
    try (intros; intros _; reflexivity).
  intros f doc s H. rewrite (resolve_motive_explicit _ _ _ H). reflexivity.
Qed.

Lemma go_trace r build s : trace (snd (go r build s)) = EvRequest r :: trace s.
Proof.
  unfold go, transfer, bind, modify, gets. cbn.
  destruct (replies s) as [|[[c|] u [doc|e]] rest]; reflexivity.
Qed.

Lemma after_fetch_extends fuel a start doctor_page :
  preserves (extends_by any_event)
    (doc <- gets page ;;
     profile_id <- lift (DoctorBookingPage.get_profile_id doc) ;;
     practice_id <- lift (DoctorBookingPage.get_practice doc) ;;
     Doctolib.poll_practice fuel a start doctor_page doc profile_id practice_id).
Proof.
  pres. apply poll_practice_preserves; try typeclasses eauto;
    try (intros; apply extends_by_same; reflexivity).
  - intros e s _. apply extends_by_emit. exact I.
  - intros f d. apply resolve_motive_preserves; try typeclasses eauto;
      try (intros; apply extends_by_same; reflexivity).
    intros e s _. apply extends_by_emit. exact I.
Qed.

(** C7, as the code has it: every poll starts by fetching the booking
    page again, and its availabilities requests ask the practice and the
    agendas taken from that page; only the motive, once it is set to an
    id other than 0, is the same after each poll. *)
Theorem C7_every_poll_fetches_the_catalog (fuel : nat) (a : args) (start : date)
  (s : store) :
  let r := Doctolib.has_availability fuel a start s in
  (exists evs,
      trace (snd r) = (evs ++ EvRequest (Doctolib.booking_request a) :: trace s)%list)
  /\ (forall rp rest b q,
        replies s = rp :: rest -> rp_outcome rp = Ok (booking_json b) ->
        first_practice b = Some q ->
        exists evs,
          trace (snd r)
          = (evs ++ EvRequest (Doctolib.booking_request a) :: trace s)%list /\
          Forall (polls_with (booking_json b) (JInt q)) evs)
  /\ (Py.truthy (motive_id s) = true -> motive_id (snd r) = motive_id s).
Proof.
  intros r. subst r. split; [|split].
  - unfold Doctolib.has_availability. unfold bind at 1.
    pose proof (go_trace (Doctolib.booking_request a) json_page s) as Hgo.
    destruct (go (Doctolib.booking_request a) json_page s) as [[page| |] s1];
      cbn [snd] in *; try (exists []; exact Hgo).
    destruct (after_fetch_extends fuel a start page s1) as [evs [Ht _]].
    exists evs. rewrite Ht, Hgo. reflexivity.
  - intros rp rest b q. apply has_availability_polls_with.
  - apply (has_availability_motive_stays fuel a start s).
Qed.

Lemma C7_witness_motive_stays :
  let s := set_motive_id (JInt 5) ex_two_polls in
  let r := Doctolib.has_availability 5 ex_args ex_start s in
  Py.truthy (motive_id s) = true /\ motive_id (snd r) = JInt 5 /\
  exists evs,
    trace (snd r) = (evs ++ EvRequest (Doctolib.booking_request ex_args) :: trace s)%list.
Proof.
  intros s r. split; [reflexivity|].
  destruct (C7_every_poll_fetches_the_catalog 5 ex_args ex_start s)
    as [Hfetch [_ Hstay]].
  split; [exact (Hstay eq_refl) | exact Hfetch].
Defined.

(** C7 as stated fails: in a run of two polls the booking page is fetched
    twice, and the second poll asks the agenda of the second page, with
    the same motive and the same practice. *)
Lemma C7_catalog_fetched_twice :
  let r := Application.wait_for_slot 3 5 ex_args ex_start ex_two_polls in
  fst r = Ret tt /\
  requests_of (trace (snd r))
  = [Doctolib.booking_request ex_args;
     Doctolib.availabilities_request (JStr "2024-01-01") (JInt 5) ["100"] (JInt 42);
     Doctolib.booking_request ex_args;
     Doctolib.availabilities_request (JStr "2024-01-01") (JInt 5) ["200"] (JInt 42)].
Proof. split; reflexivity. Qed.

(** ** The state file at the end of [main] *)

(** Handing a state back to the browser changes nothing but the jar. *)
Lemma load_state_jar (state : json) (s : store) :
  snd (Doctolib.load_state state s) = s
  \/ exists c, snd (Doctolib.load_state state s) = set_cookies c s.
Proof.
  unfold Doctolib.load_state, bind, lift, gets, modify, ret, raise.
  destruct (Py.get state "expire" JNull) as [expire|e]; [|left; reflexivity].
  destruct (Py.truthy expire).
  - destruct (expiry s) as [[|]|e]; try (left; reflexivity).
    destruct (Py.contains (JStr "cookies") state) as [[|]|e]; try (left; reflexivity).
    destruct (restored s) as [c|]; [right; exists c|left]; reflexivity.
  - destruct (Py.contains (JStr "cookies") state) as [[|]|e]; try (left; reflexivity).
    destruct (restored s) as [c|]; [right; exists c|left]; reflexivity.
Qed.

(** An object whose expiry date is read is taken back. *)
Lemma load_state_taken (fields : list (string * json)) (s : store) :
  (names_expiry (JObj fields) = true -> exists past, expiry s = Ok past) ->
  fst (Doctolib.load_state (JObj fields) s) = Ret tt.
Proof.
  unfold names_expiry, Doctolib.load_state, bind, lift, gets, modify, ret, raise.
  cbn [Py.get Py.contains].
  destruct (Py.assoc "expire" fields) as [expire|]; cbn [Py.truthy].
  - destruct (Py.truthy expire).
    + intros H. destruct (H eq_refl) as [past Hp]. rewrite Hp.
      destruct past; [reflexivity|].
      destruct (Py.assoc "cookies" fields); [|reflexivity].
      destruct (restored s); reflexivity.
    + intros _. destruct (Py.assoc "cookies" fields); [|reflexivity].
      destruct (restored s); reflexivity.
  - intros _. destruct (Py.assoc "cookies" fields); [|reflexivity].
    destruct (restored s); reflexivity.
Qed.

Lemma started_jar (a : args) (s : store) :
  let s0 := set_motive_id match cli_motive_id a with
                          | Some m => JInt m
                          | None => JNull
                          end (set_patient JNull (no_page s)) in
  started a s = s0 \/ exists c, started a s = set_cookies c s0.
Proof. intros s0. unfold started. apply load_state_jar. Qed.

Lemma started_trace a s : trace (started a s) = trace s.
Proof. destruct (started_jar a s) as [H|[c H]]; rewrite H; reflexivity. Qed.

Lemma started_replies a s : replies (started a s) = replies s.
Proof. destruct (started_jar a s) as [H|[c H]]; rewrite H; reflexivity. Qed.

Lemma main_started (fuel : nat) (a : args) (s : store) :
  state_loads s ->
  Application.main fuel a s
  = try_finally (Application.run fuel a) save_on_exit (started a s).
Proof.
  intros H. unfold Application.main. step. step. step.
  set (s0 := set_motive_id _ _).
  assert (Hread : Application.load_state s0 = (Ret (loaded_state s), s0)).
  { unfold Application.load_state, loaded_state, state_loads, bind, gets in *.
    change (state_file s0) with (state_file s).
    destruct (state_file s) as [text|]; [|reflexivity].
    destruct H as [fields [Hl _]]. rewrite Hl. reflexivity. }
  rewrite (bind_Ret _ _ _ _ _ Hread).
  assert (Htaken : fst (Doctolib.load_state (loaded_state s) s0) = Ret tt).
  { unfold loaded_state, state_loads in *.
    destruct (state_file s) as [text|].
    - destruct H as [fields [Hl [_ He]]]. rewrite Hl.
      apply load_state_taken. exact He.
    - apply load_state_taken. discriminate. }
  unfold started. fold s0.
  destruct (Doctolib.load_state (loaded_state s) s0) as [o s1] eqn:Hs1.
  cbn [fst snd] in *. subst o.
  rewrite (bind_Ret _ _ _ _ _ Hs1). reflexivity.
Qed.

Lemma save_on_exit_saved (s : store) : save_on_exit s = (Ret tt, saved s).
Proof.
  unfold save_on_exit, Application.save_state, saved. step. step.
  destruct (data_dir s); reflexivity.
Qed.

Lemma try_finally_saved {A} (m : M A) (s : store) :
  try_finally m save_on_exit s
  = match fst (m s) with
    | Running => (Running, snd (m s))
    | o => (o, saved (snd (m s)))
    end.
Proof.
  unfold try_finally. destruct (m s) as [[v|e|] s1]; cbn [fst snd];
    try rewrite save_on_exit_saved; reflexivity.
Qed.

Lemma dump_state_saved (s : store) :
  Doctolib.dump_state (saved s) = Doctolib.dump_state s.
Proof. unfold saved. destruct (data_dir s); reflexivity. Qed.

(** C9: once the [try] of [main] is entered (the state file is missing,
    or holds an object that the browser takes back), however the body
    ends, by a return or by an exception of the login, of the catalog or
    of a poll, the state is written once, as the last thing the run does,
    and the file then holds what [dump_state] gives at that moment: the
    address of the current page, when there is one, and the cookies.
    While the run goes on, nothing is written. *)
Theorem C9_state_saved_on_every_exit (fuel : nat) (a : args) (s : store) :
  state_loads s ->
  let r := Application.main fuel a s in
  (fst r <> Running ->
   exists evs,
     trace (snd r)
     = (EvWrite (Json.dumps (Doctolib.dump_state (snd r))) :: evs ++ trace s)%list /\
     Forall not_write evs /\
     state_file (snd r) = Some (Json.dumps (Doctolib.dump_state (snd r))) /\
     data_dir (snd r) = true)
  /\ (fst r = Running ->
      exists evs, trace (snd r) = (evs ++ trace s)%list /\ Forall not_write evs).
Proof.
  intros H r. subst r. rewrite (main_started _ _ _ H), try_finally_saved.
  destruct (run_extends not_write fuel a (fun e He => He) (started a s))
    as [evs [Ht HF]].
  rewrite started_trace in Ht.
  destruct (Application.run fuel a (started a s)) as [[v|e|] s1];
    cbn [fst snd] in *.
  - split; [|discriminate]. intros _. exists evs. rewrite dump_state_saved.
    unfold saved. cbn [trace state_file data_dir emit set_state_file].
    rewrite <- Ht. destruct (data_dir s1) eqn:Hd; cbn; rewrite ?Hd; repeat split;
      assumption.
  - split; [|discriminate]. intros _. exists evs. rewrite dump_state_saved.
    unfold saved. cbn [trace state_file data_dir emit set_state_file].
    rewrite <- Ht. destruct (data_dir s1) eqn:Hd; cbn; rewrite ?Hd; repeat split;
      assumption.
  - split; [intros Hn; now contradiction Hn|]. intros _. exists evs. split; assumption.
Qed.

Lemma ex_interrupted_loads : state_loads ex_interrupted.
Proof.
  exists [("url", JStr "https://www.doctolib.fr/account/master_patients.json");
          ("cookies", JStr "eJyLjgUAARUAuQ==")].
  split; [vm_compute; reflexivity|]. split; [reflexivity|]. discriminate.
Defined.

Lemma C9_witness_interrupted :
  let r := Application.main 5 ex_args ex_interrupted in
  state_loads ex_interrupted /\ fst r = Exc KeyboardInterrupt /\
  exists evs,
    trace (snd r)
    = (EvWrite (Json.dumps (Doctolib.dump_state (snd r))) :: evs ++ [])%list /\
    Forall not_write evs /\
    state_file (snd r) = Some (Json.dumps (Doctolib.dump_state (snd r))) /\
    data_dir (snd r) = true.
Proof.
  intros r. split; [exact ex_interrupted_loads|]. split; [vm_compute; reflexivity|].
  apply (proj1 (C9_state_saved_on_every_exit 5 ex_args ex_interrupted
                  ex_interrupted_loads)).
  vm_compute. discriminate.
Defined.

(** C6: the server rejects the login request with a client error (a
    4xx status other than 404, which the library raises apart).
    [do_login] prints "Wrong login/password" and returns false; the login
    request is its last request; [main] returns 1 without any further
    request, whatever the budget of its loops.  The script drops that 1:
    it ends without an exception, and the interpreter exits with 0. *)
Theorem C6_bad_credentials (fuel : nat) (a : args) (s : store) (rp0 rp1 : reply)
  (rest : list reply) (e : exn) :
  replies s = rp0 :: rp1 :: rest -> is_page rp0 ->
  rp_outcome rp1 = Raise e -> Doctolib.is_ClientError e = true ->
  state_loads s ->
  let r := Doctolib.do_login a s in
  let m := Application.main fuel a s in
  fst r = Ret false /\
  trace (snd r)
  = EvPrint "Wrong login/password" :: EvRequest (Doctolib.login_request a)
      :: EvRequest sessions_new :: trace s /\
  replies (snd r) = rest /\
  fst m = Ret 1 /\
  requests_of (trace (snd m))
  = (requests_of (trace s) ++ [sessions_new; Doctolib.login_request a])%list /\
  replies (snd m) = rest /\
  fst (Application.script fuel a s) = Ret tt /\
  Application.exits_with (fst (Application.script fuel a s)) 0 /\
  ~ Application.exits_with (fst (Application.script fuel a s)) 1.
Proof.
  intros H H0 H1 He Hload r m. subst r m.
  rewrite (do_login_rejected a s rp0 rp1 rest e H H0 H1 He).
  cbn [fst snd trace replies emit]. rewrite after_login_trace.
  assert (Hrep : forall s0, replies s0 = rp0 :: rp1 :: rest ->
                            replies (after_login a rp0 rp1 rest s0) = rest)
    by (intros; unfold after_login; apply received_replies).
  rewrite (Hrep s H).
  assert (H' : replies (started a s) = rp0 :: rp1 :: rest)
    by (rewrite started_replies; exact H).
  assert (Hmain : Application.main fuel a s
                  = (Ret 1, saved (emit (EvPrint "Wrong login/password")
                                     (after_login a rp0 rp1 rest (started a s))))).
  { rewrite (main_started _ _ _ Hload), try_finally_saved.
    rewrite (run_login_failed _ _ _ _
               (do_login_rejected a (started a s) rp0 rp1 rest e H' H0 H1 He)).
    reflexivity. }
  assert (Hscript : Application.script fuel a s
                    = (Ret tt, saved (emit (EvPrint "Wrong login/password")
                                        (after_login a rp0 rp1 rest (started a s))))).
  { unfold Application.script. rewrite (bind_Ret _ _ _ _ _ Hmain). reflexivity. }
  rewrite Hmain, Hscript. cbn [fst snd Application.exits_with].
  repeat split; try discriminate.
  - unfold saved. cbn [trace emit set_state_file].
    replace (trace (if data_dir _ then _ else _))
      with (EvPrint "Wrong login/password" :: EvRequest (Doctolib.login_request a)
              :: EvRequest sessions_new :: trace s).
    + unfold requests_of. cbn [rev flat_map]. rewrite !flat_map_app. cbn.
      rewrite !app_nil_r, <- !app_assoc. reflexivity.
    + destruct (data_dir _); cbn [trace set_data_dir emit];
        rewrite after_login_trace, started_trace; reflexivity.
  - unfold saved. cbn [replies emit set_state_file].
    destruct (data_dir _); cbn [replies set_data_dir emit];
      apply (Hrep (started a s) H').
Qed.

Lemma C6_witness_wrong_password :
  let r := Doctolib.do_login ex_args ex_wrong_password in
  let m := Application.main 0 ex_args ex_wrong_password in
  Doctolib.is_ClientError (ClientError 401) = true /\
  fst r = Ret false /\
  trace (snd r)
  = [EvPrint "Wrong login/password"; EvRequest (Doctolib.login_request ex_args);
     EvRequest sessions_new] /\
  replies (snd r) = [page_reply (JArr [])] /\
  fst m = Ret 1 /\
  requests_of (trace (snd m)) = [sessions_new; Doctolib.login_request ex_args] /\
  replies (snd m) = [page_reply (JArr [])] /\
  fst (Application.script 0 ex_args ex_wrong_password) = Ret tt /\
  Application.exits_with (fst (Application.script 0 ex_args ex_wrong_password)) 0 /\
  ~ Application.exits_with (fst (Application.script 0 ex_args ex_wrong_password)) 1.
Proof.
  intros r m. split; [reflexivity|].
  exact (C6_bad_credentials 0 ex_args ex_wrong_password (page_reply JNull)
           (error_reply (ClientError 401)) [page_reply (JArr [])] (ClientError 401)
           eq_refl (ex_intro _ JNull eq_refl) eq_refl eq_refl I).
Defined.

(** ** Writing the state and reading it back *)

Lemma json_induction (P : json -> Prop) :
  P JNull -> (forall b, P (JBool b)) -> (forall z, P (JInt z)) ->
  (forall s, P (JStr s)) ->
  (forall xs, Forall P xs -> P (JArr xs)) ->
  (forall kvs, Forall (fun kv => P (snd kv)) kvs -> P (JObj kvs)) ->
  forall x, P x.
Proof.
  intros Hnull Hbool Hint Hstr Harr Hobj.
  fix IH 1. intros [ |b|z|s|xs|kvs].
  - exact Hnull.
  - apply Hbool.
  - apply Hint.
  - apply Hstr.
  - apply Harr. induction xs as [|x xs IHxs]; constructor; [apply IH | exact IHxs].
  - apply Hobj. induction kvs as [|[k v] kvs IHkvs]; constructor;
      [apply IH | exact IHkvs].
Qed.

Lemma append_assoc (a b c : string) : ((a ++ b) ++ c = a ++ (b ++ c))%string.
Proof. induction a as [|x a IH]; cbn; [reflexivity | now rewrite IH]. Qed.

Lemma append_nil_r (a : string) : (a ++ "" = a)%string.
Proof. induction a as [|x a IH]; cbn; [reflexivity | now rewrite IH]. Qed.

Lemma length_append (a b : string) :
  String.length (a ++ b) = (String.length a + String.length b)%nat.
Proof. induction a as [|x a IH]; cbn; [reflexivity | now rewrite IH]. Qed.

(** *** Strings *)

Lemma loads_chars_escape_char (c : ascii) (tail : string) :
  Json.loads_chars (Json.escape_char c ++ tail)
  = match Json.loads_chars tail with
    | Some (t, r) => Some (String c t, r)
    | None => None
    end.
Proof.
  destruct c as [[|] [|] [|] [|] [|] [|] [|] [|]]; reflexivity.
Qed.

Lemma loads_chars_escape (s rest : string) :
  Json.loads_chars (Json.escape s ++ String PyText.dquote rest) = Some (s, rest).
Proof.
  induction s as [|c s IH]; [reflexivity|].
  cbn [Json.escape]. rewrite append_assoc, loads_chars_escape_char, IH.
  reflexivity.
Qed.

Lemma dumps_str_append (s rest : string) :
  (Json.dumps_str s ++ rest
   = String PyText.dquote (Json.escape s ++ String PyText.dquote rest))%string.
Proof. unfold Json.dumps_str. cbn. now rewrite append_assoc. Qed.

Lemma loads_value_str (fuel : nat) (s rest : string) :
  Json.loads_value (S fuel) (Json.dumps_str s ++ rest) = Some (JStr s, rest).
Proof.
  rewrite dumps_str_append. cbn [Json.loads_value].
  change (Json.skip_ws (String PyText.dquote ?t)) with (String PyText.dquote t).
  cbv beta iota. change (Ascii.eqb PyText.dquote PyText.dquote) with true.
  cbv beta iota. rewrite loads_chars_escape. reflexivity.
Qed.

(** *** Integers *)

Lemma loads_digits_plain (rest : string) :
  plain_after rest -> Json.loads_digits rest = (Decimal.Nil, rest).
Proof.
  destruct rest as [|c r]; [reflexivity|]. intros [Hd _]. cbn [Json.loads_digits].
  rewrite Hd. reflexivity.
Qed.

Lemma loads_digits_uint (d : Decimal.uint) (rest : string) :
  plain_after rest ->
  Json.loads_digits (NilEmpty.string_of_uint d ++ rest) = (d, rest).
Proof.
  intros H. induction d as [|d IH|d IH|d IH|d IH|d IH|d IH|d IH|d IH|d IH|d IH];
    [ apply loads_digits_plain; exact H | .. ];
    cbn [NilEmpty.string_of_uint append Json.loads_digits];
    rewrite IH; reflexivity.
Qed.

Lemma uint_eqb_refl (d : Decimal.uint) : Json.uint_eqb d d = true.
Proof. unfold Json.uint_eqb. destruct (Decimal.uint_eq_dec d d); congruence. Qed.

Lemma starts_fraction_plain (rest : string) :
  plain_after rest -> Json.starts_fraction rest = false.
Proof. destruct rest as [|c r]; [reflexivity|]. intros [_ H]. exact H. Qed.

Lemma loads_nat_uint (d : Decimal.uint) (rest : string) :
  d <> Decimal.Nil -> Decimal.unorm d = d -> plain_after rest ->
  Json.loads_nat (NilEmpty.string_of_uint d ++ rest) = Some (Z.of_uint d, rest).
Proof.
  intros Hnil Hnorm H. unfold Json.loads_nat.
  rewrite (loads_digits_uint _ _ H), Hnorm, uint_eqb_refl, (starts_fraction_plain _ H).
  destruct d; [contradiction | reflexivity..].
Qed.

Lemma to_uint_normal (p : positive) : Decimal.unorm (Pos.to_uint p) = Pos.to_uint p.
Proof.
  rewrite <- (DecimalPos.Unsigned.to_of (Pos.to_uint p)),
    DecimalPos.Unsigned.of_to. reflexivity.
Qed.

Lemma of_uint_to_uint (p : positive) : Z.of_uint (Pos.to_uint p) = Z.pos p.
Proof. unfold Z.of_uint. rewrite DecimalPos.Unsigned.of_to. reflexivity. Qed.

Lemma string_of_uint_nonnil (d : Decimal.uint) :
  d <> Decimal.Nil -> NilZero.string_of_uint d = NilEmpty.string_of_uint d.
Proof. destruct d; [contradiction | reflexivity..]. Qed.

Lemma loads_value_digit (fuel : nat) (c : ascii) (t : string) :
  PyText.is_digit c = true ->
  Json.loads_value (S fuel) (String c t)
  = match Json.loads_nat (String c t) with
    | Some (n, r) => Some (JInt n, r)
    | None => None
    end.
Proof.
  destruct c as [[|] [|] [|] [|] [|] [|] [|] [|]]; try discriminate; reflexivity.
Qed.

Lemma uint_head (d : Decimal.uint) :
  d <> Decimal.Nil ->
  exists c t, NilEmpty.string_of_uint d = String c t /\ PyText.is_digit c = true.
Proof.
  destruct d; [contradiction | ..]; intros _; eexists; eexists; split; reflexivity.
Qed.

Lemma loads_value_pos (fuel : nat) (p : positive) (rest : string) :
  plain_after rest ->
  Json.loads_value (S fuel) (NilEmpty.string_of_uint (Pos.to_uint p) ++ rest)
  = Some (JInt (Z.pos p), rest).
Proof.
  intros H.
  pose proof (DecimalPos.Unsigned.to_uint_nonnil p) as Hnil.
  pose proof (loads_nat_uint _ _ Hnil (to_uint_normal p) H) as Hnat.
  destruct (uint_head _ Hnil) as [c [t [Heq Hc]]].
  rewrite Heq in *. cbn [append] in *.
  rewrite (loads_value_digit _ _ _ Hc), Hnat, of_uint_to_uint. reflexivity.
Qed.

Lemma loads_value_int (fuel : nat) (z : Z) (rest : string) :
  plain_after rest ->
  Json.loads_value (S fuel) (PyText.of_Z z ++ rest) = Some (JInt z, rest).
Proof.
  intros H. unfold PyText.of_Z. destruct z as [|p|p]; cbn [Z.to_int NilZero.string_of_int].
  - change (Json.loads_value (S fuel) (String "0" rest) = Some (JInt 0, rest)).
    rewrite loads_value_digit by reflexivity.
    change (String "0" rest) with (NilEmpty.string_of_uint (Decimal.D0 Decimal.Nil) ++ rest)%string.
    rewrite loads_nat_uint by (try discriminate; try reflexivity; exact H).
    reflexivity.
  - rewrite string_of_uint_nonnil by apply DecimalPos.Unsigned.to_uint_nonnil.
    apply loads_value_pos. exact H.
  - rewrite string_of_uint_nonnil by apply DecimalPos.Unsigned.to_uint_nonnil.
    cbn [append Json.loads_value].
    change (Json.skip_ws (String "-" ?t)) with (String "-"%char t).
    cbv beta iota.
    change (Ascii.eqb "-" PyText.dquote) with false.
    change (Ascii.eqb "-" "[") with false.
    change (Ascii.eqb "-" "{") with false.
    change (Ascii.eqb "-" "-") with true.
    cbv beta iota.
    rewrite loads_nat_uint;
      [ rewrite of_uint_to_uint; reflexivity
      | apply DecimalPos.Unsigned.to_uint_nonnil
      | apply to_uint_normal
      | exact H ].
Qed.

(** *** The literals *)

Lemma loads_value_null (fuel : nat) (rest : string) :
  Json.loads_value (S fuel) ("null" ++ rest) = Some (JNull, rest).
Proof. reflexivity. Qed.

Lemma loads_value_bool (fuel : nat) (b : bool) (rest : string) :
  Json.loads_value (S fuel) (Json.dumps (JBool b) ++ rest) = Some (JBool b, rest).
Proof. destruct b; reflexivity. Qed.

(** *** Lists and objects *)

Lemma digit_starts_value (c : ascii) (t : string) :
  PyText.is_digit c = true -> starts_value (String c t) = true.
Proof.
  destruct c as [[|] [|] [|] [|] [|] [|] [|] [|]]; try discriminate; reflexivity.
Qed.

Lemma starts_value_dumps (x : json) (rest : string) :
  starts_value (Json.dumps x ++ rest) = true.
Proof.
  destruct x as [ |[|]|z|s|xs|kvs]; try reflexivity.
  cbn [Json.dumps]. unfold PyText.of_Z.
  destruct z as [|p|p]; cbn [Z.to_int NilZero.string_of_int]; try reflexivity.
  rewrite string_of_uint_nonnil by apply DecimalPos.Unsigned.to_uint_nonnil.
  destruct (uint_head _ (DecimalPos.Unsigned.to_uint_nonnil p)) as [c [t [-> Hc]]].
  apply digit_starts_value. exact Hc.
Qed.

Lemma loads_value_space (fuel : nat) (s : string) :
  Json.loads_value fuel (String " " s) = Json.loads_value fuel s.
Proof. destruct fuel; reflexivity. Qed.

Lemma loads_items_space (fuel : nat) (acc : list json) (s : string) :
  Json.loads_items fuel acc (String " " s) = Json.loads_items fuel acc s.
Proof.
  destruct fuel as [|fuel]; [reflexivity|].
  cbn [Json.loads_items]. rewrite loads_value_space. reflexivity.
Qed.

Lemma loads_members_space (fuel : nat) (acc : list (string * json)) (s : string) :
  Json.loads_members fuel acc (String " " s) = Json.loads_members fuel acc s.
Proof. destruct fuel; reflexivity. Qed.

Lemma loads_value_list (fuel : nat) (s : string) :
  starts_value s = true ->
  Json.loads_value (S fuel) (String "[" s) = Json.loads_items fuel [] s.
Proof.
  destruct s as [|c t]; [discriminate|].
  destruct c as [[|] [|] [|] [|] [|] [|] [|] [|]]; try discriminate; reflexivity.
Qed.

Lemma loads_value_object (fuel : nat) (s : string) :
  starts_value s = true ->
  Json.loads_value (S fuel) (String "{" s) = Json.loads_members fuel [] s.
Proof.
  destruct s as [|c t]; [discriminate|].
  destruct c as [[|] [|] [|] [|] [|] [|] [|] [|]]; try discriminate; reflexivity.
Qed.

Lemma items_text_cons (x y : json) (ys : list json) :
  items_text (x :: y :: ys)
  = (Json.dumps x ++ String "," (String " " (items_text (y :: ys))))%string.
Proof. reflexivity. Qed.

Lemma loads_items_text (xs : list json) :
  Forall reads_back xs -> forallb valid xs = true -> xs <> [] ->
  forall fuel acc tail,
    (list_sum (map (fun y => S (size y)) xs) <= fuel)%nat ->
    Json.loads_items fuel acc (items_text xs ++ String "]" tail)
    = Some (JArr (rev acc ++ xs), tail).
Proof.
  induction 1 as [|x xs Hx Hxs IH]; intros Hv Hne fuel acc tail Hfuel;
    [contradiction|].
  cbn [forallb] in Hv. apply andb_true_iff in Hv. destruct Hv as [Hvx Hvxs].
  cbn [map list_sum fold_right] in Hfuel.
  destruct fuel as [|fuel]; [lia|]. cbn [Json.loads_items].
  destruct xs as [|y ys].
  - change (items_text [x]) with (Json.dumps x).
    rewrite (Hx Hvx fuel (String "]" tail)) by (cbn in *; solve [lia | split; reflexivity]).
    cbn. reflexivity.
  - rewrite items_text_cons, append_assoc.
    cbn [append].
    rewrite (Hx Hvx fuel) by (cbn in *; solve [lia | split; reflexivity]).
    change (Json.skip_ws (String "," ?t)) with (String ","%char t).
    cbv beta iota. change (Ascii.eqb "," ",") with true. cbv beta iota.
    rewrite loads_items_space, (IH Hvxs) by (try discriminate; cbn in *; lia).
    cbn [rev]. rewrite <- app_assoc. reflexivity.
Qed.

Lemma unique_keys_NoDup (ks : list string) : unique_keys ks = true <-> NoDup ks.
Proof.
  induction ks as [|k ks IH]; cbn [unique_keys].
  - split; [constructor | reflexivity].
  - rewrite andb_true_iff, negb_true_iff, IH. split.
    + intros [Hk Hks]. constructor; [|assumption]. intros Hin.
      assert (existsb (String.eqb k) ks = true)
        by (apply existsb_exists; exists k; split; [assumption | apply String.eqb_refl]).
      congruence.
    + intros Hnd. inversion Hnd as [|? ? Hk Hks]; subst. split; [|assumption].
      destruct (existsb (String.eqb k) ks) eqn:He; [|reflexivity].
      apply existsb_exists in He. destruct He as [k' [Hin Heq]].
      apply String.eqb_eq in Heq. subst. contradiction.
Qed.

Lemma obj_set_fresh (k : string) (v : json) (acc : list (string * json)) :
  ~ In k (map fst acc) -> Json.obj_set k v acc = (acc ++ [(k, v)])%list.
Proof.
  induction acc as [|[k' v'] acc IH]; intros Hk; [reflexivity|].
  cbn [Json.obj_set]. destruct (String.eqb_spec k k') as [->|Hne].
  - exfalso. apply Hk. left. reflexivity.
  - cbn [app]. rewrite IH; [reflexivity|]. intros Hin. apply Hk. right. exact Hin.
Qed.

Lemma members_text_cons (kv kv' : string * json) (kvs : list (string * json)) :
  members_text (kv :: kv' :: kvs)
  = (member_text kv ++ String "," (String " " (members_text (kv' :: kvs))))%string.
Proof. reflexivity. Qed.

Lemma member_text_append (k : string) (v : json) (rest : string) :
  (member_text (k, v) ++ rest
   = String PyText.dquote
       (Json.escape k
        ++ String PyText.dquote (String ":" (String " " (Json.dumps v ++ rest)))))%string.
Proof.
  unfold member_text. cbn [fst snd]. rewrite append_assoc, dumps_str_append.
  reflexivity.
Qed.

Lemma loads_members_step (fuel : nat) (acc : list (string * json)) (k : string)
  (v : json) (rest : string) :
  Json.loads_members (S fuel) acc (member_text (k, v) ++ rest)
  = match Json.loads_value fuel (Json.dumps v ++ rest) with
    | Some (v', r3) =>
        match Json.skip_ws r3 with
        | String c' r4 =>
            if Ascii.eqb c' ","
            then Json.loads_members fuel (Json.obj_set k v' acc) r4
            else if Ascii.eqb c' "}"
                 then Some (JObj (Json.obj_set k v' acc), r4)
                 else None
        | EmptyString => None
        end
    | None => None
    end.
Proof.
  rewrite member_text_append. cbn [Json.loads_members].
  change (Json.skip_ws (String PyText.dquote ?t)) with (String PyText.dquote t).
  cbv beta iota. change (Ascii.eqb PyText.dquote PyText.dquote) with true.
  cbv beta iota. rewrite loads_chars_escape.
  change (Json.skip_ws (String ":" ?t)) with (String ":"%char t).
  cbv beta iota. change (Ascii.eqb ":" ":") with true. cbv beta iota.
  rewrite loads_value_space. reflexivity.
Qed.

Lemma loads_members_text (kvs : list (string * json)) :
  Forall (fun kv => reads_back (snd kv)) kvs ->
  forallb (fun kv => valid (snd kv)) kvs = true -> kvs <> [] ->
  forall fuel acc tail,
    NoDup (map fst (acc ++ kvs)) ->
    (list_sum (map (fun kv => S (size (snd kv))) kvs) <= fuel)%nat ->
    Json.loads_members fuel acc (members_text kvs ++ String "}" tail)
    = Some (JObj (acc ++ kvs), tail).
Proof.
  induction 1 as [|[k v] kvs Hx Hxs IH]; intros Hv Hne fuel acc tail Hnd Hfuel;
    [contradiction|].
  cbn [forallb snd] in Hv. apply andb_true_iff in Hv. destruct Hv as [Hvx Hvxs].
  cbn [map list_sum fold_right snd] in Hfuel. cbn [snd] in Hx.
  destruct fuel as [|fuel]; [lia|].
  assert (Hfresh : ~ In k (map fst acc)).
  { rewrite map_app in Hnd. cbn [map fst] in Hnd. apply NoDup_remove_2 in Hnd.
    intros Hin. apply Hnd. apply in_or_app. left. exact Hin. }
  destruct kvs as [|kv' kvs].
  - change (members_text [(k, v)]) with (member_text (k, v)).
    rewrite loads_members_step.
    rewrite (Hx Hvx fuel (String "}" tail)) by (cbn in *; solve [lia | split; reflexivity]).
    cbn. rewrite (obj_set_fresh _ _ _ Hfresh). reflexivity.
  - rewrite members_text_cons, append_assoc. cbn [append].
    rewrite loads_members_step.
    rewrite (Hx Hvx fuel) by (cbn in *; solve [lia | split; reflexivity]).
    change (Json.skip_ws (String "," ?t)) with (String ","%char t).
    cbv beta iota. change (Ascii.eqb "," ",") with true. cbv beta iota.
    rewrite loads_members_space, (obj_set_fresh _ _ _ Hfresh).
    rewrite (IH Hvxs) by
      (try discriminate; try (cbn in *; lia);
       rewrite <- app_assoc; exact Hnd).
    rewrite <- app_assoc. reflexivity.
Qed.

Lemma dumps_reads_back (x : json) : reads_back x.
Proof.
  induction x as [ |b|z|s|xs IH|kvs IH] using json_induction;
    intros Hv fuel rest Hfuel Hrest;
    (destruct fuel as [|fuel]; [cbn in Hfuel; lia|]).
  - apply loads_value_null.
  - apply loads_value_bool.
  - apply loads_value_int. exact Hrest.
  - apply loads_value_str.
  - destruct xs as [|x xs]; [reflexivity|].
    change (Json.dumps (JArr (x :: xs)) ++ rest)%string
      with (String "[" ((items_text (x :: xs) ++ "]") ++ rest))%string.
    rewrite append_assoc. cbn [append].
    rewrite loads_value_list.
    + apply (loads_items_text (x :: xs) IH Hv); [discriminate|].
      cbn [size] in Hfuel. lia.
    + destruct xs;
        [ change (items_text [x]) with (Json.dumps x)
        | rewrite items_text_cons, append_assoc ];
        apply starts_value_dumps.
  - destruct kvs as [|kv kvs]; [reflexivity|].
    change (Json.dumps (JObj (kv :: kvs)) ++ rest)%string
      with (String "{" ((members_text (kv :: kvs) ++ "}") ++ rest))%string.
    rewrite append_assoc. cbn [append].
    cbn [valid] in Hv. apply andb_true_iff in Hv. destruct Hv as [Hk Hv].
    rewrite loads_value_object.
    + apply (loads_members_text (kv :: kvs) IH Hv); [discriminate | |].
      * apply unique_keys_NoDup. exact Hk.
      * cbn [size] in Hfuel. lia.
    + destruct kv as [k v].
      destruct kvs;
        [ change (members_text [(k, v)]) with (member_text (k, v))
        | rewrite members_text_cons, append_assoc ];
        rewrite member_text_append; reflexivity.
Qed.

(** *** The budget of the reader *)

Lemma items_text_length (xs : list json) :
  Forall (fun x => (size x <= S (String.length (Json.dumps x)))%nat) xs ->
  (list_sum (map (fun y => S (size y)) xs) <= 2 + String.length (items_text xs))%nat.
Proof.
  induction 1 as [|x xs Hx Hxs IH]; [cbn; lia|].
  destruct xs as [|y ys].
  - change (items_text [x]) with (Json.dumps x). cbn [map list_sum fold_right]. lia.
  - rewrite items_text_cons, length_append.
    cbn [map list_sum fold_right String.length] in *. lia.
Qed.

Lemma member_text_length (k : string) (v : json) :
  (String.length (Json.dumps v) + 4 <= String.length (member_text (k, v)))%nat.
Proof.
  unfold member_text, Json.dumps_str. cbn [fst snd String.length].
  rewrite !length_append. cbn [String.length].
  rewrite !length_append. cbn [String.length]. lia.
Qed.

Lemma members_text_length (kvs : list (string * json)) :
  Forall (fun kv => (size (snd kv) <= S (String.length (Json.dumps (snd kv))))%nat) kvs ->
  (list_sum (map (fun kv => S (size (snd kv))) kvs)
   <= 2 + String.length (members_text kvs))%nat.
Proof.
  induction 1 as [|[k v] kvs Hx Hxs IH]; [cbn; lia|].
  pose proof (member_text_length k v) as Hm. cbn [snd] in Hx.
  destruct kvs as [|kv' kvs].
  - change (members_text [(k, v)]) with (member_text (k, v)).
    cbn [map list_sum fold_right snd]. lia.
  - rewrite members_text_cons, length_append.
    cbn [map list_sum fold_right String.length snd] in *. lia.
Qed.

Lemma size_le_length (x : json) : (size x <= S (String.length (Json.dumps x)))%nat.
Proof.
  induction x as [ |b|z|s|xs IH|kvs IH] using json_induction;
    try (cbn [size]; lia).
  - pose proof (items_text_length xs IH) as H.
    change (Json.dumps (JArr xs)) with (String "[" (items_text xs ++ "]"))%string.
    cbn [size String.length]. rewrite length_append. cbn [String.length]. lia.
  - pose proof (members_text_length kvs IH) as H.
    change (Json.dumps (JObj kvs)) with (String "{" (members_text kvs ++ "}"))%string.
    cbn [size String.length]. rewrite length_append. cbn [String.length]. lia.
Qed.

Lemma loads_dumps (x : json) : valid x = true -> Json.loads (Json.dumps x) = Some x.
Proof.
  intros Hv. unfold Json.loads.
  pose proof (dumps_reads_back x Hv (S (String.length (Json.dumps x))) ""
                (size_le_length x) I) as H.
  rewrite append_nil_r in H. rewrite H. reflexivity.
Qed.



(** The text of a list, as [json.dump] writes it. *)
Lemma dumps_sample :
  Json.dumps (JArr [JInt (-3); JNull; JBool true; JArr []; JObj []])
  = "[-3, null, true, [], {}]".
Proof. reflexivity. Qed.

(** A key written twice in the file is read once, with the later value:
    reading is not the inverse of writing without the unique keys. *)
Lemma loads_repeated_key :
  Json.loads (Json.dumps (JObj [("a", JInt 1); ("a", JInt 2)]))
  = Some (JObj [("a", JInt 2)]).
Proof. reflexivity. Qed.

(** ** Sample runs *)

(** Before the year 1000 the first query names the year on fewer
    digits than the greeting does. *)
Lemma start_date_before_1000 :
  Doctolib.strftime_ymd (mk_date 999 1 1) = "999-01-01" /\
  Doctolib.isoformat (mk_date 999 1 1) = "0999-01-01".
Proof. split; reflexivity. Qed.

(** A booking page without a place: the poll stops at the practice id. *)
Lemma no_place_run :
  let r := Doctolib.has_availability 5 ex_args ex_start
             (initial_store [page_reply (booking_json ex_no_place)] [] true) in
  fst r = Exc IndexError /\
  requests_of (trace (snd r)) = [Doctolib.booking_request ex_args].
Proof. split; reflexivity. Qed.

(** A message with a percent sign stops the poll that a slot would have
    ended. *)
Lemma message_with_percent_run :
  let r := Doctolib.has_availability 5 ex_args ex_start
             (initial_store
                [page_reply (booking_json ex_booking);
                 page_reply (availabilities_json [[JStr "X"]] None
                               (Some (JStr "100% complet")))] [] true) in
  fst r = Exc TypeError.
Proof. reflexivity. Qed.

(** The whole of [main] on the sample account: login, one patient, one
    poll without a slot, and Ctrl-C during the sleep that follows: the
    exception leaves [main] and the state file is written, with the
    address of the last page and the cookie that the login left. *)
Lemma interrupted_run :
  let r := Application.main 5 ex_args ex_interrupted in
  let state :=
    Json.dumps
      (JObj [("url", JStr "https://www.doctolib.fr/availabilities.json?start_date=2024-01-01&visit_motive_ids=5&agenda_ids=100&insurance_sector=public&practice_ids=42&destroy_temporary=true&limit=3");
             ("cookies", JStr "eJyLrlbKS8xNVbJSUEpUqo0FACZLBJU=")]) in
  fst r = Exc KeyboardInterrupt /\
  List.length (requests_of (trace (snd r))) = 5%nat /\
  state_file (snd r) = Some state /\
  hd_error (trace (snd r)) = Some (EvWrite state).
Proof. vm_compute. repeat split. Qed.

(** A state file that holds a list: the browser refuses it before the
    [try]; nothing is asked and the file stays. *)
Lemma list_state_run :
  let s := set_state_file (Some "[]") ex_store in
  let r := Application.main 5 ex_args s in
  fst r = Exc AttributeError /\ trace (snd r) = [] /\
  state_file (snd r) = Some "[]".
Proof. vm_compute. repeat split. Qed.

(** * Further properties of the script *)

(** ** Messages: [log] with a text alone *)

Lemma conversion_no_argument c : PyText.conversion c 0 = Raise TypeError.
Proof. reflexivity. Qed.

Lemma percent_step_inside ph c :
  inside_conversion ph ->
  (exists ph', PyText.percent_step ph c 0 = Ok (ph', 0%nat) /\ inside_conversion ph')
  \/ (exists e, PyText.percent_step ph c 0 = Raise e /\ (e = ValueError \/ e = TypeError)).
Proof.
  intros H. destruct ph; try contradiction; cbn [PyText.percent_step];
    unfold PyText.width_or_later, PyText.precision_or_later,
      PyText.length_or_conversion;
    repeat match goal with
           | |- context [if ?b then _ else _] => destruct b
           end;
    rewrite ?conversion_no_argument;
    first [ left; eexists; split; [reflexivity | exact I]
          | right; eexists; split; [reflexivity | tauto] ].
Qed.

Lemma percent_scan_inside text :
  forall ph, inside_conversion ph -> format_error (PyText.percent_scan ph text 0).
Proof.
  induction text as [|c text IH]; intros ph H.
  - destruct ph; try contradiction; left; reflexivity.
  - cbn [PyText.percent_scan].
    destruct (percent_step_inside ph c H) as [[ph' [-> H']] | [e [-> He]]].
    + apply IH. exact H'.
    + destruct He as [-> | ->]; [left | right]; reflexivity.
Qed.

(** After a percent sign that no second one follows, the scan is inside
    a conversion, or has failed. *)
Lemma percent_step_start c :
  Ascii.eqb c "%"%char = false ->
  (exists ph', PyText.percent_step PyText.PStart c 0 = Ok (ph', 0%nat)
               /\ inside_conversion ph')
  \/ (exists e, PyText.percent_step PyText.PStart c 0 = Raise e
                /\ (e = ValueError \/ e = TypeError)).
Proof.
  intros Hc. cbn [PyText.percent_step]. rewrite Hc.
  unfold PyText.width_or_later, PyText.precision_or_later,
    PyText.length_or_conversion;
    repeat match goal with
           | |- context [if ?b then _ else _] => destruct b
           end;
    rewrite ?conversion_no_argument;
    first [ left; eexists; split; [reflexivity | exact I]
          | right; eexists; split; [reflexivity | tauto] ].
Qed.

Lemma percent_scan_doubled text :
  (percents_doubled text = true -> PyText.percent_scan PyText.PLit text 0 = Ok tt) /\
  (percents_doubled text = false ->
   format_error (PyText.percent_scan PyText.PLit text 0)) /\
  (forall c, percents_doubled (String c text) = true ->
             PyText.percent_scan PyText.PLit (String c text) 0 = Ok tt) /\
  (forall c, percents_doubled (String c text) = false ->
             format_error (PyText.percent_scan PyText.PLit (String c text) 0)).
Proof.
  induction text as [|c' text IH].
  - repeat split; try discriminate; intros c; cbn;
      destruct (Ascii.eqb c "%"%char); try discriminate; try reflexivity.
    intros _. left. reflexivity.
  - destruct IH as [IH1 [IH2 [IH3 IH4]]].
    split; [apply IH3|]. split; [apply IH4|]. split.
    + intros c. cbn [percents_doubled PyText.percent_scan PyText.percent_step].
      destruct (Ascii.eqb c "%"%char) eqn:Hc.
      * destruct (Ascii.eqb c' "%"%char) eqn:Hc'; [|discriminate].
        cbn [andb]. intros H. cbn [PyText.percent_scan PyText.percent_step].
        rewrite Hc'. apply IH1. exact H.
      * intros H. apply IH3. exact H.
    + intros c. cbn [percents_doubled PyText.percent_scan PyText.percent_step].
      destruct (Ascii.eqb c "%"%char) eqn:Hc.
      * destruct (Ascii.eqb c' "%"%char) eqn:Hc'.
        -- cbn [andb]. intros H. cbn [PyText.percent_scan PyText.percent_step].
           rewrite Hc'. apply IH2. exact H.
        -- intros _. cbn [PyText.percent_scan].
           destruct (percent_step_start c' Hc') as [[ph' [-> H']] | [e [-> He]]].
           ++ apply percent_scan_inside. exact H'.
           ++ destruct He as [-> | ->]; [left | right]; reflexivity.
      * intros H. apply IH4. exact H.
Qed.

(** X1: [log] with a text and nothing else, as the poller calls it on the
    message of the server: the text is printed when each of its percent
    signs stands in a pair [%%]; otherwise [log] raises [ValueError] or
    [TypeError] and prints nothing. *)
Theorem X1_log_text_alone (text : string) (s : store) :
  let r := log (JStr text) [] None s in
  (percents_doubled text = true /\ r = (Ret tt, emit (EvLog text [] None) s))
  \/ (percents_doubled text = false /\ snd r = s /\
      (fst r = Exc ValueError \/ fst r = Exc TypeError)).
Proof.
  intros r. subst r. unfold log, bind. cbn [List.length PyText.percent PyText.str].
  destruct (percent_scan_doubled text) as [H1 [H2 _]].
  destruct (percents_doubled text).
  - left. split; [reflexivity|]. rewrite (H1 eq_refl). reflexivity.
  - right. split; [reflexivity|].
    destruct (H2 eq_refl) as [-> | ->]; cbn; split; auto.
Qed.

(** ** The first request of a login *)

Lemma try_except_unhandled {A} (m : M A) hd h s e s' :
  m s = (Exc e, s') -> hd e = false -> try_except m hd h s = (Exc e, s').
Proof. intros H He. unfold try_except. rewrite H, He. reflexivity. Qed.

Lemma open_raises (r : request) (rp : reply) (rest : list reply) (e : exn) (s : store) :
  replies s = rp :: rest -> rp_outcome rp = Raise e ->
  open r s = (Exc e, received r rp rest s).
Proof.
  intros H He. unfold open. apply bind_Exc.
  rewrite (transfer_reply _ _ _ _ H), He. reflexivity.
Qed.

Lemma emit_all_replies evs s : replies (emit_all evs s) = replies s.
Proof.
  revert s. induction evs as [|e evs IH]; intros s; [reflexivity|].
  cbn [emit_all fold_left]. fold (emit_all evs (emit e s)). now rewrite IH.
Qed.

Lemma bind_same {A B} (m m' : M A) (k : A -> M B) s s' :
  m s = m' s' -> bind m k s = bind m' k s'.
Proof. intros H. unfold bind. rewrite H. reflexivity. Qed.

Lemma bind_raise {A B C} (m : M A) (e : exn) (k : B -> M C) s :
  bind (bind m (fun _ => raise e)) k s = bind m (fun _ => raise e) s.
Proof. unfold bind. destruct (m s) as [[x|e'|] s']; reflexivity. Qed.

Lemma do_login_first_request_fails a s rp rest e :
  replies s = rp :: rest -> rp_outcome rp = Raise e ->
  Doctolib.do_login a s
  = if Doctolib.is_ServerError e
    then bind (Doctolib.report_server_error e) (fun _ => raise e)
              (received sessions_new rp rest s)
    else (Exc e, received sessions_new rp rest s).
Proof.
  intros H He. unfold Doctolib.do_login.
  pose proof (open_raises sessions_new rp rest e s H He) as Hopen.
  destruct (Doctolib.is_ServerError e) eqn:Hse.
  - rewrite (bind_same _ _ _ _ _ (try_except_handled _ _ _ _ _ _ Hopen Hse)).
    apply bind_raise.
  - apply bind_Exc. apply try_except_unhandled; assumption.
Qed.

(** X2: a server error on the first request ([/sessions/new]) leaves
    [do_login], and the run, as that same error.  Before that, one
    message is logged when the answer is Cloudflare's block (status 503,
    an HTML body with one of the two markers), another one when the
    status is 520, none otherwise.  The login request is not sent. *)
Theorem X2_do_login_server_error (fuel : nat) (a : args) (s : store) (rp : reply)
  (rest : list reply) (status : Z) (content_type : option string) (text : string) :
  replies s = rp :: rest ->
  rp_outcome rp = Raise (ServerError status content_type text) ->
  (status = 503 -> content_type <> None) ->
  let r := Doctolib.do_login a s in
  fst r = Exc (ServerError status content_type text) /\
  trace (snd r)
  = (server_error_messages status content_type text
     ++ EvRequest sessions_new :: trace s)%list /\
  replies (snd r) = rest /\
  fst (Application.run fuel a s) = Exc (ServerError status content_type text).
Proof.
  intros H He Hct r. subst r.
  assert (Hlogin : Doctolib.do_login a s
                   = (Exc (ServerError status content_type text),
                      emit_all (server_error_messages status content_type text)
                        (received sessions_new rp rest s))).
  { rewrite (do_login_first_request_fails a s rp rest _ H He).
    cbn [Doctolib.is_ServerError].
    unfold Doctolib.report_server_error, server_error_messages,
      blocked_by_cloudflare.
    destruct (status =? 503) eqn:H503.
    - apply Z.eqb_eq in H503. subst status.
      destruct content_type as [ct|]; [|now contradiction (Hct eq_refl)].
      cbn [andb Z.eqb Pos.eqb].
      destruct (Py.is_substring "text/html" ct
                && (Py.is_substring "cloudflare" text
                    || Py.is_substring "Checking your browser before accessing" text));
        reflexivity.
    - destruct content_type as [ct|]; cbn [andb]; destruct (status =? 520); reflexivity. }
  rewrite Hlogin. cbn [fst snd].
  rewrite emit_all_trace, received_trace, emit_all_replies, received_replies.
  repeat split.
  - unfold server_error_messages.
    destruct (blocked_by_cloudflare status content_type text); [reflexivity|].
    destruct (status =? 520); reflexivity.
  - unfold Application.run. rewrite (bind_Exc _ _ _ _ _ Hlogin). reflexivity.
Qed.

Lemma X2_witness_blocked :
  let r := Doctolib.do_login ex_args ex_blocked in
  (503 = 503 -> Some "text/html; charset=UTF-8" <> None) /\
  fst r = Exc (ServerError 503 (Some "text/html; charset=UTF-8")
                 "<title>Attention Required! | cloudflare</title>") /\
  trace (snd r) = [cloudflare_blocked; EvRequest sessions_new] /\
  List.length (replies (snd r)) = 1%nat.
Proof.
  intros r.
  assert (Hct : 503 = 503 -> Some "text/html; charset=UTF-8" <> None)
    by (intros _; discriminate).
  split; [exact Hct|].
  destruct (X2_do_login_server_error 0 ex_args ex_blocked _ _ 503
              (Some "text/html; charset=UTF-8")
              "<title>Attention Required! | cloudflare</title>"
              eq_refl eq_refl Hct) as [H1 [H2 [H3 _]]].
  split; [exact H1|]. split; [exact H2|]. subst r. rewrite H3. reflexivity.
Defined.

(** X3: a 503 on the first request whose answer has no [Content-Type]
    header: the handler fails on the header, and [do_login] raises
    [KeyError] in place of the server error; nothing is logged and the
    login request is not sent. *)
Theorem X3_do_login_no_content_type (a : args) (s : store) (rp : reply)
  (rest : list reply) (text : string) :
  replies s = rp :: rest ->
  rp_outcome rp = Raise (ServerError 503 None text) ->
  let r := Doctolib.do_login a s in
  fst r = Exc KeyError /\
  trace (snd r) = EvRequest sessions_new :: trace s /\
  replies (snd r) = rest.
Proof.
  intros H He r. subst r.
  rewrite (do_login_first_request_fails a s rp rest _ H He).
  cbn. rewrite received_trace, received_replies. repeat split.
Qed.

Lemma X3_witness_no_header :
  let r := Doctolib.do_login ex_args ex_no_content_type in
  fst r = Exc KeyError /\
  trace (snd r) = [EvRequest sessions_new] /\
  replies (snd r) = [page_reply (JObj [("redirection", JStr "/account")])].
Proof.
  exact (X3_do_login_no_content_type ex_args ex_no_content_type _ _ _ eq_refl eq_refl).
Defined.

(** ** The login request and what follows it *)

Lemma eqb_str (x : json) (t : string) : Py.eqb x (JStr t) = true -> x = JStr t.
Proof.
  destruct x; cbn; try discriminate. intros H. apply String.eqb_eq in H. now subst.
Qed.

Lemma second_factor_not_asked (s : store) (target : json) :
  LoginPage.redirect (page s) = Ok target ->
  target <> JStr Doctolib.two_factor_path ->
  Doctolib.second_factor s = (Ret true, s).
Proof.
  intros Hr Hne. unfold Doctolib.second_factor. step. rewrite Hr. step.
  destruct (Py.eqb target (JStr Doctolib.two_factor_path)) eqn:Heq; [|reflexivity].
  apply eqb_str in Heq. contradiction.
Qed.

Lemma after_login_replies a rp0 rp1 rest s :
  replies (after_login a rp0 rp1 rest s) = rest.
Proof. unfold after_login. apply received_replies. Qed.

Lemma after_login_stdin a rp0 rp1 rest s :
  stdin (after_login a rp0 rp1 rest s) = stdin s.
Proof. unfold after_login. now rewrite !received_stdin. Qed.

(** The store when [second_factor] starts. *)
Lemma logged_in_facts a s rp0 rp1 rest doc :
  let s1 := set_page doc (after_login a rp0 rp1 rest s) in
  trace s1 = EvRequest (Doctolib.login_request a) :: EvRequest sessions_new :: trace s
  /\ replies s1 = rest /\ isatty s1 = isatty s /\ stdin s1 = stdin s /\ page s1 = doc.
Proof.
  intros s1. subst s1. unfold after_login. cbn [trace replies isatty stdin page set_page].
  rewrite !received_trace, received_replies, !received_isatty, !received_stdin.
  repeat split.
Qed.

(** X4: the login goes through and the page does not redirect to the
    two-factor path (whatever else [redirection] holds): [do_login]
    returns true after its two requests, the second of which carries the
    credentials; it prints nothing, reads no input and leaves the
    replies that follow. *)
Theorem X4_do_login_without_second_factor (a : args) (s : store) (rp0 rp1 : reply)
  (rest : list reply) (doc target : json) :
  replies s = rp0 :: rp1 :: rest -> is_page rp0 -> rp_outcome rp1 = Ok doc ->
  LoginPage.redirect doc = Ok target ->
  target <> JStr Doctolib.two_factor_path ->
  let r := Doctolib.do_login a s in
  fst r = Ret true /\
  trace (snd r)
  = EvRequest (Doctolib.login_request a) :: EvRequest sessions_new :: trace s /\
  rq_json (Doctolib.login_request a)
  = Some (JObj [("kind", JStr "patient"); ("username", JStr (username a));
                ("password", JStr (password a)); ("remember", JBool true);
                ("remember_username", JBool true)]) /\
  replies (snd r) = rest /\ stdin (snd r) = stdin s /\ page (snd r) = doc.
Proof.
  intros H H0 H1 Hr Hne r. subst r.
  rewrite (do_login_logged_in a s rp0 rp1 rest doc H H0 H1).
  rewrite (second_factor_not_asked (set_page doc (after_login a rp0 rp1 rest s))
             target Hr Hne).
  cbn [fst snd trace replies stdin page set_page].
  rewrite after_login_trace, after_login_replies, after_login_stdin.
  repeat split.
Qed.

Lemma X4_witness_account :
  let r := Doctolib.do_login ex_args ex_logged_in in
  JStr "/account" <> JStr Doctolib.two_factor_path /\
  fst r = Ret true /\
  trace (snd r)
  = [EvRequest (Doctolib.login_request ex_args); EvRequest sessions_new] /\
  replies (snd r) = [page_reply (JArr [])] /\ stdin (snd r) = ["0"].
Proof.
  intros r.
  assert (Hne : JStr "/account" <> JStr Doctolib.two_factor_path) by discriminate.
  split; [exact Hne|].
  destruct (X4_do_login_without_second_factor ex_args ex_logged_in (page_reply JNull)
              (page_reply (JObj [("redirection", JStr "/account")]))
              [page_reply (JArr [])] (JObj [("redirection", JStr "/account")])
              (JStr "/account") eq_refl (ex_intro _ JNull eq_refl) eq_refl eq_refl Hne)
    as [H1 [H2 [_ [H3 [H4 _]]]]].
  split; [exact H1|]. split; [exact H2|]. split; [exact H3 | exact H4].
Defined.

Lemma do_login_login_raises a s rp0 rp1 rest e :
  replies s = rp0 :: rp1 :: rest -> is_page rp0 -> rp_outcome rp1 = Raise e ->
  Doctolib.is_ClientError e = false ->
  Doctolib.do_login a s = (Exc e, after_login a rp0 rp1 rest s).
Proof.
  intros H H0 H1 He. unfold Doctolib.do_login.
  rewrite (bind_Ret _ _ _ tt (received sessions_new rp0 (rp1 :: rest) s)).
  2:{ apply try_except_Ret. apply open_page; assumption. }
  apply bind_Exc. apply try_except_unhandled; [|assumption].
  apply bind_Exc. apply go_raises; [apply received_replies | assumption].
Qed.

(** X5: an error of the login request that is no [ClientError] (a
    server error, a transport failure, and also a 404, which the library
    raises as [HTTPNotFound]) leaves [do_login], and the run, as it is:
    "Wrong login/password" is not printed, and the messages about
    Cloudflare, which belong to the first request, are not logged. *)
Theorem X5_do_login_error_propagates (fuel : nat) (a : args) (s : store)
  (rp0 rp1 : reply) (rest : list reply) (e : exn) :
  replies s = rp0 :: rp1 :: rest -> is_page rp0 -> rp_outcome rp1 = Raise e ->
  Doctolib.is_ClientError e = false ->
  let r := Doctolib.do_login a s in
  fst r = Exc e /\
  trace (snd r)
  = EvRequest (Doctolib.login_request a) :: EvRequest sessions_new :: trace s /\
  replies (snd r) = rest /\
  fst (Application.run fuel a s) = Exc e.
Proof.
  intros H H0 H1 He r. subst r.
  pose proof (do_login_login_raises a s rp0 rp1 rest e H H0 H1 He) as Hlogin.
  rewrite Hlogin. cbn [fst snd]. rewrite after_login_trace, after_login_replies.
  repeat split. unfold Application.run. rewrite (bind_Exc _ _ _ _ _ Hlogin). reflexivity.
Qed.

Lemma X5_witness_not_found :
  let r := Doctolib.do_login ex_args ex_login_not_found in
  Doctolib.is_ClientError HTTPNotFound = false /\
  fst r = Exc HTTPNotFound /\
  trace (snd r)
  = [EvRequest (Doctolib.login_request ex_args); EvRequest sessions_new] /\
  fst (Application.run 3 ex_args ex_login_not_found) = Exc HTTPNotFound.
Proof.
  intros r. split; [reflexivity|].
  destruct (X5_do_login_error_propagates 3 ex_args ex_login_not_found
              (page_reply JNull) (error_reply HTTPNotFound) [page_reply (JArr [])]
              HTTPNotFound eq_refl (ex_intro _ JNull eq_refl) eq_refl eq_refl)
    as [H1 [H2 [_ H4]]].
  split; [exact H1|]. split; [exact H2 | exact H4].
Defined.

(** X6: a login page that is an object without [redirection] makes
    [do_login] raise [KeyError], after the two requests of the login. *)
Theorem X6_do_login_without_redirection (a : args) (s : store) (rp0 rp1 : reply)
  (rest : list reply) (fields : list (string * json)) :
  replies s = rp0 :: rp1 :: rest -> is_page rp0 ->
  rp_outcome rp1 = Ok (JObj fields) ->
  Py.assoc "redirection" fields = None ->
  let r := Doctolib.do_login a s in
  fst r = Exc KeyError /\
  trace (snd r)
  = EvRequest (Doctolib.login_request a) :: EvRequest sessions_new :: trace s /\
  replies (snd r) = rest.
Proof.
  intros H H0 H1 Hno r. subst r.
  rewrite (do_login_logged_in a s rp0 rp1 rest _ H H0 H1).
  unfold Doctolib.second_factor. step.
  cbn [page set_page LoginPage.redirect Py.getitem]. rewrite Hno.
  cbn [fst snd lift raise bind trace replies set_page].
  rewrite after_login_trace, after_login_replies. repeat split.
Qed.

Lemma X6_witness_no_redirection :
  let r := Doctolib.do_login ex_args ex_login_no_redirection in
  fst r = Exc KeyError /\
  trace (snd r)
  = [EvRequest (Doctolib.login_request ex_args); EvRequest sessions_new] /\
  replies (snd r) = [].
Proof.
  exact (X6_do_login_without_redirection ex_args ex_login_no_redirection
           (page_reply JNull) (page_reply (JObj [("id", JInt 1)])) []
           [("id", JInt 1)] eq_refl (ex_intro _ JNull eq_refl) eq_refl eq_refl).
Defined.

(** ** The second factor *)

Lemma second_factor_asks s rp2 rest :
  LoginPage.redirect (page s) = Ok (JStr Doctolib.two_factor_path) ->
  isatty s = true ->
  replies s = rp2 :: rest -> is_page rp2 ->
  Doctolib.second_factor s
  = (code <- input "Enter auth code: " ;;
     try_except (go (Doctolib.challenge_request code) empty_page ;; ret true)
                Doctolib.is_HTTPNotFound
                (fun _ => print "Invalid auth code" ;; ret false))
      (code_requested rp2 rest s).
Proof.
  intros Hr Htty Hrep [d2 H2]. unfold Doctolib.second_factor.
  step. rewrite Hr. step. cbn [Py.eqb]. rewrite String.eqb_refl.
  step. step. change (isatty (emit ?e s)) with (isatty s). rewrite Htty. cbn [negb].
  rewrite (bind_Ret _ _ _ _ _
             (go_page Doctolib.send_auth_code_request empty_page rp2 rest
                      d2 (emit (EvPrint "Requesting 2fa code...") s) Hrep H2)).
  reflexivity.
Qed.

Lemma input_line prompt s line lines :
  stdin s = line :: lines ->
  input prompt s = (Ret (chomp line), set_stdin lines (emit (EvInput prompt) s)).
Proof.
  intros H. unfold input. step. step.
  change (stdin (emit ?e s)) with (stdin s). rewrite H. reflexivity.
Qed.

Lemma input_eof prompt s :
  stdin s = [] -> input prompt s = (Exc EOFError, emit (EvInput prompt) s).
Proof.
  intros H. unfold input. step. step.
  change (stdin (emit ?e s)) with (stdin s). rewrite H. reflexivity.
Qed.

Lemma code_requested_stdin rp rest s : stdin (code_requested rp rest s) = stdin s.
Proof. unfold code_requested. cbn [stdin set_page]. now rewrite received_stdin. Qed.

Lemma code_requested_replies rp rest s : replies (code_requested rp rest s) = rest.
Proof. unfold code_requested. cbn [replies set_page]. apply received_replies. Qed.

Lemma code_requested_trace rp rest s :
  trace (code_requested rp rest s)
  = EvRequest Doctolib.send_auth_code_request :: EvPrint "Requesting 2fa code..."
      :: trace s.
Proof. unfold code_requested. cbn [trace set_page]. now rewrite received_trace. Qed.

Lemma second_factor_accepted (s : store) (rp2 rp3 : reply) (rest : list reply)
  (line : string) (lines : list string) :
  LoginPage.redirect (page s) = Ok (JStr Doctolib.two_factor_path) ->
  isatty s = true ->
  replies s = rp2 :: rp3 :: rest -> is_page rp2 -> is_page rp3 ->
  stdin s = line :: lines ->
  let r := Doctolib.second_factor s in
  fst r = Ret true /\
  trace (snd r)
  = EvRequest (Doctolib.challenge_request (chomp line))
      :: EvInput "Enter auth code: "
      :: EvRequest Doctolib.send_auth_code_request
      :: EvPrint "Requesting 2fa code..." :: trace s /\
  stdin (snd r) = lines /\ replies (snd r) = rest /\ page (snd r) = JStr "".
Proof.
  intros Hr Htty Hrep Hp2 [d3 H3] Hin r. subst r.
  rewrite (second_factor_asks s rp2 (rp3 :: rest) Hr Htty Hrep Hp2).
  set (s2 := code_requested rp2 (rp3 :: rest) s).
  assert (Hin2 : stdin s2 = line :: lines)
    by (unfold s2; rewrite code_requested_stdin; exact Hin).
  rewrite (bind_Ret _ _ _ _ _ (input_line "Enter auth code: " s2 line lines Hin2)).
  fold (code_typed lines s2).
  assert (Hrep2 : replies (code_typed lines s2) = rp3 :: rest)
    by (unfold code_typed, s2; cbn [replies set_stdin emit];
        apply code_requested_replies).
  rewrite (try_except_Ret _ _ _ _ true
             (set_page (JStr "")
                (received (Doctolib.challenge_request (chomp line)) rp3 rest
                   (code_typed lines s2)))).
  2:{ rewrite (bind_Ret _ _ _ _ _
                 (go_page (Doctolib.challenge_request (chomp line)) empty_page
                    rp3 rest d3 (code_typed lines s2) Hrep2 H3)).
      reflexivity. }
  cbn [fst snd trace stdin replies page set_page].
  rewrite received_trace, received_stdin, received_replies.
  unfold code_typed. cbn [trace stdin set_stdin emit]. unfold s2.
  rewrite code_requested_trace. repeat split.
Qed.

Lemma second_factor_failures (s : store) (rp2 : reply) (rest : list reply) :
  LoginPage.redirect (page s) = Ok (JStr Doctolib.two_factor_path) ->
  isatty s = true ->
  replies s = rp2 :: rest ->
  let r := Doctolib.second_factor s in
  (forall e, rp_outcome rp2 = Raise e ->
     fst r = Exc e /\
     trace (snd r)
     = EvRequest Doctolib.send_auth_code_request :: EvPrint "Requesting 2fa code..."
         :: trace s)
  /\ (is_page rp2 -> stdin s = [] ->
      fst r = Exc EOFError /\
      trace (snd r)
      = EvInput "Enter auth code: " :: EvRequest Doctolib.send_auth_code_request
          :: EvPrint "Requesting 2fa code..." :: trace s /\
      replies (snd r) = rest)
  /\ (forall rp3 rest' line lines e,
         is_page rp2 -> rest = rp3 :: rest' -> stdin s = line :: lines ->
         rp_outcome rp3 = Raise e -> Doctolib.is_HTTPNotFound e = false ->
         fst r = Exc e /\
         trace (snd r)
         = EvRequest (Doctolib.challenge_request (chomp line))
             :: EvInput "Enter auth code: "
             :: EvRequest Doctolib.send_auth_code_request
             :: EvPrint "Requesting 2fa code..." :: trace s).
Proof.
  intros Hr Htty Hrep r. subst r. split; [|split].
  - intros e He. unfold Doctolib.second_factor.
    step. rewrite Hr. step. cbn [Py.eqb]. rewrite String.eqb_refl.
    step. step. change (isatty (emit ?e s)) with (isatty s). rewrite Htty. cbn [negb].
    rewrite (bind_Exc _ _ _ _ _
               (go_raises Doctolib.send_auth_code_request empty_page rp2 rest e
                  (emit (EvPrint "Requesting 2fa code...") s) Hrep He)).
    cbn [fst snd]. rewrite received_trace. split; reflexivity.
  - intros Hp2 Hin.
    rewrite (second_factor_asks s rp2 rest Hr Htty Hrep Hp2).
    rewrite (bind_Exc _ _ _ _ _
               (input_eof "Enter auth code: " (code_requested rp2 rest s)
                  ltac:(rewrite code_requested_stdin; exact Hin))).
    cbn [fst snd trace replies emit].
    rewrite code_requested_trace, code_requested_replies. repeat split.
  - intros rp3 rest' line lines e Hp2 -> Hin H3 He.
    rewrite (second_factor_asks s rp2 (rp3 :: rest') Hr Htty Hrep Hp2).
    set (s2 := code_requested rp2 (rp3 :: rest') s).
    assert (Hin2 : stdin s2 = line :: lines)
      by (unfold s2; rewrite code_requested_stdin; exact Hin).
    rewrite (bind_Ret _ _ _ _ _ (input_line "Enter auth code: " s2 line lines Hin2)).
    fold (code_typed lines s2).
    assert (Hrep2 : replies (code_typed lines s2) = rp3 :: rest')
      by (unfold code_typed, s2; cbn [replies set_stdin emit];
          apply code_requested_replies).
    rewrite (try_except_unhandled _ _ _ _ e
               (received (Doctolib.challenge_request (chomp line)) rp3 rest'
                  (code_typed lines s2))); [| |assumption].
    2:{ apply bind_Exc. apply go_raises; assumption. }
    cbn [fst snd]. rewrite received_trace. unfold code_typed.
    cbn [trace set_stdin emit]. unfold s2. rewrite code_requested_trace.
    split; reflexivity.
Qed.

(** X7: the login redirects to the two-factor path, a terminal is
    attached, and the server accepts the code: [do_login] returns true
    after four requests (the two of the login, the request for a code by
    e-mail, the challenge).  The challenge carries the line that was
    typed, without its newline and otherwise as it is; one line of input
    is read; the page left behind is the empty document that the
    challenge page builds whatever the server answers. *)
Theorem X7_do_login_second_factor_accepted (a : args) (s : store)
  (rp0 rp1 rp2 rp3 : reply) (rest : list reply) (doc : json)
  (line : string) (lines : list string) :
  replies s = rp0 :: rp1 :: rp2 :: rp3 :: rest ->
  is_page rp0 -> rp_outcome rp1 = Ok doc ->
  LoginPage.redirect doc = Ok (JStr Doctolib.two_factor_path) ->
  isatty s = true -> is_page rp2 -> is_page rp3 ->
  stdin s = line :: lines ->
  let r := Doctolib.do_login a s in
  fst r = Ret true /\
  trace (snd r)
  = EvRequest (Doctolib.challenge_request (chomp line))
      :: EvInput "Enter auth code: "
      :: EvRequest Doctolib.send_auth_code_request
      :: EvPrint "Requesting 2fa code..."
      :: EvRequest (Doctolib.login_request a) :: EvRequest sessions_new :: trace s /\
  rq_json (Doctolib.challenge_request (chomp line))
  = Some (JObj [("auth_code", JStr (chomp line));
                ("two_factor_auth_method", JStr "email")]) /\
  stdin (snd r) = lines /\ replies (snd r) = rest /\ page (snd r) = JStr "".
Proof.
  intros H H0 H1 Hr Htty Hp2 Hp3 Hin r. subst r.
  rewrite (do_login_logged_in a s rp0 rp1 _ doc H H0 H1).
  destruct (logged_in_facts a s rp0 rp1 (rp2 :: rp3 :: rest) doc)
    as [Ht [Hrep [Htty1 [Hin1 Hpage]]]].
  set (s1 := set_page doc (after_login a rp0 rp1 (rp2 :: rp3 :: rest) s)) in *.
  rewrite <- Hpage in Hr. rewrite <- Htty1 in Htty. rewrite <- Hin1 in Hin.
  destruct (second_factor_accepted s1 rp2 rp3 rest line lines Hr Htty Hrep Hp2 Hp3 Hin)
    as [R1 [R2 [R3 [R4 R5]]]].
  rewrite R2, Ht. repeat split; assumption.
Qed.

Lemma X7_witness_code_accepted :
  let r := Doctolib.do_login ex_args ex_code_accepted in
  chomp ex_code_line = "12" /\
  fst r = Ret true /\
  requests_of (trace (snd r))
  = [sessions_new; Doctolib.login_request ex_args;
     Doctolib.send_auth_code_request; Doctolib.challenge_request "12"] /\
  stdin (snd r) = ["0"] /\ replies (snd r) = [page_reply (JArr [])].
Proof.
  intros r. split; [reflexivity|].
  destruct (X7_do_login_second_factor_accepted ex_args ex_code_accepted
              (page_reply JNull) (page_reply ex_two_factor_page)
              (page_reply (JStr "")) (page_reply (JStr "")) [page_reply (JArr [])]
              ex_two_factor_page ex_code_line ["0"]
              eq_refl (ex_intro _ JNull eq_refl) eq_refl eq_refl eq_refl
              (ex_intro _ (JStr "") eq_refl) (ex_intro _ (JStr "") eq_refl) eq_refl)
    as [H1 [H2 [_ [H3 [H4 _]]]]].
  split; [exact H1|]. split; [|split; [exact H3 | exact H4]].
  subst r. rewrite H2. reflexivity.
Defined.

(** X8: what else ends the second factor, with a terminal attached.  An
    error of the request for a code leaves [do_login] as it is, before
    any prompt.  An input at its end makes the prompt raise [EOFError]:
    the code was requested, no challenge is sent.  An error of the
    challenge other than [HTTPNotFound] leaves [do_login] as it is:
    "Invalid auth code" is kept for the 404. *)
Theorem X8_do_login_second_factor_failures (a : args) (s : store)
  (rp0 rp1 rp2 : reply) (rest : list reply) (doc : json) :
  replies s = rp0 :: rp1 :: rp2 :: rest ->
  is_page rp0 -> rp_outcome rp1 = Ok doc ->
  LoginPage.redirect doc = Ok (JStr Doctolib.two_factor_path) ->
  isatty s = true ->
  let r := Doctolib.do_login a s in
  let asked := EvRequest Doctolib.send_auth_code_request
                 :: EvPrint "Requesting 2fa code..."
                 :: EvRequest (Doctolib.login_request a)
                 :: EvRequest sessions_new :: trace s in
  (forall e, rp_outcome rp2 = Raise e -> fst r = Exc e /\ trace (snd r) = asked)
  /\ (is_page rp2 -> stdin s = [] ->
      fst r = Exc EOFError /\
      trace (snd r) = EvInput "Enter auth code: " :: asked /\
      replies (snd r) = rest)
  /\ (forall rp3 rest' line lines e,
         is_page rp2 -> rest = rp3 :: rest' -> stdin s = line :: lines ->
         rp_outcome rp3 = Raise e -> Doctolib.is_HTTPNotFound e = false ->
         fst r = Exc e /\
         trace (snd r)
         = EvRequest (Doctolib.challenge_request (chomp line))
             :: EvInput "Enter auth code: " :: asked).
Proof.
  intros H H0 H1 Hr Htty r asked. subst r asked.
  rewrite (do_login_logged_in a s rp0 rp1 _ doc H H0 H1).
  destruct (logged_in_facts a s rp0 rp1 (rp2 :: rest) doc)
    as [Ht [Hrep [Htty1 [Hin1 Hpage]]]].
  set (s1 := set_page doc (after_login a rp0 rp1 (rp2 :: rest) s)) in *.
  rewrite <- Hpage in Hr. rewrite <- Htty1 in Htty.
  destruct (second_factor_failures s1 rp2 rest Hr Htty Hrep) as [F1 [F2 F3]].
  rewrite <- Ht. split; [exact F1|]. split.
  - intros Hp2 Hin. rewrite <- Hin1 in Hin. exact (F2 Hp2 Hin).
  - intros rp3 rest' line lines e Hp2 Hrest Hin. rewrite <- Hin1 in Hin.
    exact (F3 rp3 rest' line lines e Hp2 Hrest Hin).
Qed.

Lemma X8_witness_code_unsent :
  let r := Doctolib.do_login ex_args ex_code_unsent in
  fst r = Exc (ServerError 500 None "") /\
  trace (snd r)
  = [EvRequest Doctolib.send_auth_code_request; EvPrint "Requesting 2fa code...";
     EvRequest (Doctolib.login_request ex_args); EvRequest sessions_new].
Proof.
  exact (proj1 (X8_do_login_second_factor_failures ex_args ex_code_unsent
                  (page_reply JNull) (page_reply ex_two_factor_page)
                  (error_reply (ServerError 500 None "")) [] ex_two_factor_page
                  eq_refl (ex_intro _ JNull eq_refl) eq_refl eq_refl eq_refl)
           (ServerError 500 None "") eq_refl).
Defined.

(** ** The requests of a login *)

Lemma requests_of_request r t :
  requests_of (EvRequest r :: t) = (requests_of t ++ [r])%list.
Proof. unfold requests_of. cbn [rev]. rewrite flat_map_app. cbn. reflexivity. Qed.

Lemma requests_of_output e t : is_output e -> requests_of (e :: t) = requests_of t.
Proof.
  intros H. unfold requests_of. cbn [rev]. rewrite flat_map_app.
  destruct e; try contradiction; cbn; apply app_nil_r.
Qed.

Ltac requests :=
  repeat first [ rewrite requests_of_request
               | rewrite requests_of_output by exact I ].

Lemma second_factor_requests s :
  exists n, (n <= 2)%nat /\
    requests_of (trace (snd (Doctolib.second_factor s)))
    = (requests_of (trace s)
       ++ firstn n [Doctolib.send_auth_code_request;
                    Doctolib.challenge_request (typed_code s)])%list.
Proof.
  unfold Doctolib.second_factor, typed_code.
  unfold go, transfer, input, print, log, try_except, bind, lift, gets, modify, ret, raise.
  cbn -[requests_of].
  destruct (LoginPage.redirect (page s)) as [target|e];
    [|exists 0%nat; split; [lia | cbn -[requests_of]; now rewrite app_nil_r]].
  destruct (Py.eqb target (JStr Doctolib.two_factor_path));
    [|exists 0%nat; split; [lia | cbn -[requests_of]; now rewrite app_nil_r]].
  destruct (isatty s); cbn -[requests_of];
    [|exists 0%nat; split; [lia | requests; now rewrite app_nil_r]].
  destruct (replies s) as [|[c2 u2 [d2|e2]] rest]; cbn -[requests_of].
  - exists 1%nat. split; [lia|]. requests. reflexivity.
  - destruct c2; cbn -[requests_of].
    all: destruct (stdin s) as [|line lines]; cbn -[requests_of];
      [exists 1%nat; split; [lia | requests; reflexivity]|].
    all: destruct rest as [|[c3 u3 [d3|e3]] rest]; cbn -[requests_of].
    all: try destruct c3; cbn -[requests_of].
    all: try destruct (Doctolib.is_HTTPNotFound e3); cbn -[requests_of].
    all: exists 2%nat; (split; [lia | requests; rewrite <- app_assoc; reflexivity]).
  - destruct c2; cbn -[requests_of]; exists 1%nat; (split; [lia | requests; reflexivity]).
Qed.

Lemma report_server_error_requests e s :
  requests_of (trace (snd (Doctolib.report_server_error e s))) = requests_of (trace s).
Proof.
  assert (H : preserves (extends_by is_output) (Doctolib.report_server_error e)).
  { unfold Doctolib.report_server_error. pres;
      apply (log_preserves _ (extends_by_output _ (fun e H => H))). }
  destruct (H s) as [evs [Ht HF]].
  rewrite Ht, requests_of_app, (requests_of_outputs _ HF), app_nil_r. reflexivity.
Qed.

(** X9: whatever the server answers and the operator types, the requests
    of [do_login] are the first one, two, three or four of: the page
    [/sessions/new], the login with the credentials, the request for a
    code, the challenge with the line typed.  So each is sent at most
    once, none is sent before the one that precedes it, and a login is
    not tried again. *)
Theorem X9_do_login_requests (a : args) (s : store) :
  exists n, (1 <= n <= 4)%nat /\
    requests_of (trace (snd (Doctolib.do_login a s)))
    = (requests_of (trace s) ++ firstn n (login_plan a (typed_code s)))%list.
Proof.
  destruct (replies s) as [|rp0 rest0] eqn:Hrep.
  { exists 1%nat. split; [lia|].
    assert (H : Doctolib.do_login a s
                = (Exc ConnectionError, emit (EvRequest sessions_new) s)).
    { unfold Doctolib.do_login. apply bind_Exc. apply try_except_unhandled; [|reflexivity].
      unfold open. apply bind_Exc. apply transfer_no_reply. exact Hrep. }
    rewrite H. cbn [snd trace emit]. requests. reflexivity. }
  destruct (rp_outcome rp0) as [d0|e0] eqn:H0.
  2:{ exists 1%nat. split; [lia|].
      rewrite (do_login_first_request_fails a s rp0 rest0 e0 Hrep H0).
      destruct (Doctolib.is_ServerError e0).
      - unfold bind.
        pose proof (report_server_error_requests e0 (received sessions_new rp0 rest0 s))
          as Hr.
        destruct (Doctolib.report_server_error e0 (received sessions_new rp0 rest0 s))
          as [[[]|e'|] s']; cbn [snd raise] in *; rewrite Hr, received_trace;
          requests; reflexivity.
      - cbn [snd]. rewrite received_trace. requests. reflexivity. }
  assert (Hp0 : is_page rp0) by (exists d0; exact H0).
  destruct rest0 as [|rp1 rest].
  { exists 2%nat. split; [lia|].
    assert (H : Doctolib.do_login a s
                = (Exc ConnectionError,
                   emit (EvRequest (Doctolib.login_request a))
                     (received sessions_new rp0 [] s))).
    { unfold Doctolib.do_login.
      rewrite (bind_Ret _ _ _ tt (received sessions_new rp0 [] s)).
      2:{ apply try_except_Ret. apply open_page; assumption. }
      apply bind_Exc. apply try_except_unhandled; [|reflexivity].
      apply bind_Exc. unfold go. apply bind_Exc. apply transfer_no_reply.
      apply received_replies. }
    rewrite H. cbn [snd trace emit]. rewrite received_trace. requests.
    rewrite <- app_assoc. reflexivity. }
  destruct (rp_outcome rp1) as [doc|e1] eqn:H1.
  2:{ exists 2%nat. split; [lia|].
      destruct (Doctolib.is_ClientError e1) eqn:He.
      - rewrite (do_login_rejected a s rp0 rp1 rest e1 Hrep Hp0 H1 He).
        cbn [snd trace emit]. rewrite after_login_trace. requests.
        rewrite <- app_assoc. reflexivity.
      - rewrite (do_login_login_raises a s rp0 rp1 rest e1 Hrep Hp0 H1 He).
        cbn [snd]. rewrite after_login_trace. requests.
        rewrite <- app_assoc. reflexivity. }
  rewrite (do_login_logged_in a s rp0 rp1 rest doc Hrep Hp0 H1).
  destruct (second_factor_requests (set_page doc (after_login a rp0 rp1 rest s)))
    as [n [Hn Hreq]].
  exists (2 + n)%nat. split; [lia|]. rewrite Hreq.
  cbn [trace set_page]. rewrite after_login_trace. requests.
  unfold typed_code. cbn [stdin set_page]. rewrite after_login_stdin.
  rewrite <- !app_assoc. reflexivity.
Qed.

(** ** Slugs: [normalize] *)

Lemma in_range lo n z : lo <= z < lo + Z.of_nat n -> In z (range lo n).
Proof.
  intros H. unfold range. apply in_map_iff. exists (Z.to_nat (z - lo)). split; [lia|].
  apply in_seq. lia.
Qed.

Lemma same_codes_eq a b : same_codes a b = true -> a = b.
Proof. unfold same_codes. destruct (list_eq_dec Z.eq_dec a b); [auto | discriminate]. Qed.

Lemma code_below_256 (c : ascii) : 0 <= PyText.code c < 0 + Z.of_nat 256.
Proof. unfold PyText.code. pose proof (nat_ascii_bounded c). lia. Qed.

Lemma normalize_cons (c : ascii) (s : string) :
  Doctolib.normalize (String c s)
  = (normalize_code (PyText.code c) ++ Doctolib.normalize s)%list.
Proof.
  unfold Doctolib.normalize, normalize_code, Unicode.codes.
  cbn [list_ascii_of_string map flat_map].
  rewrite filter_app, !map_app. reflexivity.
Qed.

(** The three facts below hold of each of the 256 characters. *)
Lemma normalize_code_slug :
  forallb (fun c => forallb slug (normalize_code c)) (range 0 256) = true.
Proof. vm_compute. reflexivity. Qed.

Lemma normalize_code_ascii :
  forallb (fun c => same_codes (normalize_code c) [ascii_slug c]) (range 0 128) = true.
Proof. vm_compute. reflexivity. Qed.

Lemma normalize_code_fixed :
  forallb (fun c => forallb (fun z => (256 <=? z) || same_codes (normalize_code z) [z])
                            (normalize_code c))
          (range 0 256) = true.
Proof. vm_compute. reflexivity. Qed.

Lemma in_normalize (s : string) (z : Z) :
  In z (Doctolib.normalize s) ->
  exists c, In c (range 0 256) /\ In z (normalize_code c).
Proof.
  induction s as [|c s IH]; [contradiction|].
  rewrite normalize_cons. intros H. apply in_app_or in H. destruct H as [H|H].
  - exists (PyText.code c). split; [|exact H]. apply in_range. apply code_below_256.
  - apply IH. exact H.
Qed.

(** X10: whatever the text, [normalize] leaves nothing but digits, the
    letters a to z, hyphens, underscores and the six small letters that
    have no decomposition: no capital letter, no accent, no space, no
    slash and no dot is left. *)
Theorem X10_normalize_alphabet (text : string) (c : Z) :
  In c (Doctolib.normalize text) -> slug c = true.
Proof.
  intros H. destruct (in_normalize text c H) as [c0 [Hc Hz]].
  pose proof normalize_code_slug as Hall. rewrite forallb_forall in Hall.
  specialize (Hall c0 Hc). rewrite forallb_forall in Hall. apply Hall. exact Hz.
Qed.

Lemma X10_witness_accent :
  Doctolib.normalize ex_name = Unicode.codes "zoe-d-" /\
  In 101 (Doctolib.normalize ex_name) /\ slug 101 = true.
Proof.
  assert (H : In 101 (Doctolib.normalize ex_name))
    by (right; right; left; reflexivity).
  split; [reflexivity|]. split; [exact H|].
  exact (X10_normalize_alphabet ex_name 101 H).
Defined.

(** X11: on a text of characters below 128, [normalize] works character
    by character and keeps the length: a capital letter becomes the
    small one, a digit, a small letter and the underscore stay, every
    other character becomes a hyphen. *)
Theorem X11_normalize_ascii (text : string) :
  Forall (fun c => c < 128) (Unicode.codes text) ->
  Doctolib.normalize text = map ascii_slug (Unicode.codes text).
Proof.
  induction text as [|c s IH]; intros H; [reflexivity|].
  unfold Unicode.codes in H. cbn [list_ascii_of_string map] in H.
  inversion H as [|? ? Hc Hs]; subst.
  rewrite normalize_cons, (IH Hs). unfold Unicode.codes.
  cbn [list_ascii_of_string map].
  pose proof normalize_code_ascii as Hall. rewrite forallb_forall in Hall.
  assert (Hin : In (PyText.code c) (range 0 128)).
  { apply in_range. pose proof (code_below_256 c). lia. }
  rewrite (same_codes_eq _ _ (Hall _ Hin)). reflexivity.
Qed.

Lemma X11_witness_name :
  Forall (fun c => c < 128) (Unicode.codes "Dr. Who_2") /\
  Doctolib.normalize "Dr. Who_2" = Unicode.codes "dr--who_2".
Proof.
  assert (H : Forall (fun c => c < 128) (Unicode.codes "Dr. Who_2"))
    by (repeat constructor).
  split; [exact H|].
  exact (X11_normalize_ascii "Dr. Who_2" H).
Defined.

Lemma normalize_fixed_codes (t : string) :
  (forall c, In c (Unicode.codes t) -> normalize_code c = [c]) ->
  Doctolib.normalize t = Unicode.codes t.
Proof.
  induction t as [|c t IH]; intros H; [reflexivity|].
  rewrite normalize_cons. unfold Unicode.codes in *.
  cbn [list_ascii_of_string map] in *.
  rewrite (H (PyText.code c)) by (left; reflexivity).
  rewrite IH by (intros z Hz; apply H; right; exact Hz). reflexivity.
Qed.

(** X12: [normalize] changes nothing in what it returns: when the result
    for a text is itself a text (of the 256 characters), that text is
    its own normal form. *)
Theorem X12_normalize_twice (text slugged : string) :
  Doctolib.normalize text = Unicode.codes slugged ->
  Doctolib.normalize slugged = Unicode.codes slugged.
Proof.
  intros H. apply normalize_fixed_codes. intros z Hz.
  assert (Hz256 : z < 256).
  { unfold Unicode.codes in Hz. apply in_map_iff in Hz. destruct Hz as [c [<- _]].
    pose proof (code_below_256 c). lia. }
  rewrite <- H in Hz. destruct (in_normalize text z Hz) as [c [Hc Hzc]].
  pose proof normalize_code_fixed as Hall. rewrite forallb_forall in Hall.
  specialize (Hall c Hc). rewrite forallb_forall in Hall. specialize (Hall z Hzc).
  apply orb_true_iff in Hall. destruct Hall as [Hbig | Hsame].
  - apply Z.leb_le in Hbig. lia.
  - apply same_codes_eq. exact Hsame.
Qed.

Lemma X12_witness_slug :
  Doctolib.normalize ex_name = Unicode.codes "zoe-d-" /\
  Doctolib.normalize "zoe-d-" = Unicode.codes "zoe-d-".
Proof.
  split; [reflexivity|].
  exact (X12_normalize_twice ex_name "zoe-d-" eq_refl).
Defined.

(** ** The booking page of a poll *)

Lemma has_availability_not_fetched fuel a start s rp rest e :
  replies s = rp :: rest -> rp_outcome rp = Raise e ->
  Doctolib.has_availability fuel a start s
  = (Exc e, received (Doctolib.booking_request a) rp rest s).
Proof.
  intros H He. unfold Doctolib.has_availability. apply bind_Exc.
  apply go_raises; assumption.
Qed.

Lemma has_availability_no_profile fuel a start s rp rest doc e :
  replies s = rp :: rest -> rp_outcome rp = Ok doc ->
  DoctorBookingPage.get_profile_id doc = Raise e ->
  Doctolib.has_availability fuel a start s
  = (Exc e, set_page doc (received (Doctolib.booking_request a) rp rest s)).
Proof.
  intros H Hdoc Hpid. unfold Doctolib.has_availability.
  unfold bind at 1. rewrite (go_page _ _ _ _ _ _ H Hdoc).
  unfold json_page. unfold bind at 1. cbn [gets page set_page].
  rewrite Hpid. reflexivity.
Qed.

Lemma get_profile_id_lacking doc :
  lacks_profile doc -> DoctorBookingPage.get_profile_id doc = Raise KeyError.
Proof.
  intros [fields [Hd Hp]]. unfold DoctorBookingPage.get_profile_id.
  rewrite Hd. cbn [rbind Py.getitem]. rewrite Hp. reflexivity.
Qed.

Lemma received_motive_id r rp rest s : motive_id (received r rp rest s) = motive_id s.
Proof. unfold received. destruct (rp_cookies rp); reflexivity. Qed.

(** X13: a poll ends with its first request when the booking page does
    not come or has no profile.  An error of the booking request leaves
    [has_availability] as it is; a page without [profile], whose id is
    only used in the debug log, makes it raise [KeyError].  In both
    cases no motive is asked for or set, and no availabilities request
    is sent. *)
Theorem X13_has_availability_needs_the_booking_page (fuel : nat) (a : args)
  (start : date) (s : store) (rp : reply) (rest : list reply) :
  replies s = rp :: rest ->
  let r := Doctolib.has_availability fuel a start s in
  ((forall e, rp_outcome rp = Raise e -> fst r = Exc e)
   /\ (forall doc, rp_outcome rp = Ok doc -> lacks_profile doc ->
         fst r = Exc KeyError))
  /\ ((exists e, rp_outcome rp = Raise e)
      \/ (exists doc, rp_outcome rp = Ok doc /\ lacks_profile doc) ->
      trace (snd r) = EvRequest (Doctolib.booking_request a) :: trace s /\
      replies (snd r) = rest /\ stdin (snd r) = stdin s /\
      motive_id (snd r) = motive_id s).
Proof.
  intros H r. subst r. split; [split|].
  - intros e He. rewrite (has_availability_not_fetched _ _ _ _ _ _ _ H He). reflexivity.
  - intros doc Hdoc Hno.
    rewrite (has_availability_no_profile _ _ _ _ _ _ _ _ H Hdoc
               (get_profile_id_lacking _ Hno)). reflexivity.
  - intros [[e He] | [doc [Hdoc Hno]]].
    + rewrite (has_availability_not_fetched _ _ _ _ _ _ _ H He). cbn [snd].
      rewrite received_trace, received_replies, received_stdin, received_motive_id.
      repeat split.
    + rewrite (has_availability_no_profile _ _ _ _ _ _ _ _ H Hdoc
                 (get_profile_id_lacking _ Hno)).
      cbn [snd trace replies stdin motive_id set_page].
      rewrite received_trace, received_replies, received_stdin, received_motive_id.
      repeat split.
Qed.

Lemma X13_witness_no_profile :
  let s := initial_store [page_reply ex_no_profile; page_reply JNull] ["0"] true in
  let r := Doctolib.has_availability 3 ex_args ex_start s in
  lacks_profile ex_no_profile /\
  fst r = Exc KeyError /\
  trace (snd r) = [EvRequest (Doctolib.booking_request ex_args)] /\
  replies (snd r) = [page_reply JNull] /\ stdin (snd r) = ["0"].
Proof.
  intros s r.
  assert (Hno : lacks_profile ex_no_profile).
  { exists [("places", JArr []); ("agendas", JArr []); ("visit_motives", JArr [])].
    split; reflexivity. }
  split; [exact Hno|].
  destruct (X13_has_availability_needs_the_booking_page 3 ex_args ex_start s
              (page_reply ex_no_profile) [page_reply JNull] eq_refl)
    as [[_ Hexc] Hstore].
  split; [exact (Hexc ex_no_profile eq_refl Hno)|].
  destruct (Hstore (or_intror (ex_intro _ ex_no_profile (conj eq_refl Hno))))
    as [H1 [H2 [H3 _]]].
  split; [exact H1|]. split; [exact H2 | exact H3].
Defined.

(** ** One poll, from the booking page to the answer *)

(** X14: one whole poll with the motive [m] set (on the command line or
    by an earlier poll): the booking page is asked for; then the chain
    of availabilities requests starts at the start date as [strftime]
    writes it (year-month-day) and follows the dates that the server
    names; each request carries the motive, the first practice id [q] of
    the page, the ids of the agendas of the page that list the motive,
    are not disabled and belong to that practice (to any practice when
    [q] is 0), joined by hyphens, and the constants [public], [true] and
    3.  The answer is the decision on the last page, and the replies
    after the chain stay. *)
Theorem X14_has_availability_queries (fuel : nat) (a : args) (start : date)
  (s : store) (b : booking) (q m : Z) (rp : reply) (links : list (reply * string))
  (last_rp : reply) (last : json) (rest : list reply) :
  replies s = (rp :: map fst links ++ last_rp :: rest)%list ->
  rp_outcome rp = Ok (booking_json b) ->
  first_practice b = Some q ->
  motive_id s = JInt m -> m <> 0 ->
  Forall (fun l => points_to (fst l) (snd l)) links ->
  rp_outcome last_rp = Ok last -> ends_chain last ->
  (List.length links < fuel)%nat ->
  let ags := map agenda_id_text (filter (qualifies m (Some q)) (bk_agendas b)) in
  let r := Doctolib.has_availability fuel a start s in
  requests_of (trace (snd r))
  = (requests_of (trace s)
     ++ Doctolib.booking_request a
        :: chain_requests (Doctolib.strftime_ymd start) (map snd links)
             (JInt m) ags (JInt q))%list
  /\ rq_params (Doctolib.availabilities_request (JStr (Doctolib.strftime_ymd start))
                  (JInt m) ags (JInt q))
     = [("start_date", JStr (Doctolib.strftime_ymd start));
        ("visit_motive_ids", JInt m);
        ("agenda_ids", JStr (String.concat "-" ags));
        ("insurance_sector", JStr "public");
        ("practice_ids", JInt q);
        ("destroy_temporary", JStr "true");
        ("limit", JInt 3)]
  /\ replies (snd r) = rest
  /\ fst r = outcome_of (decision last).
Proof.
  intros Hs Hdoc Hfirst Hm Hm0 Hlinks Hlast Hend Hfuel ags r. subst r.
  pose proof (get_practice_typed b) as Hq. rewrite Hfirst in Hq.
  assert (Hpid : DoctorBookingPage.get_profile_id (booking_json b)
                 = Ok (JInt (bk_profile b))) by reflexivity.
  rewrite (has_availability_fetched _ _ _ _ _ _ _ _ _ Hs Hdoc Hpid Hq).
  set (s1 := set_page (booking_json b)
               (received (Doctolib.booking_request a) rp
                  (map fst links ++ last_rp :: rest) s)).
  assert (Hm1 : motive_id s1 = JInt m).
  { unfold s1. cbn [motive_id set_page]. rewrite received_motive_id. exact Hm. }
  assert (Ht1 : trace s1 = EvRequest (Doctolib.booking_request a) :: trace s)
    by (unfold s1; cbn [trace set_page]; apply received_trace).
  assert (Hr1 : replies s1 = (map fst links ++ last_rp :: rest)%list)
    by (unfold s1; cbn [replies set_page]; apply received_replies).
  unfold Doctolib.poll_practice.
  rewrite (bind_Ret _ _ _ tt s1).
  2:{ apply resolve_motive_explicit. rewrite Hm1. cbn [Py.truthy].
      apply negb_true_iff. apply Z.eqb_neq. exact Hm0. }
  step. rewrite Hm1.
  change (JInt q) with (practice_arg (Some q)).
  rewrite get_agenda_ids_typed. fold ags. step.
  set (s2 := if debug a
             then emit (EvDebug [JInt (bk_profile b); practice_arg (Some q);
                                 JArr (map JStr ags)]) s1
             else s1).
  rewrite (bind_Ret _ _ _ tt s2) by (unfold s2; destruct (debug a); reflexivity).
  assert (Hr2 : replies s2 = (map fst links ++ last_rp :: rest)%list)
    by (unfold s2; destruct (debug a); exact Hr1).
  assert (Ht2 : requests_of (trace s2)
                = (requests_of (trace s) ++ [Doctolib.booking_request a])%list).
  { unfold s2. destruct (debug a); cbn [trace emit]; rewrite Ht1.
    - rewrite requests_of_output by exact I. apply requests_of_request.
    - apply requests_of_request. }
  destruct (follow_next_slot_chain links fuel (Doctolib.strftime_ymd start) (JInt m)
              ags (practice_arg (Some q)) s2 last_rp last rest
              Hlinks Hlast Hend Hr2 Hfuel) as [H1 [H2 [H3 H4]]].
  pose proof (poll_after_chain fuel (JStr (Doctolib.strftime_ymd start)) (JInt m) ags
                (practice_arg (Some q)) s2 H1) as Hp.
  rewrite H2 in Hp.
  split; [|split; [reflexivity|split]]; [| |exact Hp].
  all: unfold Doctolib.poll in *; unfold bind at 1.
  all: destruct (Doctolib.follow_next_slot fuel (JStr (Doctolib.strftime_ymd start))
                   (JInt m) ags (practice_arg (Some q)) s2)
      as [[[]| |] s3]; try discriminate.
  all: cbn [fst snd] in *; unfold bind at 1; cbn [gets].
  - destruct (decide_preserves (extends_by is_output)
                  (extends_by_output _ (fun e H => H)) (page s3) s3)
      as [evs [Ht HF]].
    rewrite Ht, requests_of_app, (requests_of_outputs _ HF), H4, requests_of_app,
      requests_of_requests, app_nil_r, Ht2, <- app_assoc. reflexivity.
  - rewrite <- H3.
    apply (decide_preserves (keeps replies) (fun _ _ _ => eq_refl) (page s3) s3).
Qed.

Lemma X14_witness_two_queries :
  let s := set_motive_id (JInt 5) ex_store in
  let r := Doctolib.has_availability 5 ex_args ex_start s in
  first_practice ex_booking = Some 42 /\ 5 <> 0 /\
  map agenda_id_text (filter (qualifies 5 (Some 42)) (bk_agendas ex_booking)) = ["100"] /\
  requests_of (trace (snd r))
  = [Doctolib.booking_request ex_args;
     Doctolib.availabilities_request (JStr "2024-01-01") (JInt 5) ["100"] (JInt 42);
     Doctolib.availabilities_request (JStr "2024-01-08") (JInt 5) ["100"] (JInt 42)] /\
  replies (snd r) = [] /\ fst r = Ret true.
Proof.
  intros s r.
  set (rp1 := page_reply (availabilities_json [] (Some (JStr "2024-01-08")) None)).
  assert (H1 : points_to rp1 "2024-01-08").
  { exists (availabilities_json [] (Some (JStr "2024-01-08")) None). repeat split. }
  assert (HF : Forall (fun l : reply * string => points_to (fst l) (snd l))
                      [(rp1, "2024-01-08")])
    by (constructor; [exact H1 | constructor]).
  assert (Hm0 : 5 <> 0) by discriminate.
  split; [reflexivity|]. split; [exact Hm0|]. split; [reflexivity|].
  destruct (X14_has_availability_queries 5 ex_args ex_start s ex_booking 42 5
              (page_reply (booking_json ex_booking)) [(rp1, "2024-01-08")]
              (page_reply (availabilities_json [[JStr "X"]] None None))
              (availabilities_json [[JStr "X"]] None None) []
              eq_refl eq_refl eq_refl eq_refl Hm0 HF eq_refl eq_refl
              (le_S _ _ (le_S _ _ (le_S _ _ (le_n 2)))))
    as [Hreq [_ [Hrep Hres]]].
  split; [exact Hreq|]. split; [exact Hrep | exact Hres].
Defined.

(** X15: the chain of a poll has no bound of its own and is not checked
    for repeated dates: as long as each page names a next slot, be it
    the date just asked, the next request follows at once, without a
    sleep and without the decision being reached. *)
Theorem X15_follow_next_slot_endless (links : list (reply * string))
  (d0 : string) (motive : json) (ags : list string) (practice : json)
  (s : store) (rest : list reply) :
  Forall (fun l => points_to (fst l) (snd l)) links ->
  replies s = (map fst links ++ rest)%list ->
  let n := List.length links in
  let r := Doctolib.follow_next_slot n (JStr d0) motive ags practice s in
  fst r = Running /\ replies (snd r) = rest /\
  trace (snd r)
  = (rev (map EvRequest (first_queries n d0 (map snd links) motive ags practice))
     ++ trace s)%list.
Proof.
  revert d0 s.
  induction links as [|[rp d] links IH];
    intros d0 s Hlinks Hs n r; subst n r.
  - repeat split. exact Hs.
  - cbn [map app fst List.length] in *.
    inversion Hlinks as [|? ? [doc [Hdoc [Hin Hget]]] Hrest]; subst.
    cbn [fst snd] in *.
    rewrite (follow_next_slot_step _ _ _ _ _ _ _ _ _ Hs Hdoc), Hin, Hget.
    match goal with
    | |- context [Doctolib.follow_next_slot _ (JStr d) motive ags practice ?s1] =>
        destruct (IH d s1 Hrest) as [H1 [H2 H3]];
          [cbn [replies set_page]; apply received_replies|]
    end.
    split; [exact H1|]. split; [exact H2|].
    rewrite H3. cbn [trace set_page]. rewrite received_trace.
    unfold first_queries, chain_requests. cbn [map firstn rev].
    rewrite <- !app_assoc. reflexivity.
Qed.

Lemma X15_witness_same_date :
  let s := initial_store [ex_same_date; ex_same_date; ex_same_date] [] true in
  let r := Doctolib.follow_next_slot 3 (JStr "2024-01-01") (JInt 5) ["100"] (JInt 42) s in
  points_to ex_same_date "2024-01-01" /\
  fst r = Running /\ replies (snd r) = [] /\
  trace (snd r)
  = repeat (EvRequest (Doctolib.availabilities_request (JStr "2024-01-01") (JInt 5)
                         ["100"] (JInt 42))) 3.
Proof.
  intros s r.
  assert (H : points_to ex_same_date "2024-01-01").
  { exists (availabilities_json [] (Some (JStr "2024-01-01")) None). repeat split. }
  split; [exact H|].
  assert (HF : Forall (fun l : reply * string => points_to (fst l) (snd l))
                      [(ex_same_date, "2024-01-01"); (ex_same_date, "2024-01-01");
                       (ex_same_date, "2024-01-01")])
    by (repeat constructor; exact H).
  exact (X15_follow_next_slot_endless _ "2024-01-01" (JInt 5) ["100"] (JInt 42) s []
           HF eq_refl).
Defined.

(** ** The state file at the start of [main] *)

Lemma loads_opens_no_value (text : string) :
  opens_no_value text = true -> Json.loads text = None.
Proof.
  unfold opens_no_value, Json.loads. cbn [Json.loads_value].
  destruct (Json.skip_ws text) as [|c rest]; [reflexivity|].
  intros H. apply negb_true_iff in H.
  cbn [PyText.has_char] in H. rewrite !orb_false_iff in H.
  destruct H as [[Hq Hd] [Hb [Ho [Hm [Ht [Hf [Hn _]]]]]]].
  rewrite Hq, Hb, Ho, Hm, Hd. cbn [Json.drop_prefix].
  rewrite (Ascii.eqb_sym "n"), (Ascii.eqb_sym "t"), (Ascii.eqb_sym "f"), Hn, Ht, Hf.
  reflexivity.
Qed.

Lemma load_state_unreadable (s : store) (text : string) :
  state_file s = Some text -> Json.loads text = None ->
  Application.load_state s = (Exc ValueError, s).
Proof.
  intros Hf Hl. unfold Application.load_state, bind, gets. rewrite Hf, Hl. reflexivity.
Qed.

Lemma load_state_read (s : store) (text : string) (state : json) :
  state_file s = Some text -> Json.loads text = Some state ->
  Application.load_state s = (Ret state, s).
Proof.
  intros Hf Hl. unfold Application.load_state, bind, gets. rewrite Hf, Hl. reflexivity.
Qed.

Lemma load_state_refused (state : json) (s : store) :
  is_object state = false ->
  Doctolib.load_state state s = (Exc AttributeError, s).
Proof. destruct state; try discriminate; reflexivity. Qed.

(** X16: a state file that cannot be taken back ends [main] before the
    [try], so that nothing is asked, printed or written, and the file is
    left as it is.  A file that is blank or starts with what opens no
    JSON value (a file emptied by a crash, or overwritten) raises
    [ValueError]; a file that holds a JSON value other than an object (a
    list, a string, a number, [null]) raises [AttributeError]. *)
Theorem X16_main_unreadable_state (fuel : nat) (a : args) (s : store) (text : string) :
  state_file s = Some text ->
  let r := Application.main fuel a s in
  (opens_no_value text = true -> fst r = Exc ValueError /\ untouched s (snd r))
  /\ (forall state,
        Json.loads text = Some state -> within_limits state = true ->
        is_object state = false ->
        fst r = Exc AttributeError /\ untouched s (snd r)).
Proof.
  intros Hf r. subst r. unfold Application.main. step. step. step. split.
  - intros Hno.
    erewrite bind_Exc
      by (apply (load_state_unreadable _ text);
          [exact Hf | apply loads_opens_no_value; exact Hno]).
    repeat split.
  - intros state Hl _ Hobj.
    erewrite bind_Ret by (apply (load_state_read _ text state); [exact Hf | exact Hl]).
    erewrite bind_Exc by (apply load_state_refused; exact Hobj).
    repeat split.
Qed.

Lemma X16_witness_emptied :
  let s := set_state_file (Some "") ex_logged_in in
  let r := Application.main 3 ex_args s in
  state_file s = Some "" /\ opens_no_value "" = true /\
  fst r = Exc ValueError /\ untouched s (snd r).
Proof.
  intros s r. split; [reflexivity|]. split; [reflexivity|].
  exact (proj1 (X16_main_unreadable_state 3 ex_args s "" eq_refl) eq_refl).
Defined.

(** ** The patient of the run *)

Lemma run_parts (fuel : nat) (a : args) :
  Application.run fuel a
  = (logged <- Doctolib.do_login a ;;
     if negb logged then ret 1 else Application.once_logged_in fuel a).
Proof. reflexivity. Qed.

Lemma run_logged_in fuel a s s1 :
  Doctolib.do_login a s = (Ret true, s1) ->
  Application.run fuel a s = Application.once_logged_in fuel a s1.
Proof. intros H. rewrite run_parts. rewrite (bind_Ret _ _ _ _ _ H). reflexivity. Qed.

Lemma get_patients_page s rp rest doc :
  replies s = rp :: rest -> rp_outcome rp = Ok doc ->
  Doctolib.get_patients s
  = (Ret doc, set_page doc (received master_patients rp rest s)).
Proof.
  intros H Hdoc. unfold Doctolib.get_patients.
  rewrite (bind_Ret _ _ _ _ _ (go_page _ json_page _ _ _ _ H Hdoc)). reflexivity.
Qed.

Lemma run_sole_patient fuel a s s1 rp rest p :
  Doctolib.do_login a s = (Ret true, s1) ->
  replies s1 = rp :: rest -> rp_outcome rp = Ok (JArr [p]) ->
  Application.run fuel a s
  = Application.from_start_date fuel a
      (set_patient p (set_page (JArr [p]) (received master_patients rp rest s1))).
Proof.
  intros Hlogin Hrep Hdoc. rewrite (run_logged_in _ _ _ _ Hlogin).
  unfold Application.once_logged_in.
  rewrite (bind_Ret _ _ _ _ _ (get_patients_page _ _ _ _ Hrep Hdoc)). reflexivity.
Qed.

(** X17: after a login, the patients are asked for.  With none (an
    empty list), the run prints its advice and returns 1 at once: no
    booking page is asked for.  With exactly one, that one is the
    patient of the run, whatever it holds, without a listing, a prompt
    or a line read, and the run goes on with the start date. *)
Theorem X17_run_zero_or_one_patient (fuel : nat) (a : args) (s s1 : store)
  (rp : reply) (rest : list reply) (patients : json) :
  Doctolib.do_login a s = (Ret true, s1) ->
  replies s1 = rp :: rest -> rp_outcome rp = Ok patients ->
  let s2 := set_page patients (received master_patients rp rest s1) in
  (Py.len patients = Ok 0 ->
   Application.run fuel a s = (Ret 1, emit no_patient s2))
  /\ (forall p, patients = JArr [p] ->
        Application.run fuel a s
        = Application.from_start_date fuel a (set_patient p s2)).
Proof.
  intros Hlogin Hrep Hdoc s2. split.
  - intros Hlen. rewrite (run_logged_in _ _ _ _ Hlogin).
    unfold Application.once_logged_in.
    rewrite (bind_Ret _ _ _ _ _ (get_patients_page _ _ _ _ Hrep Hdoc)).
    fold s2. rewrite Hlen. reflexivity.
  - intros p ->. apply (run_sole_patient _ _ _ _ _ _ _ Hlogin Hrep Hdoc).
Qed.

Lemma X17_witness_no_patient :
  let r := Application.run 3 ex_args ex_no_patient in
  Py.len (JArr []) = Ok 0 /\
  fst r = Ret 1 /\
  trace (snd r)
  = [no_patient; EvRequest master_patients;
     EvRequest (Doctolib.login_request ex_args); EvRequest sessions_new] /\
  replies (snd r) = [page_reply (booking_json ex_booking)] /\ stdin (snd r) = ["0"].
Proof.
  intros r. split; [reflexivity|].
  pose proof (proj1 (X17_run_zero_or_one_patient 3 ex_args ex_no_patient
                       (snd (Doctolib.do_login ex_args ex_no_patient))
                       (page_reply (JArr []))
                       [page_reply (booking_json ex_booking)] (JArr [])
                       eq_refl eq_refl eq_refl) eq_refl) as H.
  subst r. rewrite H. repeat split.
Defined.

Lemma ask_patient_round fuel ps s line rest :
  stdin s = line :: rest ->
  Application.ask_patient (S fuel) ps s
  = match rbind (PyText.int (PyText.strip line)) (Py.index ps) with
    | Ok p => (Ret tt, set_patient p (set_stdin rest (emit patient_prompt s)))
    | Raise e =>
        if Doctolib.is_Value_or_IndexError e
        then Application.ask_patient fuel ps (set_stdin rest (emit patient_prompt s))
        else (Exc e, set_stdin rest (emit patient_prompt s))
    end.
Proof.
  intros H. cbn [Application.ask_patient].
  rewrite (bind_Ret _ _ _ tt (emit patient_prompt s)) by reflexivity.
  rewrite (bind_Ret _ _ _ line (set_stdin rest (emit patient_prompt s)))
    by (apply readline_line; exact H).
  unfold try_except, bind, lift, modify, ret, raise.
  destruct (PyText.int (PyText.strip line)) as [i|e]; cbn [rbind].
  - destruct (Py.index ps i) as [p|e]; [reflexivity|].
    destruct (Doctolib.is_Value_or_IndexError e); reflexivity.
  - destruct (Doctolib.is_Value_or_IndexError e); reflexivity.
Qed.

Lemma ask_patient_round_eof fuel ps s :
  stdin s = [] ->
  Application.ask_patient (S fuel) ps s
  = Application.ask_patient fuel ps (emit patient_prompt s).
Proof.
  intros H. cbn [Application.ask_patient].
  rewrite (bind_Ret _ _ _ tt (emit patient_prompt s)) by reflexivity.
  rewrite (bind_Ret _ _ _ "" (emit patient_prompt s))
    by (apply readline_eof; exact H).
  reflexivity.
Qed.

Lemma nth_index_from_end {A} (xs : list A) (i : Z) :
  - Z.of_nat (List.length xs) <= i < 0 ->
  Py.nth_index xs i = nth_error xs (Z.to_nat (Z.of_nat (List.length xs) + i)).
Proof.
  intros H. unfold Py.nth_index.
  destruct (Z.leb_spec 0 i); [lia|]. cbn [andb].
  destruct (Z.leb_spec (- Z.of_nat (List.length xs)) i), (Z.ltb_spec i 0);
    try lia. reflexivity.
Qed.

Lemma index_rejected {A} (f : A -> json) (xs : list A) (line : string) :
  rejects (Z.of_nat (List.length xs)) line = true ->
  exists e, rbind (PyText.int (PyText.strip line)) (Py.index (JArr (map f xs)))
            = Raise e /\
            Doctolib.is_Value_or_IndexError e = true.
Proof.
  unfold rejects. intros H.
  destruct (PyText.int (PyText.strip line)) as [i|e] eqn:Hint; cbn [rbind].
  - exists IndexError. split; [|reflexivity]. cbn [Py.index].
    rewrite nth_index_out_of_range; [reflexivity|].
    rewrite length_map. apply orb_true_iff in H. destruct H as [H|H].
    + left. apply Z.leb_le. exact H.
    + right. apply Z.ltb_lt. exact H.
  - exists e. split; [reflexivity|].
    rewrite (int_raises_ValueError _ _ Hint). reflexivity.
Qed.

Lemma index_selected {A} (f : A -> json) (xs : list A) (line : string) (k : nat) (x : A) :
  selects (Z.of_nat (List.length xs)) line = Some k -> nth_error xs k = Some x ->
  rbind (PyText.int (PyText.strip line)) (Py.index (JArr (map f xs))) = Ok (f x).
Proof.
  unfold selects. intros H Hx.
  destruct (PyText.int (PyText.strip line)) as [i|e]; [|discriminate].
  cbn [rbind Py.index].
  destruct ((0 <=? i) && (i <? Z.of_nat (List.length xs))) eqn:Hi.
  - injection H as <-. apply andb_true_iff in Hi. destruct Hi as [H0 H1].
    apply Z.leb_le in H0. apply Z.ltb_lt in H1.
    rewrite nth_index_in_range by (rewrite length_map; lia).
    rewrite nth_error_map, Hx. reflexivity.
  - destruct ((- Z.of_nat (List.length xs) <=? i) && (i <? 0)) eqn:Hn; [|discriminate].
    injection H as <-. apply andb_true_iff in Hn. destruct Hn as [H0 H1].
    apply Z.leb_le in H0. apply Z.ltb_lt in H1.
    rewrite nth_index_from_end by (rewrite length_map; lia).
    rewrite length_map, nth_error_map, Hx. reflexivity.
Qed.

Lemma ask_patient_selects (ps : list person) (bad : list string) :
  forall (fuel : nat) (s : store) (line : string) (rest : list string)
         (k : nat) (p : person),
    stdin s = (bad ++ line :: rest)%list ->
    forallb (rejects (Z.of_nat (List.length ps))) bad = true ->
    selects (Z.of_nat (List.length ps)) line = Some k -> nth_error ps k = Some p ->
    (List.length bad < fuel)%nat ->
    let r := Application.ask_patient fuel (JArr (map person_json ps)) s in
    fst r = Ret tt /\ patient (snd r) = person_json p /\ stdin (snd r) = rest /\
    trace (snd r) = (repeat patient_prompt (S (List.length bad)) ++ trace s)%list.
Proof.
  induction bad as [|b bad IH]; intros fuel s line rest k p Hs Hbad Hk Hp Hfuel r;
    subst r; (destruct fuel as [|fuel]; [inversion Hfuel|]).
  - rewrite (ask_patient_round _ _ _ _ _ Hs), (index_selected _ _ _ _ _ Hk Hp).
    repeat split.
  - cbn [forallb] in Hbad. apply andb_true_iff in Hbad. destruct Hbad as [Hb Hbad].
    rewrite (ask_patient_round _ _ _ _ _ Hs).
    destruct (index_rejected person_json _ _ Hb) as [e [-> ->]].
    match goal with
    | |- context [Application.ask_patient fuel _ ?s1] =>
        destruct (IH fuel s1 line rest k p eq_refl Hbad Hk Hp
                    ltac:(cbn [List.length] in Hfuel; lia))
          as [H1 [H2 [H3 H4]]]
    end.
    repeat split; try assumption.
    rewrite H4. cbn [trace set_stdin emit List.length].
    change (patient_prompt :: trace s) with ([patient_prompt] ++ trace s)%list.
    rewrite app_assoc, <- repeat_cons. reflexivity.
Qed.

Lemma ask_patient_never_selects (ps : list person) (bad : list string) :
  forall (fuel : nat) (s : store),
    stdin s = bad ->
    forallb (rejects (Z.of_nat (List.length ps))) bad = true ->
    let r := Application.ask_patient fuel (JArr (map person_json ps)) s in
    fst r = Running /\ patient (snd r) = patient s /\
    trace (snd r) = (repeat patient_prompt fuel ++ trace s)%list.
Proof.
  induction bad as [|b bad IH]; intros fuel s Hs Hbad r; subst r.
  - revert s Hs. induction fuel as [|fuel IHf]; intros s Hs; [repeat split|].
    rewrite (ask_patient_round_eof _ _ _ Hs).
    destruct (IHf (emit patient_prompt s) Hs) as [H1 [H2 H3]].
    repeat split; try assumption. rewrite H3. cbn [trace emit].
    change (patient_prompt :: trace s) with ([patient_prompt] ++ trace s)%list.
    rewrite app_assoc, <- repeat_cons. reflexivity.
  - destruct fuel as [|fuel]; [repeat split|].
    cbn [forallb] in Hbad. apply andb_true_iff in Hbad. destruct Hbad as [Hb Hbad].
    rewrite (ask_patient_round _ _ _ _ _ Hs).
    destruct (index_rejected person_json _ _ Hb) as [e [-> ->]].
    destruct (IH fuel (set_stdin bad (emit patient_prompt s)) eq_refl Hbad)
      as [H1 [H2 H3]].
    repeat split; try assumption. rewrite H3. cbn [trace set_stdin emit].
    change (patient_prompt :: trace s) with ([patient_prompt] ++ trace s)%list.
    rewrite app_assoc, <- repeat_cons. reflexivity.
Qed.

Lemma emit_all_patient evs s : patient (emit_all evs s) = patient s.
Proof.
  revert s. induction evs as [|e evs IH]; intros s; [reflexivity|].
  cbn [emit_all fold_left]. fold (emit_all evs (emit e s)). now rewrite IH.
Qed.

Lemma print_patients_typed (ps : list person) :
  forall i s,
    Application.print_patients i (map person_json ps) s
    = (Ret tt, emit_all (patient_lines i ps) s).
Proof.
  induction ps as [|p ps IH]; intros i s; [reflexivity|].
  cbn [map Application.print_patients patient_lines emit_all fold_left].
  erewrite bind_Ret by reflexivity.
  erewrite bind_Ret by reflexivity.
  apply IH.
Qed.

Lemma choose_patient_several (fuel : nat) (p1 p2 : person) (ps : list person) (s : store) :
  Application.choose_patient fuel (JArr (map person_json (p1 :: p2 :: ps)))
    (Z.of_nat (List.length (p1 :: p2 :: ps))) s
  = Application.ask_patient fuel (JArr (map person_json (p1 :: p2 :: ps)))
      (emit_all (patient_listing (p1 :: p2 :: ps)) s).
Proof.
  unfold Application.choose_patient.
  replace (Z.of_nat (List.length (p1 :: p2 :: ps)) >? 1) with true
    by (symmetry; apply Z.gtb_lt; cbn [List.length]; lia).
  step. step. rewrite (bind_Ret _ _ _ _ _ (print_patients_typed _ _ _)).
  reflexivity.
Qed.

(** X18: with [n >= 2] patients, each with its two names, the patients
    are listed with their indices and the operator is asked.  Every line
    that is no integer (as [int] reads them: a numeral of more than 4300
    digits is none), or an index of [n] or more, or one below [-n], is
    answered by the prompt again, without failing and without a
    choice; the first line with an index from 0 to [n - 1], or from
    [-n] to -1 (which counts from the end), makes that entry the patient
    of the run.  When no line of the input does, the input at its end
    included, the prompt goes on for good. *)
Theorem X18_choose_patient_among_several (fuel : nat) (ps : list person) (s : store) :
  (2 <= List.length ps)%nat ->
  let n := Z.of_nat (List.length ps) in
  let r := Application.choose_patient fuel (JArr (map person_json ps)) n s in
  (forall bad line rest k p,
      stdin s = (bad ++ line :: rest)%list ->
      forallb (rejects n) bad = true ->
      selects n line = Some k -> nth_error ps k = Some p ->
      (List.length bad < fuel)%nat ->
      fst r = Ret tt /\ patient (snd r) = person_json p /\ stdin (snd r) = rest /\
      trace (snd r)
      = (repeat patient_prompt (S (List.length bad))
         ++ rev (patient_listing ps) ++ trace s)%list)
  /\ (forallb (rejects n) (stdin s) = true ->
      fst r = Running /\ patient (snd r) = patient s /\
      trace (snd r)
      = (repeat patient_prompt fuel ++ rev (patient_listing ps) ++ trace s)%list).
Proof.
  intros Hn n r. subst n r.
  destruct ps as [|p1 [|p2 ps]]; cbn [List.length] in Hn; try lia.
  rewrite choose_patient_several. split.
  - intros bad line rest k p Hs Hbad Hk Hp Hfuel.
    destruct (ask_patient_selects (p1 :: p2 :: ps) bad fuel
                (emit_all (patient_listing (p1 :: p2 :: ps)) s) line rest k p)
      as [H1 [H2 [H3 H4]]]; try assumption.
    { rewrite emit_all_stdin. exact Hs. }
    repeat split; try assumption.
    rewrite H4, emit_all_trace. reflexivity.
  - intros Hbad.
    destruct (ask_patient_never_selects (p1 :: p2 :: ps) (stdin s) fuel
                (emit_all (patient_listing (p1 :: p2 :: ps)) s))
      as [H1 [H2 H3]]; try assumption.
    { apply emit_all_stdin. }
    split; [assumption|]. split.
    + rewrite H2. apply emit_all_patient.
    + rewrite H3, emit_all_trace. reflexivity.
Qed.

Lemma X18_witness_last_patient :
  let s := initial_store [] ["x"; "2"; "-1"; "0"] true in
  let r := Application.choose_patient 5 (JArr (map person_json ex_two_patients)) 2 s in
  (2 <= List.length ex_two_patients)%nat /\
  forallb (rejects 2) ["x"; "2"] = true /\ selects 2 "-1" = Some 1%nat /\
  fst r = Ret tt /\
  patient (snd r) = person_json (mk_person "Alan" "Turing" []) /\
  stdin (snd r) = ["0"] /\
  trace (snd r)
  = (repeat patient_prompt 3 ++ rev (patient_listing ex_two_patients))%list.
Proof.
  intros s r. split; [apply le_n|]. split; [reflexivity|]. split; [reflexivity|].
  destruct (X18_choose_patient_among_several 5 ex_two_patients s (le_n 2))
    as [Hsel _].
  exact (Hsel ["x"; "2"] "-1" ["0"] 1%nat (mk_person "Alan" "Turing" [])
           eq_refl eq_refl eq_refl eq_refl
           (le_S _ _ (le_S _ _ (le_n 3)))).
Defined.

(** ** The start date *)

(** X21: a start date that is no date is found out late: only after the
    login and the choice of the patient does the run return 1.  By then
    the login requests and the request for the patients are out; the
    booking page of the doctor is never asked for. *)
Theorem X21_run_invalid_start_date (fuel : nat) (a : args) (s s1 : store)
  (rp : reply) (rest : list reply) (p : json) (text : string) :
  Doctolib.do_login a s = (Ret true, s1) ->
  replies s1 = rp :: rest -> rp_outcome rp = Ok (JArr [p]) ->
  start_date a = Some text -> text <> "" ->
  Application.strptime_dmy text = None ->
  let r := Application.run fuel a s in
  fst r = Ret 1 /\
  requests_of (trace (snd r)) = (requests_of (trace s1) ++ [master_patients])%list /\
  replies (snd r) = rest /\ patient (snd r) = p.
Proof.
  intros Hlogin Hrep Hdoc Hsd Hne Hno r. subst r.
  rewrite (run_sole_patient _ _ _ _ _ _ _ Hlogin Hrep Hdoc).
  unfold Application.from_start_date. rewrite Hsd.
  replace (String.eqb text "") with false
    by (symmetry; apply String.eqb_neq; exact Hne).
  cbn [negb]. unfold Application.strptime_dmy in Hno.
  destruct (Application.strptime text) as [message|d]; [|discriminate].
  cbn -[requests_of].
  rewrite received_trace, received_replies. requests. repeat split.
Qed.

Lemma X21_witness_iso_date :
  let r := Application.run 3 ex_bad_date ex_bad_date_store in
  "2024-01-01" <> "" /\ Application.strptime_dmy "2024-01-01" = None /\
  fst r = Ret 1 /\
  requests_of (trace (snd r))
  = [sessions_new; Doctolib.login_request ex_bad_date; master_patients] /\
  replies (snd r) = [page_reply (booking_json ex_booking)] /\
  patient (snd r) = ex_sole_patient.
Proof.
  intros r.
  assert (Hne : "2024-01-01" <> "") by discriminate.
  split; [exact Hne|]. split; [reflexivity|].
  exact (X21_run_invalid_start_date 3 ex_bad_date ex_bad_date_store
           (snd (Doctolib.do_login ex_bad_date ex_bad_date_store))
           (page_reply (JArr [ex_sole_patient]))
           [page_reply (booking_json ex_booking)] ex_sole_patient "2024-01-01"
           eq_refl eq_refl eq_refl eq_refl Hne eq_refl).
Defined.

(** The line that is printed for a start date in the ISO form. *)
Lemma invalid_date_message :
  hd_error (trace (snd (Application.run 3 ex_bad_date ex_bad_date_store)))
  = Some (EvPrint "Invalid value for --start-date: time data '2024-01-01' does not match format '%d/%m/%Y'").
Proof. reflexivity. Qed.

(** ** What each part of the run may do

    For a property [P] of events that holds of every prompt and message:
    each part of the run only adds events with [P] as soon as its own
    requests, its sleep and its bell have [P]. *)

Section Talks.

Context (P : event -> Prop).
Hypothesis P_output : forall e, is_output e -> P e.

Let P_emit : forall e s, is_output e -> extends_by P s (emit e s).
Proof. intros e s H. apply extends_by_emit. auto. Qed.

Let P_stdin : forall x s, extends_by P s (set_stdin x s).
Proof. intros x s. apply extends_by_same. reflexivity. Qed.

Lemma transfer_talks r : P (EvRequest r) -> preserves (extends_by P) (transfer r).
Proof. intros H. unfold transfer. pres. Qed.

Lemma go_talks r build : P (EvRequest r) -> preserves (extends_by P) (go r build).
Proof. intros H. unfold go. pres. now apply transfer_talks. Qed.

Lemma print_talks t : preserves (extends_by P) (print t).
Proof. apply (print_preserves _ P_emit). Qed.

Lemma log_talks t a c : preserves (extends_by P) (log t a c).
Proof. apply (log_preserves _ P_emit). Qed.

Lemma resolve_motive_talks fuel doc :
  preserves (extends_by P) (Doctolib.resolve_motive fuel doc).
Proof.
  apply resolve_motive_preserves; try typeclasses eauto;
    try (intros; apply extends_by_same; reflexivity).
  exact P_emit.
Qed.

Lemma follow_next_slot_talks fuel date motive ags practice :
  (forall r, asks_availabilities r -> P (EvRequest r)) ->
  preserves (extends_by P) (Doctolib.follow_next_slot fuel date motive ags practice).
Proof.
  intros Hav. revert date. induction fuel as [|fuel IH]; intros date;
    destruct date; cbn [Doctolib.follow_next_slot]; pres;
    first [apply IH | apply go_talks; apply Hav; repeat eexists].
Qed.

Lemma poll_practice_talks fuel a start page doc pid practice :
  (forall r, asks_availabilities r -> P (EvRequest r)) ->
  preserves (extends_by P) (Doctolib.poll_practice fuel a start page doc pid practice).
Proof.
  intros Hav. unfold Doctolib.poll_practice, Doctolib.poll. pres.
  - apply resolve_motive_talks.
  - now apply follow_next_slot_talks.
  - apply (decide_preserves _ P_emit).
Qed.

Lemma has_availability_talks fuel a start :
  P (EvRequest (Doctolib.booking_request a)) ->
  (forall r, asks_availabilities r -> P (EvRequest r)) ->
  preserves (extends_by P) (Doctolib.has_availability fuel a start).
Proof.
  intros Hb Hav. unfold Doctolib.has_availability. pres.
  - now apply go_talks.
  - now apply poll_practice_talks.
Qed.

Lemma sleep_talks n : P (EvSleep n) -> preserves (extends_by P) (sleep n).
Proof. intros H. unfold sleep. pres. Qed.

Lemma ring_talks rounds :
  P (EvPlaysound "ding.mp3") -> P (EvSleep 5) ->
  preserves (extends_by P) (Application.ring rounds).
Proof.
  intros Hd Hs. induction rounds as [|rounds IH]; cbn [Application.ring]; pres.
  - unfold playsound. pres.
  - now apply sleep_talks.
Qed.

Lemma wait_for_slot_talks rounds fuel a start :
  P (EvRequest (Doctolib.booking_request a)) ->
  (forall r, asks_availabilities r -> P (EvRequest r)) ->
  P (EvSleep 5) ->
  preserves (extends_by P) (Application.wait_for_slot rounds fuel a start).
Proof.
  intros Hb Hav Hs.
  induction rounds as [|rounds IH]; cbn [Application.wait_for_slot]; pres.
  - now apply has_availability_talks.
  - now apply sleep_talks.
Qed.

Lemma print_patients_talks i ps :
  preserves (extends_by P) (Application.print_patients i ps).
Proof.
  revert i. induction ps as [|p ps IH]; intros i;
    cbn [Application.print_patients]; pres; first [apply IH | apply print_talks].
Qed.

Lemma ask_patient_talks fuel ps :
  preserves (extends_by P) (Application.ask_patient fuel ps).
Proof.
  induction fuel as [|fuel IH]; cbn [Application.ask_patient]; pres;
    first [apply print_talks | apply (readline_preserves _ P_stdin)].
Qed.

Lemma look_for_slots_talks fuel a start :
  P (EvRequest (Doctolib.booking_request a)) ->
  (forall r, asks_availabilities r -> P (EvRequest r)) ->
  P (EvSleep 5) -> P (EvPlaysound "ding.mp3") ->
  preserves (extends_by P) (Application.look_for_slots fuel a start).
Proof.
  intros Hb Hav Hs Hd. unfold Application.look_for_slots. pres.
  - apply log_talks.
  - now apply wait_for_slot_talks.
  - now apply ring_talks.
Qed.

End Talks.

Lemma in_poll_output e : is_output e -> in_poll e.
Proof. destruct e; simpl; tauto. Qed.

Lemma reads_output a e : is_output e -> reads a e.
Proof. destruct e; simpl; tauto. Qed.

Lemma booking_asks_no_availabilities a :
  ~ asks_availabilities (Doctolib.booking_request a).
Proof.
  intros [date [motive [ags [practice H]]]].
  unfold Doctolib.booking_request, Doctolib.availabilities_request, Doctolib.get in H.
  discriminate H.
Qed.

(** ** The first loop: one poll every five seconds *)

Lemma sleep_nap n s :
  sleep n s
  = match sleeps s with
    | [] => (Ret tt, emit (EvSleep n) s)
    | true :: naps => (Exc KeyboardInterrupt, set_sleeps naps (emit (EvSleep n) s))
    | false :: naps => (Ret tt, set_sleeps naps (emit (EvSleep n) s))
    end.
Proof.
  unfold sleep, bind, modify, gets. cbn.
  destruct (sleeps s) as [|[|] naps]; reflexivity.
Qed.

Lemma has_availability_events fuel a start s :
  exists evs,
    trace (snd (Doctolib.has_availability fuel a start s))
    = (evs ++ EvRequest (Doctolib.booking_request a) :: trace s)%list /\
    Forall in_poll evs.
Proof.
  unfold Doctolib.has_availability. unfold bind at 1.
  pose proof (go_trace (Doctolib.booking_request a) json_page s) as Hgo.
  destruct (go (Doctolib.booking_request a) json_page s) as [[doctor_page| |] s1];
    cbn [snd] in *; try (exists []; split; [exact Hgo | constructor]).
  assert (H : preserves (extends_by in_poll)
                (doc <- gets page ;;
                 profile_id <- lift (DoctorBookingPage.get_profile_id doc) ;;
                 practice_id <- lift (DoctorBookingPage.get_practice doc) ;;
                 Doctolib.poll_practice fuel a start doctor_page doc profile_id
                   practice_id)).
  { pres. apply poll_practice_talks; [exact in_poll_output | auto]. }
  destruct (H s1) as [evs [Ht HF]].
  exists evs. split; [|exact HF]. rewrite Ht, Hgo. reflexivity.
Qed.

(** X22: the first loop of [main], whatever the server answers and
    however it ends.  Its events, in the order they happen, are polls
    that each start with the request for the booking page and go on
    with availabilities requests, prompts and messages only; between
    two polls there is exactly one sleep of five seconds, and there is
    no other sleep.  (The request for the booking page is none of the
    availabilities requests.) *)
Theorem X22_wait_for_slot_paced (rounds fuel : nat) (a : args) (start : date)
  (s : store) :
  (exists evs,
      trace (snd (Application.wait_for_slot rounds fuel a start s))
      = (rev evs ++ trace s)%list /\
      paced a evs)
  /\ ~ asks_availabilities (Doctolib.booking_request a).
Proof.
  split; [|apply booking_asks_no_availabilities].
  revert s. induction rounds as [|rounds IH]; intros s.
  - exists []. split; [reflexivity | constructor].
  - cbn [Application.wait_for_slot]. unfold bind at 1.
    destruct (has_availability_events fuel a start s) as [evs [Ht HF]].
    destruct (Doctolib.has_availability fuel a start s) as [[[|]|e|] s1];
      cbn [snd] in Ht.
    1,3,4: exists (EvRequest (Doctolib.booking_request a) :: rev evs);
      (split; [cbn [snd rev]; rewrite rev_involutive, <- app_assoc; exact Ht
              | apply paced_last; apply Forall_rev; exact HF]).
    unfold bind at 1. rewrite sleep_nap.
    destruct (sleeps s1) as [|[|] naps].
    + destruct (IH (emit (EvSleep 5) s1)) as [later [Hl Hp]].
      exists (EvRequest (Doctolib.booking_request a) :: rev evs ++ EvSleep 5 :: later).
      split; [|apply paced_sleep; [apply Forall_rev; exact HF | exact Hp]].
      rewrite Hl. cbn [trace emit rev]. rewrite Ht.
      rewrite rev_app_distr. cbn [rev]. rewrite rev_involutive, <- !app_assoc.
      reflexivity.
    + exists (EvRequest (Doctolib.booking_request a) :: rev evs ++ EvSleep 5 :: []).
      split; [|apply paced_sleep; [apply Forall_rev; exact HF | constructor]].
      cbn [snd trace emit set_sleeps rev]. rewrite Ht.
      rewrite rev_app_distr. cbn [rev]. rewrite rev_involutive, <- !app_assoc.
      reflexivity.
    + destruct (IH (set_sleeps naps (emit (EvSleep 5) s1))) as [later [Hl Hp]].
      exists (EvRequest (Doctolib.booking_request a) :: rev evs ++ EvSleep 5 :: later).
      split; [|apply paced_sleep; [apply Forall_rev; exact HF | exact Hp]].
      rewrite Hl. cbn [trace emit set_sleeps rev]. rewrite Ht.
      rewrite rev_app_distr. cbn [rev]. rewrite rev_involutive, <- !app_assoc.
      reflexivity.
Qed.

(** ** The second loop: the bell *)

Lemma playsound_plays file s :
  playsound file s
  = let s1 := emit (EvPlaysound file) s in
    match sounds s with
    | [] => (Ret tt, s1)
    | None :: rest => (Ret tt, set_sounds rest s1)
    | Some e :: rest =>
        if has_playsound s && is_playsound_error e
        then (Ret tt, set_sounds rest s1)
        else (Exc e, set_sounds rest s1)
    end.
Proof.
  unfold playsound, bind, modify, gets. cbn.
  destruct (sounds s) as [|[e|] rest]; try reflexivity.
  cbn. destruct (has_playsound s && is_playsound_error e); reflexivity.
Qed.

Lemma ring_outcome rounds s v : fst (Application.ring rounds s) <> Ret v.
Proof.
  revert s. induction rounds as [|rounds IH]; intros s; [discriminate|].
  cbn [Application.ring]. unfold bind.
  destruct (playsound "ding.mp3" s) as [[u|e|] s1]; try discriminate.
  destruct (sleep 5 s1) as [[u'|e|] s2]; try discriminate.
  apply IH.
Qed.

Lemma ends_bell_later (s s' : store) (e : exn) :
  incl (sleeps s') (sleeps s) -> incl (sounds s') (sounds s) ->
  has_playsound s' = has_playsound s ->
  ends_bell s' e -> ends_bell s e.
Proof.
  unfold ends_bell. intros Hn Hp Hh [[-> Hi]|[Hi Hd]]; [left | right]; split; auto.
  rewrite <- Hh. exact Hd.
Qed.

Lemma ring_ends rounds s e :
  fst (Application.ring rounds s) = Exc e -> ends_bell s e.
Proof.
  revert s. induction rounds as [|rounds IH]; intros s; [discriminate|].
  cbn [Application.ring]. unfold bind at 1. rewrite playsound_plays. cbv zeta.
  set (s1 := emit (EvPlaysound "ding.mp3") s).
  assert (Hnap : forall s2 : store,
             sleeps s2 = sleeps s -> incl (sounds s2) (sounds s) ->
             has_playsound s2 = has_playsound s ->
             fst ((sleep 5 ;; Application.ring rounds) s2) = Exc e -> ends_bell s e).
  { intros s2 Hn Hp Hh. unfold bind. rewrite sleep_nap.
    destruct (sleeps s2) as [|[|] naps] eqn:Hs2; cbn [fst].
    - intros H. apply IH in H. revert H. apply ends_bell_later; cbn; auto.
      rewrite Hs2, <- Hn. apply incl_refl.
    - intros H. injection H as <-. left. split; [reflexivity|].
      rewrite <- Hn. left. reflexivity.
    - intros H. apply IH in H. revert H. apply ends_bell_later; cbn; auto.
      rewrite <- Hn. apply incl_tl, incl_refl. }
  destruct (sounds s) as [|[e0|] rest] eqn:Hsounds.
  - apply Hnap; try reflexivity. subst s1. cbn. rewrite Hsounds. apply incl_refl.
  - destruct (has_playsound s && is_playsound_error e0) eqn:Hd.
    + apply Hnap; try reflexivity. cbn. apply incl_tl, incl_refl.
    + cbn [fst]. intros H. injection H as <-. right.
      split; [rewrite ?Hsounds; cbn; left; reflexivity | exact Hd].
  - apply Hnap; try reflexivity. cbn. apply incl_tl, incl_refl.
Qed.

Lemma ring_keeps {A} (f : store -> A) rounds :
  (forall e s, f (emit e s) = f s) -> (forall x s, f (set_sleeps x s) = f s) ->
  (forall x s, f (set_sounds x s) = f s) ->
  preserves (keeps f) (Application.ring rounds).
Proof.
  intros He Hs Hp. induction rounds as [|rounds IH]; cbn [Application.ring];
    unfold playsound, sleep; pres; intros s0; cbn; unfold keeps; auto.
Qed.

(** X23: once a slot is found, the script rings and sleeps, and nothing
    else.  The second loop never returns.  An exception that ends it
    comes from a sleep that is interrupted or from the player: with the
    [playsound] module the script drops the player's own errors, without
    it any failure to start VLC ends the script.  As long as neither
    happens the loop goes on.  All it does is play [ding.mp3] and sleep
    five seconds; it sends no request (the replies of the server stay as
    they are), reads no input and writes no state. *)
Theorem X23_ring_never_returns (rounds : nat) (s : store) :
  let r := Application.ring rounds s in
  (forall v, fst r <> Ret v) /\
  (forall e, fst r = Exc e -> ends_bell s e) /\
  ((forall e, ~ ends_bell s e) -> fst r = Running) /\
  (exists evs, trace (snd r) = (evs ++ trace s)%list /\ Forall rings evs) /\
  replies (snd r) = replies s /\ stdin (snd r) = stdin s /\
  state_file (snd r) = state_file s.
Proof.
  intros r. subst r.
  split; [intros v; apply ring_outcome|]. split; [apply ring_ends|].
  split; [|split; [|split; [|split]]].
  - intros Hno. pose proof (ring_outcome rounds s) as Hret.
    pose proof (ring_ends rounds s) as Hexc.
    destruct (fst (Application.ring rounds s)) as [v|e|]; [|exfalso|reflexivity].
    + now contradiction (Hret v).
    + apply (Hno e), Hexc. reflexivity.
  - apply (ring_talks rings); [left | right]; reflexivity.
  - apply (ring_keeps replies); reflexivity.
  - apply (ring_keeps stdin); reflexivity.
  - apply (ring_keeps state_file); reflexivity.
Qed.

(** Without the [playsound] module and without VLC at the path of the
    script, the first ring ends the script. *)
Lemma ring_without_player :
  let s := mk_store [] [] true [] [Some FileNotFoundError] false ex_start (Ok false)
                    None false None JNull None "" empty_jar JNull JNull [] in
  let r := Application.ring 3 s in
  fst r = Exc FileNotFoundError /\ trace (snd r) = [EvPlaysound "ding.mp3"].
Proof. split; reflexivity. Qed.

(** ** After the login, the script only reads *)

Section Reads.

Variable a : args.

Let P_output : forall e, is_output e -> reads a e := reads_output a.

Lemma get_patients_reads : preserves (extends_by (reads a)) Doctolib.get_patients.
Proof.
  unfold Doctolib.get_patients. pres. apply go_talks. left. reflexivity.
Qed.

Lemma look_for_slots_reads fuel start :
  preserves (extends_by (reads a)) (Application.look_for_slots fuel a start).
Proof.
  apply look_for_slots_talks; try exact P_output; try reflexivity.
  - right. left. reflexivity.
  - intros r Hr. right. right. exact Hr.
Qed.

Lemma choose_patient_reads fuel ps n :
  preserves (extends_by (reads a)) (Application.choose_patient fuel ps n).
Proof.
  unfold Application.choose_patient. pres.
  - apply print_talks. exact P_output.
  - apply print_patients_talks. exact P_output.
  - apply ask_patient_talks. exact P_output.
Qed.

Lemma from_start_date_reads fuel :
  preserves (extends_by (reads a)) (Application.from_start_date fuel a).
Proof.
  unfold Application.from_start_date. pres;
    first [apply look_for_slots_reads | apply print_talks; exact P_output].
Qed.

Lemma once_logged_in_reads fuel :
  preserves (extends_by (reads a)) (Application.once_logged_in fuel a).
Proof.
  unfold Application.once_logged_in. pres.
  - apply get_patients_reads.
  - apply print_talks. exact P_output.
  - apply choose_patient_reads.
  - apply from_start_date_reads.
Qed.

End Reads.

Lemma reads_get a r :
  reads a (EvRequest r) -> rq_method r = "GET" /\ rq_json r = None.
Proof.
  intros [-> | [-> | [date [motive [ags [practice ->]]]]]]; split; reflexivity.
Qed.

(** X24: after [do_login], whatever it returned, the body of [main] only
    reads: each event that follows is a [GET] without a body, for the
    patients of the account, for the booking page of the doctor named
    on the command line or for availabilities, or a prompt or message,
    a sleep of five seconds, or the bell.  No login is sent again, and
    nothing is booked. *)
Theorem X24_run_reads_once_logged_in (fuel : nat) (a : args) (s : store) :
  exists evs,
    trace (snd (Application.run fuel a s))
    = (evs ++ trace (snd (Doctolib.do_login a s)))%list /\
    Forall (reads a) evs /\
    (forall r, In (EvRequest r) evs -> rq_method r = "GET" /\ rq_json r = None).
Proof.
  assert (H : exists evs,
             trace (snd (Application.run fuel a s))
             = (evs ++ trace (snd (Doctolib.do_login a s)))%list /\
             Forall (reads a) evs).
  { rewrite run_parts. unfold bind at 1.
    destruct (Doctolib.do_login a s) as [[[|]|e|] s1]; cbn [snd negb];
      try (exists []; split; [reflexivity | constructor]).
    apply once_logged_in_reads. }
  destruct H as [evs [Ht HF]]. exists evs. split; [exact Ht|]. split; [exact HF|].
  intros r Hr. apply (reads_get a). rewrite Forall_forall in HF. apply (HF _ Hr).
Qed.

(** ** What [main] returns *)

Lemma reports_failure_bind {A} (m : M A) (k : A -> M Z) :
  (forall x, reports_failure (k x)) -> reports_failure (bind m k).
Proof.
  intros Hk s v. unfold bind. destruct (m s) as [[x|e|] s1]; cbn [fst];
    try discriminate. apply Hk.
Qed.

Lemma reports_failure_ret : reports_failure (ret 1).
Proof. intros s v H. cbn in H. congruence. Qed.

Lemma ring_reports_failure rounds : reports_failure (Application.ring rounds).
Proof. intros s v H. now contradiction (ring_outcome rounds s v). Qed.

Lemma look_for_slots_reports_failure fuel a start :
  reports_failure (Application.look_for_slots fuel a start).
Proof.
  unfold Application.look_for_slots.
  repeat (apply reports_failure_bind; intros ?). apply ring_reports_failure.
Qed.

Lemma run_reports_failure fuel a : reports_failure (Application.run fuel a).
Proof.
  unfold Application.run.
  apply reports_failure_bind. intros logged.
  destruct (negb logged); [apply reports_failure_ret|].
  apply reports_failure_bind. intros patients.
  apply reports_failure_bind. intros n.
  destruct (n =? 0).
  - apply reports_failure_bind. intros _. apply reports_failure_ret.
  - apply reports_failure_bind. intros _.
    destruct (start_date a) as [text|].
    + destruct (negb (String.eqb text "")).
      * destruct (Application.strptime text) as [message|d].
        -- apply reports_failure_bind. intros _. apply reports_failure_ret.
        -- apply look_for_slots_reports_failure.
      * apply reports_failure_bind. intros d. apply look_for_slots_reports_failure.
    + apply reports_failure_bind. intros d. apply look_for_slots_reports_failure.
Qed.

Lemma main_reports_failure fuel a : reports_failure (Application.main fuel a).
Proof.
  unfold Application.main.
  repeat (apply reports_failure_bind; intros ?).
  intros s v. unfold try_finally.
  pose proof (run_reports_failure fuel a s) as Hrun.
  destruct (Application.run fuel a s) as [[w|e|] s1]; cbn [fst] in *.
  - fold save_on_exit. rewrite save_on_exit_saved. cbn [fst]. intros H.
    injection H as <-. apply (Hrun w). reflexivity.
  - fold save_on_exit. rewrite save_on_exit_saved. discriminate.
  - discriminate.
Qed.

(** X25: [main] returns only to report a failure: whenever it returns,
    the value is 1.  Once the polls have started it does not return any
    more; it ends by an exception or not at all. *)
Theorem X25_main_returns_only_failure (fuel : nat) (a : args) (s : store) (v : Z) :
  fst (Application.main fuel a s) = Ret v -> v = 1.
Proof. apply main_reports_failure. Qed.

Lemma X25_witness_wrong_password :
  fst (Application.main 3 ex_args ex_wrong_password) = Ret 1 /\ 1 = 1.
Proof.
  split; [reflexivity|].
  exact (X25_main_returns_only_failure 3 ex_args ex_wrong_password 1 eq_refl).
Defined.
